(** * parsepico: PICO-8 cartridge decoding, verified against its specification

    A shallow embedding of [main.go] (the canonical, JSON-producing variant,
    and the section-count rule of the historical variant that follows it in
    the same file).

    Conventions of the embedding.
    - A Go [int] is a [Z].  Every integer that [main] computes is an index
      below 2^11 or a value built from two hexadecimal digits, far from the
      wrap-around; [/] and [%] are Go's truncating [Z.quot] and [Z.rem].
      [renderMap], [drawSprite] and [drawBlackTile] multiply integers of
      their caller by [tileSize]: the embedding is exact while those
      products fit an [int], and a theorem that leaves the dimensions or
      the tile coordinates free assumes so ([map_dims_fit], [tile_coord]).
    - A Go [string] is its sequence of bytes, [list ascii]; [len] counts bytes
      and [s[i]] yields byte [i].
    - A run-time panic (index or slice bound out of range) is [None]; the
      [option] monad threads it through the loops.
    - A Go [error] result is [option string], [None] being [nil].
    - The files of one run are a finite map from path to raster; the PNG
      codec and the operating system are outside the verified core.

    The embedding of the source comes first, then the descriptions the
    proofs compare it with, then the lemmas and the claims C1-C10. *)

From Stdlib Require Import ZArith Zquot Lia Ascii String.
From stdpp Require Import base tactics option list list_numbers list_relations strings gmap.

Local Open Scope Z_scope.

(** ** Go primitives *)

Definition gostring := list ascii.

(** A string literal as a Go string. *)
Definition gs (s : string) : gostring := list_ascii_of_string s.

Definition error := option string.

(** [len(l)] of a slice or string. *)
Definition len {A} (l : list A) : Z := Z.of_nat (length l).

(** [l[i]]: panics unless [0 <= i < len(l)]. *)
Definition index {A} (l : list A) (i : Z) : option A :=
  if decide (0 ≤ i) then l !! Z.to_nat i else None.

(** [l[i] = v]: panics unless [0 <= i < len(l)]. *)
Definition set_index {A} (l : list A) (i : Z) (v : A) : option (list A) :=
  if decide (0 ≤ i < len l) then Some (<[Z.to_nat i := v]> l) else None.

(** [l[lo:hi]] on a slice whose capacity is its length: panics unless
    [0 <= lo <= hi <= len(l)]. *)
Definition slice {A} (l : list A) (lo hi : Z) : option (list A) :=
  if decide (0 ≤ lo ∧ lo ≤ hi ∧ hi ≤ len l)
  then Some (take (Z.to_nat (hi - lo)) (drop (Z.to_nat lo) l))
  else None.

(** [rune(s[i])]: the byte as a code point. *)
Definition rune (c : ascii) : Z := Z.of_N (N_of_ascii c).

(** A loop whose iteration space [idx] is fixed on entry and whose body
    threads the mutated variables [s]. *)
Fixpoint loop {I S} (body : I → S → option S) (idx : list I) (s : S) : option S :=
  match idx with
  | [] => Some s
  | i :: rest => s' ← body i s; loop body rest s'
  end.

(** [for i := lo; i < hi; i++ { body }] *)
Definition for_range {S} (lo hi : Z) (body : Z → S → option S) (s : S) : option S :=
  loop body (seqZ lo (hi - lo)) s.

(** [for i, v := range l { body }] over a slice. *)
Definition for_each {A S} (l : list A) (body : Z → A → S → option S) (s : S) : option S :=
  loop (λ iv, body iv.1 iv.2) (zip (seqZ 0 (len l)) l) s.

(** ** NibbleDecoder *)

(** [parseHexChar], on a rune. *)
Definition parseHexChar (c : Z) : Z :=
  if (rune "0" <=? c) && (c <=? rune "9") then c - rune "0"
  else if (rune "a" <=? c) && (c <=? rune "f") then (c - rune "a") + 10
  else if (rune "A" <=? c) && (c <=? rune "F") then (c - rune "A") + 10
  else -1.

(** ** MapModelBuilder *)

Module MapCell.
Record t := mk { X : Z; Y : Z; Sprite : Z }.
End MapCell.

Module MapSheet.
Record t := mk {
  Version : string;
  Description : string;
  Width : Z;
  Height : Z;
  Name : string;
  Cells : list MapCell.t
}.
End MapSheet.

(** The height computed at the head of [generateMapJSON] (and, as
    [mapHeight], in [main]). *)
Definition mapHeight (useSection3 useSection4 : bool) : Z :=
  let height := 32 in
  let height := if useSection3 then 48 else height in
  let height := if useSection4 then 64 else height in
  height.

(** Body of the inner loop over [x] for the base section (lines 292-305). *)
Definition baseTile (line : gostring) (y x : Z) (cells : list MapCell.t)
  : option (list MapCell.t) :=
  if decide (x * 2 + 1 < len line) then
    c1 ← index line (x * 2);
    c2 ← index line (x * 2 + 1);
    let spriteY := parseHexChar (rune c1) in
    let spriteX := parseHexChar (rune c2) in
    let spriteID := spriteY * 16 + spriteX in
    Some (cells ++ [MapCell.mk x y spriteID])
  else Some cells.

(** The base-section loop (lines 288-308). *)
Definition baseSection (mapData : list gostring) (width : Z)
    (cells : list MapCell.t) : option (list MapCell.t) :=
  for_range 0 32 (λ y cells,
    if decide (y < len mapData) then
      line ← index mapData y;
      for_range 0 width (baseTile line y) cells
    else Some cells) cells.

(** Body of the inner loop over [x] for a dual-purpose section (lines
    325-346 and 367-388; the two copies differ only in the base row, 32 for
    section 3 and 48 for section 4). *)
Definition dualTile (baseRow : Z) (line : gostring) (y x : Z)
    (cells : list MapCell.t) : option (list MapCell.t) :=
  let yIsEven := Z.rem y 2 =? 0 in
  c1 ← index line (x * 2);
  c2 ← index line (x * 2 + 1);
  let spriteX := parseHexChar (rune c1) in
  let spriteY := parseHexChar (rune c2) in
  let spriteID := spriteY * 16 + spriteX in
  if yIsEven then
    Some (cells ++ [MapCell.mk x (baseRow + Z.quot y 2) spriteID])
  else
    Some (cells ++ [MapCell.mk (64 + x) (baseRow + Z.quot (y - 1) 2) spriteID]).

(** One dual-purpose block (lines 311-350 with [startRow = 64],
    [baseRow = 32]; lines 353-392 with [startRow = 96], [baseRow = 48]). *)
Definition dualSection (startRow baseRow : Z) (gfxData : list gostring)
    (cells : list MapCell.t) : option (list MapCell.t) :=
  let endRow := startRow + 32 in
  let endRow := if decide (endRow > len gfxData) then len gfxData else endRow in
  if decide (startRow < len gfxData) then
    sectionData ← slice gfxData startRow endRow;
    for_range 0 (len sectionData) (λ y cells,
      line ← index sectionData y;
      for_range 0 (Z.quot (len line) 2) (dualTile baseRow line y) cells) cells
  else Some cells.

Definition generateMapJSON (mapData gfxData : list gostring)
    (useSection3 useSection4 : bool) : option (MapSheet.t * error) :=
  let width := 128 in
  let height := mapHeight useSection3 useSection4 in
  let cells := [] in
  cells ← baseSection mapData width cells;
  cells ← (if useSection3 then dualSection (8 * 8) 32 gfxData cells else Some cells);
  cells ← (if useSection4 then dualSection (12 * 8) 48 gfxData cells else Some cells);
  Some (MapSheet.mk "1.0" "PICO-8 map export" width height "main" cells, None).

(** ** Colours and rasters *)

Module color.
Record RGBA := mk { R : Z; G : Z; B : Z; A : Z }.
(** The zero colour, [color.RGBA{}]: transparent black. *)
Definition zero : RGBA := mk 0 0 0 0.
End color.

(** PICO-8 16-color palette *)
Definition pico8Palette : list color.RGBA :=
  [ color.mk 0 0 0 255;
    color.mk 29 43 83 255;
    color.mk 126 37 83 255;
    color.mk 0 135 81 255;
    color.mk 171 82 54 255;
    color.mk 95 87 79 255;
    color.mk 194 195 199 255;
    color.mk 255 241 232 255;
    color.mk 255 0 77 255;
    color.mk 255 163 0 255;
    color.mk 255 236 39 255;
    color.mk 0 228 54 255;
    color.mk 41 173 255 255;
    color.mk 131 118 156 255;
    color.mk 255 119 168 255;
    color.mk 255 204 170 255 ].

(** [image.RGBA] with bounds [image.Rect(0, 0, W, H)]: one [color.RGBA] per
    pixel, row-major ([Stride = W]).  [At] outside the bounds is the zero
    colour and [Set] outside the bounds does nothing, as in package
    [image]. *)
Module image.
Record RGBA := mk { Pix : list color.RGBA; W : Z; H : Z }.

Definition NewRGBA (w h : Z) : RGBA :=
  mk (replicate (Z.to_nat (w * h)) color.zero) w h.

Definition inBounds (p : RGBA) (x y : Z) : Prop :=
  0 ≤ x ∧ x < W p ∧ 0 ≤ y ∧ y < H p.

Definition PixOffset (p : RGBA) (x y : Z) : nat := Z.to_nat (y * W p + x).

Definition At (p : RGBA) (x y : Z) : color.RGBA :=
  if decide (inBounds p x y)
  then default color.zero (Pix p !! PixOffset p x y)
  else color.zero.

Definition Set_ (p : RGBA) (x y : Z) (c : color.RGBA) : RGBA :=
  if decide (inBounds p x y)
  then mk (<[PixOffset p x y := c]> (Pix p)) (W p) (H p)
  else p.
End image.

(** ** AtlasReconstructor *)

Definition RuneError : Z := 0xFFFD.

(** For a leading byte at or above 0x80: the length of the sequence it
    opens and the accepted range of the second byte, as in the tables
    [first] and [acceptRanges] of package [unicode/utf8]; [None] for a byte
    that opens no sequence. *)
Definition utf8_first (s0 : Z) : option (Z * Z * Z) :=
  if s0 <? 0xC2 then None
  else if s0 <? 0xE0 then Some (2, 0x80, 0xBF)
  else if s0 =? 0xE0 then Some (3, 0xA0, 0xBF)
  else if s0 =? 0xED then Some (3, 0x80, 0x9F)
  else if s0 <? 0xF0 then Some (3, 0x80, 0xBF)
  else if s0 =? 0xF0 then Some (4, 0x90, 0xBF)
  else if s0 <? 0xF4 then Some (4, 0x80, 0xBF)
  else if s0 =? 0xF4 then Some (4, 0x80, 0x8F)
  else None.

Definition continuation (b : Z) : bool := (0x80 <=? b) && (b <=? 0xBF).

(** [utf8.DecodeRuneInString]: the code point at the head of [s] and its
    width in bytes; an invalid sequence is [RuneError] of width 1. *)
Definition decodeRune (s : gostring) : Z * Z :=
  match s with
  | [] => (RuneError, 0)
  | c0 :: t =>
    let s0 := rune c0 in
    if s0 <? 0x80 then (s0, 1) else
    match utf8_first s0 with
    | None => (RuneError, 1)
    | Some (sz, lo, hi) =>
      if len s <? sz then (RuneError, 1) else
      match t with
      | [] => (RuneError, 1)
      | c1 :: t1 =>
        let s1 := rune c1 in
        if (s1 <? lo) || (hi <? s1) then (RuneError, 1) else
        if sz <=? 2 then
          (Z.lor (Z.shiftl (Z.land s0 0x1F) 6) (Z.land s1 0x3F), 2) else
        match t1 with
        | [] => (RuneError, 1)
        | c2 :: t2 =>
          let s2 := rune c2 in
          if negb (continuation s2) then (RuneError, 1) else
          if sz <=? 3 then
            (Z.lor (Z.lor (Z.shiftl (Z.land s0 0x0F) 12)
                          (Z.shiftl (Z.land s1 0x3F) 6))
                   (Z.land s2 0x3F), 3) else
          match t2 with
          | [] => (RuneError, 1)
          | c3 :: _ =>
            let s3 := rune c3 in
            if negb (continuation s3) then (RuneError, 1) else
            (Z.lor (Z.lor (Z.lor (Z.shiftl (Z.land s0 0x07) 18)
                                 (Z.shiftl (Z.land s1 0x3F) 12))
                          (Z.shiftl (Z.land s2 0x3F) 6))
                   (Z.land s3 0x3F), 4)
          end
        end
      end
    end
  end.

(** The pairs [(i, r)] that [for i, r := range s] visits: byte offset and
    code point.  Every step consumes at least one byte, so [length s] steps
    exhaust the string. *)
Fixpoint range_string_from (steps : nat) (i : Z) (s : gostring) : list (Z * Z) :=
  match steps with
  | O => []
  | S k =>
    match s with
    | [] => []
    | _ :: _ =>
      let '(r, sz) := decodeRune s in
      (i, r) :: range_string_from k (i + sz) (drop (Z.to_nat sz) s)
    end
  end.

Definition range_string (s : gostring) : list (Z * Z) :=
  range_string_from (length s) 0 s.

(** Body of the inner loop of [reconstructImage] (lines 437-443). *)
Definition reconstructPixel (y x hexChar : Z) (img : image.RGBA) : option image.RGBA :=
  let colorIndex := parseHexChar hexChar in
  if decide (colorIndex >= 0 ∧ colorIndex < len pico8Palette) then
    c ← index pico8Palette colorIndex;
    Some (image.Set_ img x y c)
  else
    c ← index pico8Palette 0;
    Some (image.Set_ img x y c).

Definition reconstructImage (gfxData : list gostring) : option image.RGBA :=
  let size := 16 * 8 in
  let img := image.NewRGBA size size in
  for_each gfxData (λ y line img,
    loop (λ xc img, reconstructPixel y xc.1 xc.2 img) (range_string line) img) img.

(** ** MapCompositor *)

(** [drawSprite] copies an 8x8 region from the sprite sheet.  The products
    by [tileSize] are exact for coordinates that satisfy [tile_coord], as
    all those that [renderMap] passes do. *)
Definition drawSprite (dst src : image.RGBA) (spriteX spriteY dstTileX dstTileY : Z)
  : option image.RGBA :=
  let tileSize := 8 in
  let srcX := spriteX * tileSize in
  let srcY := spriteY * tileSize in
  let dstX := dstTileX * tileSize in
  let dstY := dstTileY * tileSize in
  for_range 0 tileSize (λ yy dst,
    for_range 0 tileSize (λ xx dst,
      Some (image.Set_ dst (dstX + xx) (dstY + yy)
              (image.At src (srcX + xx) (srcY + yy)))) dst) dst.

(** [drawBlackTile] just fills an 8x8 region with black; exact for tile
    coordinates that satisfy [tile_coord]. *)
Definition drawBlackTile (dst : image.RGBA) (tileX tileY : Z) : option image.RGBA :=
  let tileSize := 8 in
  let dstX := tileX * tileSize in
  let dstY := tileY * tileSize in
  for_range 0 tileSize (λ yy dst,
    for_range 0 tileSize (λ xx dst,
      c ← index pico8Palette 0;
      Some (image.Set_ dst (dstX + xx) (dstY + yy) c)) dst) dst.

(** Loop body for one tile of the regular map (lines 472-477). *)
Definition renderBaseTile (spriteSheet : image.RGBA) (line : gostring) (y x : Z)
    (mapImage : image.RGBA) : option image.RGBA :=
  c1 ← index line (x * 2);
  c2 ← index line (x * 2 + 1);
  let spriteY := parseHexChar (rune c1) in
  let spriteX := parseHexChar (rune c2) in
  if decide (spriteX ≠ 0 ∨ spriteY ≠ 0) then
    drawSprite mapImage spriteSheet spriteX spriteY x y
  else Some mapImage.

(** Loop body for one tile of dual-purpose section 1, i.e. section 3
    (lines 486-501). *)
Definition renderSection3Tile (spriteSheet : image.RGBA) (line : gostring) (y x : Z)
    (mapImage : image.RGBA) : option image.RGBA :=
  c1 ← index line (x * 2);
  c2 ← index line (x * 2 + 1);
  let spriteX := parseHexChar (rune c1) in
  let spriteY := parseHexChar (rune c2) in
  let yIsEven := Z.rem y 2 =? 0 in
  if yIsEven then
    if decide (spriteX ≠ 0 ∨ spriteY ≠ 0) then
      drawSprite mapImage spriteSheet spriteX spriteY x (32 + Z.quot y 2)
    else
      drawBlackTile mapImage x (32 + Z.quot y 2)
  else
    if decide (spriteX ≠ 0 ∨ spriteY ≠ 0) then
      drawSprite mapImage spriteSheet spriteX spriteY (64 + x) (32 + Z.quot (y - 1) 2)
    else Some mapImage.

(** Loop body for one tile of dual-purpose section 2, i.e. section 4
    (lines 511-523). *)
Definition renderSection4Tile (spriteSheet : image.RGBA) (line : gostring) (y x : Z)
    (mapImage : image.RGBA) : option image.RGBA :=
  c1 ← index line (x * 2);
  c2 ← index line (x * 2 + 1);
  let spriteX := parseHexChar (rune c1) in
  let spriteY := parseHexChar (rune c2) in
  let yIsEven := Z.rem y 2 =? 0 in
  if yIsEven then
    if decide (spriteX ≠ 0 ∨ spriteY ≠ 0) then
      drawSprite mapImage spriteSheet spriteX spriteY x (48 + Z.quot y 2)
    else Some mapImage
  else
    if decide (spriteX ≠ 0 ∨ spriteY ≠ 0) then
      drawSprite mapImage spriteSheet spriteX spriteY (64 + x) (48 + Z.quot (y - 1) 2)
    else Some mapImage.

(** The row loop shared by the three passes of [renderMap]. *)
Definition renderRows (tile : gostring → Z → Z → image.RGBA → option image.RGBA)
    (rows : list gostring) (mapImage : image.RGBA) : option image.RGBA :=
  for_range 0 (len rows) (λ y mapImage,
    line ← index rows y;
    for_range 0 (Z.quot (len line) 2) (tile line y) mapImage) mapImage.

(** [renderMap]; a [nil] dual-purpose slice is [None].  The products
    [mapWidth*tileSize] and [mapHeight*tileSize] and the size of the raster
    are exact for dimensions that satisfy [map_dims_fit], as [main]'s 128
    by 32, 48 or 64 do. *)
Definition renderMap (mapData : list gostring)
    (dualPurposeSection1 dualPurposeSection2 : option (list gostring))
    (spriteSheet : image.RGBA) (mapWidth mapHeight : Z) : option image.RGBA :=
  let tileSize := 8 in
  let mapImage := image.NewRGBA (mapWidth * tileSize) (mapHeight * tileSize) in
  mapImage ← for_range 0 (mapHeight * tileSize) (λ y mapImage,
    for_range 0 (mapWidth * tileSize) (λ x mapImage,
      c ← index pico8Palette 0;
      Some (image.Set_ mapImage x y c)) mapImage) mapImage;
  mapImage ← renderRows (renderBaseTile spriteSheet) mapData mapImage;
  mapImage ← match dualPurposeSection1 with
             | Some rows => renderRows (renderSection3Tile spriteSheet) rows mapImage
             | None => Some mapImage
             end;
  mapImage ← match dualPurposeSection2 with
             | Some rows => renderRows (renderSection4Tile spriteSheet) rows mapImage
             | None => Some mapImage
             end;
  Some mapImage.

(** ** SectionCompositor *)

(** The section count of the canonical variant ([main], lines 220-227, and
    again in [saveSprites], lines 588-595). *)
Definition numSections (useSection3 useSection4 : bool) : Z :=
  if negb useSection3 && negb useSection4 then 4
  else if negb useSection3 then 3
  else if negb useSection4 then 3
  else 2.

(** The section count of the historical variant (second [main], lines
    1109-1112). *)
Definition numSections_historical (useSection3 useSection4 : bool) : Z :=
  if useSection3 || useSection4 then 2 else 4.

(** [strconv]-style decimal digits of a non-negative [int], as [%d] prints
    them. *)
Definition digit (d : Z) : ascii := ascii_of_N (Z.to_N (rune "0" + d)).

Fixpoint digits (steps : nat) (n : Z) (acc : string) : string :=
  match steps with
  | O => acc
  | S k =>
    let acc := String (digit (Z.rem n 10)) acc in
    if Z.quot n 10 =? 0 then acc else digits k (Z.quot n 10) acc
  end.

(** [fmt.Sprintf("%d", n)] for [0 <= n]. *)
Definition fmt_d (n : Z) : string := digits (S (Z.to_nat n)) n "".

(** [fmt.Sprintf("%03d", n)] for [0 <= n]. *)
Definition fmt_03d (n : Z) : string :=
  let s := fmt_d n in
  String.concat "" (replicate (3 - String.length s)%nat "0"%string) +:+ s.

(** The files written and read back within one run: path to decoded
    raster.  The PNG codec and the file system are outside the verified
    core: [saveAsPng] followed by [loadImage] on the same path returns the
    raster written, and neither fails for want of disk or permissions. *)
Definition saveAsPng (img : image.RGBA) (path : string)
    (fs : gmap string image.RGBA) : gmap string image.RGBA :=
  <[path := img]> fs.

Definition loadImage (path : string) (fs : gmap string image.RGBA) : option image.RGBA :=
  fs !! path.

(** [sub.Set(xx, yy, sheet.At(x0+xx, y0+yy))] for all [xx < w], [yy < h]. *)
Definition copyRegion (w h x0 y0 : Z) (spriteSheet sub : image.RGBA) : option image.RGBA :=
  for_range 0 h (λ yy sub,
    for_range 0 w (λ xx sub,
      Some (image.Set_ sub xx yy (image.At spriteSheet (x0 + xx) (y0 + yy)))) sub) sub.

(** [saveSprites] writes individual sprite images plus sub-image sections. *)
Definition saveSprites (spriteSheet : image.RGBA) (useSection3 useSection4 : bool)
    (fs : gmap string image.RGBA) : option (gmap string image.RGBA) :=
  let tileSize := 8 in
  let spritesPerRow := 16 in
  let spriteRanges := [(0, 127)] in
  let spriteRanges :=
    if negb useSection3 then spriteRanges ++ [(128, 191)] else spriteRanges in
  let spriteRanges :=
    if negb useSection4 then spriteRanges ++ [(192, 255)] else spriteRanges in
  let numSections := numSections useSection3 useSection4 in
  fs ← loop (λ (r : Z * Z) fs,
    if useSection3 && useSection4 && bool_decide (r.1 > 127) then Some fs
    else
      for_range r.1 (r.2 + 1) (λ spriteNum fs,
        let spriteY := Z.quot spriteNum spritesPerRow * tileSize in
        let spriteX := Z.rem spriteNum spritesPerRow * tileSize in
        let sprImg := image.NewRGBA tileSize tileSize in
        sprImg ← copyRegion tileSize tileSize spriteX spriteY spriteSheet sprImg;
        let spritePath := "sprites/sprite_" +:+ fmt_03d spriteNum +:+ ".png" in
        Some (saveAsPng sprImg spritePath fs)) fs) spriteRanges fs;
  let subImageHeight := 4 * tileSize in
  let subImageWidth := 16 * tileSize in
  for_range 0 numSections (λ i fs,
    let subImg := image.NewRGBA subImageWidth subImageHeight in
    let startY := i * subImageHeight in
    subImg ← copyRegion subImageWidth subImageHeight 0 startY spriteSheet subImg;
    let subImagePath := "sprites/section_" +:+ fmt_d i +:+ ".png" in
    Some (saveAsPng subImg subImagePath fs)) fs.

(** The first loop of [combineSectionsIntoSpriteSheet] (lines 707-721),
    which returns from the function when a section cannot be opened. *)
Fixpoint combineLoad (idx : list Z) (fs : gmap string image.RGBA)
    (combined : image.RGBA) : option (image.RGBA + string) :=
  match idx with
  | [] => Some (inl combined)
  | i :: rest =>
    let sectionPath := "sprites/section_" +:+ fmt_d i +:+ ".png" in
    match loadImage sectionPath fs with
    | None => Some (inr ("failed to open " +:+ sectionPath))
    | Some sectionImg =>
      let destY := i * 32 in
      combined ← for_range 0 32 (λ y combined,
        for_range 0 128 (λ x combined,
          Some (image.Set_ combined x (destY + y) (image.At sectionImg x y)))
          combined) combined;
      combineLoad rest fs combined
    end
  end.

(** [combineSectionsIntoSpriteSheet]: the file store after the call and the
    error returned. *)
Definition combineSectionsIntoSpriteSheet (numSections : Z)
    (fs : gmap string image.RGBA) : option (gmap string image.RGBA * error) :=
  let sectionWidth := 128 in
  let sectionHeight := 32 in
  let combined := image.NewRGBA sectionWidth (sectionHeight * 4) in
  r ← combineLoad (seqZ 0 numSections) fs combined;
  match r with
  | inr e => Some (fs, Some e)
  | inl combined =>
    combined ← for_range numSections 4 (λ i combined,
      let destY := i * sectionHeight in
      for_range 0 sectionHeight (λ y combined,
        for_range 0 sectionWidth (λ x combined,
          Some (image.Set_ combined x (destY + y) (color.mk 0 0 0 0)))
          combined) combined) combined;
    Some (saveAsPng combined "spritesheet.png" fs, None)
  end.

(** The part of [main] that exports the sheet (lines 199, 217-230): the
    file store after it and the error of the compositor. *)
Definition exportSpriteSheet (gfxData : list gostring) (useSection3 useSection4 : bool)
    (fs : gmap string image.RGBA) : option (gmap string image.RGBA * error) :=
  spriteSheet ← reconstructImage gfxData;
  fs ← saveSprites spriteSheet useSection3 useSection4 fs;
  let numSections := numSections useSection3 useSection4 in
  combineSectionsIntoSpriteSheet numSections fs.

(** ** AtlasModelBuilder *)

Module SpriteFlags.
Record t := mk { Bitfield : Z; Individual : list bool }.
End SpriteFlags.

Module Sprite.
Record t := mk {
  ID : Z;
  X : Z;
  Y : Z;
  Width : Z;
  Height : Z;
  Pixels : list (list Z);
  Flags : SpriteFlags.t;
  Used : bool;
  Filename : string
}.
End Sprite.

Module SpriteRange.
Record t := mk { Start : Z; End_ : Z; Used : bool; Description : string }.
End SpriteRange.

Module SpriteSections.
Record t := mk { Base : bool; Section3 : bool; Section4 : bool }.
End SpriteSections.

Module AvailableSprites.
Record t := mk {
  Total : Z;
  Ranges : list SpriteRange.t;
  Sections : SpriteSections.t
}.
End AvailableSprites.

Module PaletteColor.
Record t := mk { R : Z; G : Z; B : Z; A : Z }.
End PaletteColor.

Module MetaData.
Record t := mk {
  SpriteWidth : Z;
  SpriteHeight : Z;
  GridWidth : Z;
  GridHeight : Z;
  AvailableSprites : AvailableSprites.t;
  Palette : list PaletteColor.t
}.
End MetaData.

Module SpriteSheet.
Record t := mk {
  Version : string;
  Description : string;
  Sprites : list Sprite.t;
  Metadata : MetaData.t
}.
End SpriteSheet.

(** [getFlagArray] converts a flag byte into array of 8 booleans. *)
Definition getFlagArray (flagByte : Z) : option (list bool) :=
  let flags := replicate 8 false in
  for_range 0 8 (λ i flags,
    set_index flags i (bool_decide (Z.land flagByte (Z.shiftl 1 i) ≠ 0))) flags.

(** The loop [for j := 0; j < 8 && x*8+j < len(line); j++] of lines
    867-871: the guard [j < 8] bounds it by [steps = 8] rounds. *)
Fixpoint pixelRow (steps : nat) (line : gostring) (x j : Z) (row : list Z)
  : option (list Z) :=
  match steps with
  | O => Some row
  | S k =>
    if bool_decide (j < 8) && bool_decide (x * 8 + j < len line) then
      row ← (if decide (x * 8 + j < len line) then
               c ← index line (x * 8 + j);
               set_index row j (parseHexChar (rune c))
             else Some row);
      pixelRow k line x (j + 1) row
    else Some row
  end.

(** Create pixel data for one sprite (lines 862-873). *)
Definition spritePixels (gfxData : list gostring) (x y : Z) : option (list (list Z)) :=
  let pixels := replicate 8 [] in
  for_range 0 (len pixels) (λ i pixels,
    pixels ← set_index pixels i (replicate 8 0);
    if decide (y * 8 + i < len gfxData) then
      line ← index gfxData (y * 8 + i);
      row ← index pixels i;
      row ← pixelRow 8 line x 0 row;
      set_index pixels i row
    else Some pixels) pixels.

(** The scan of one row for a non-zero pixel, leaving at the first one
    (lines 878-883). *)
Fixpoint scanRow (row : list Z) (used : bool) : bool :=
  match row with
  | [] => used
  | pixel :: rest => if decide (pixel ≠ 0) then true else scanRow rest used
  end.

(** The scan of the grid, leaving once [used] is set (lines 876-887). *)
Fixpoint scanPixels (pixels : list (list Z)) (used : bool) : bool :=
  match pixels with
  | [] => used
  | row :: rest =>
    let used := scanRow row used in
    if used then used else scanPixels rest used
  end.

(** Body of the loop over [spriteID] (lines 852-905). *)
Definition spriteEntry (gfxData : list gostring) (flagData : list Z)
    (useSection3 useSection4 : bool) (spriteID : Z) (sprites : list Sprite.t)
  : option (list Sprite.t) :=
  if (bool_decide (spriteID >= 128) && bool_decide (spriteID < 192) && useSection3)
     || (bool_decide (spriteID >= 192) && useSection4)
  then Some sprites
  else
    let x := Z.rem spriteID 16 in
    let y := Z.quot spriteID 16 in
    pixels ← spritePixels gfxData x y;
    let used := scanPixels pixels false in
    bitfield ← index flagData spriteID;
    flagByte ← index flagData spriteID;
    individual ← getFlagArray flagByte;
    let sprite :=
      Sprite.mk spriteID x y 8 8 pixels (SpriteFlags.mk bitfield individual) used
        ("sprite_" +:+ fmt_03d spriteID +:+ ".png") in
    Some (sprites ++ [sprite]).

(** The available-sprites block as initialised (lines 794-809) and then
    updated (lines 825-848). *)
Definition availableSprites (useSection3 useSection4 : bool) : AvailableSprites.t :=
  let total := 128 in
  let ranges := [SpriteRange.mk 0 127 true "Base sprites"] in
  let sections := SpriteSections.mk true useSection3 useSection4 in
  let '(total, ranges) :=
    if negb useSection3
    then (total + 64, ranges ++ [SpriteRange.mk 128 191 true "Section 3 sprites"])
    else (total, ranges) in
  let '(total, ranges) :=
    if negb useSection4
    then (total + 64, ranges ++ [SpriteRange.mk 192 255 true "Section 4 sprites"])
    else (total, ranges) in
  AvailableSprites.mk total ranges sections.

(** [generateSpriteSheetJSON] creates the JSON representation of the
    spritesheet. *)
Definition generateSpriteSheetJSON (gfxData : list gostring) (flagData : list Z)
    (useSection3 useSection4 : bool) : option (SpriteSheet.t * error) :=
  let palette := replicate (Z.to_nat (len pico8Palette)) (PaletteColor.mk 0 0 0 0) in
  palette ← for_each pico8Palette (λ i col palette,
    set_index palette i
      (PaletteColor.mk (color.R col) (color.G col) (color.B col) (color.A col)))
    palette;
  let available := availableSprites useSection3 useSection4 in
  sprites ← for_range 0 256 (spriteEntry gfxData flagData useSection3 useSection4) [];
  Some (SpriteSheet.mk "1.0" "PICO-8 spritesheet export" sprites
          (MetaData.mk 8 8 16 16 available palette), None).

(** ** FlagDecoder *)

(** The loop [for i := 0; i < len(line)-1 && i/2 < 128; i += 2] of
    [parseFlagSection] (lines 759-768), which leaves at
    [spriteIndex >= 256]; the guard [i/2 < 128] bounds it by
    [steps = 128] rounds. *)
Fixpoint flagLine (steps : nat) (line : gostring) (lineNum i : Z) (flagData : list Z)
  : option (list Z) :=
  match steps with
  | O => Some flagData
  | S k =>
    if bool_decide (i < len line - 1) && bool_decide (Z.quot i 2 < 128) then
      let spriteIndex := lineNum * 128 + Z.quot i 2 in
      if decide (spriteIndex >= 256) then Some flagData
      else
        c1 ← index line i;
        c2 ← index line (i + 1);
        let flagValue := parseHexChar (rune c1) * 16 + parseHexChar (rune c2) in
        flagData ← set_index flagData spriteIndex flagValue;
        flagLine k line lineNum (i + 2) flagData
    else Some flagData
  end.

(** The loop over the lines of the section (lines 753-769), which leaves
    at the third line. *)
Fixpoint flagLines (section : list gostring) (lineNum : Z) (flagData : list Z)
  : option (list Z) :=
  match section with
  | [] => Some flagData
  | line :: rest =>
    if decide (lineNum >= 2) then Some flagData
    else
      flagData ← flagLine 128 line lineNum 0 flagData;
      flagLines rest (lineNum + 1) flagData
  end.

(** [parseFlagSection], from the lines of the flag section that
    [parseSection] has extracted. *)
Definition parseFlagSection (section : list gostring) : option (list Z) :=
  let flagData := replicate 256 0 in
  if decide (len section = 0) then Some flagData
  else flagLines section 0 flagData.

(** ** The stages of [main] that feed the compositors *)

(** A dual-purpose slice as [main] cuts it (lines 175-185 with
    [startRow = 64], lines 187-196 with [startRow = 96]): [nil] unless the
    option is set and the graphics section reaches [startRow]. *)
Definition dualPurposeSlice (use : bool) (startRow : Z) (gfxData : list gostring)
  : option (option (list gostring)) :=
  if use then
    let endRow := startRow + 32 in
    let endRow := if decide (endRow > len gfxData) then len gfxData else endRow in
    if decide (startRow < len gfxData) then
      sectionData ← slice gfxData startRow endRow;
      Some (Some sectionData)
    else Some None
  else Some None.

(** Lines 174-211 of [main]: the map raster of a cartridge. *)
Definition renderCartMap (mapData gfxData : list gostring)
    (useSection3 useSection4 : bool) : option image.RGBA :=
  dualPurposeSection1 ← dualPurposeSlice useSection3 (8 * 8) gfxData;
  dualPurposeSection2 ← dualPurposeSlice useSection4 (12 * 8) gfxData;
  spriteSheet ← reconstructImage gfxData;
  let mapHeight := mapHeight useSection3 useSection4 in
  renderMap mapData dualPurposeSection1 dualPurposeSection2 spriteSheet 128 mapHeight.

(** Lines 168 and 233 of [main]: the atlas model of a cartridge. *)
Definition cartSpriteSheetJSON (gfxData flagSection : list gostring)
    (useSection3 useSection4 : bool) : option (SpriteSheet.t * error) :=
  flagData ← parseFlagSection flagSection;
  generateSpriteSheetJSON gfxData flagData useSection3 useSection4.

(** ** SectionExtractor *)

(** [strings.HasPrefix(s, prefix)] *)
Fixpoint HasPrefix (s prefix : gostring) : bool :=
  match prefix with
  | [] => true
  | p :: prefix' =>
    match s with
    | [] => false
    | c :: s' => bool_decide (c = p) && HasPrefix s' prefix'
    end
  end.

(** One round of the scan of [parseSection] (lines 411-425) on the
    variables [inSection] and [section]. *)
Definition parseSectionLine (sectionName : gostring)
    (st : bool * list gostring) (line : gostring) : bool * list gostring :=
  let '(inSection, section) := st in
  if HasPrefix line sectionName then (true, section)
  else
    let inSection :=
      if HasPrefix line (gs "__") && negb (bool_decide (line = sectionName))
      then false else inSection in
    if inSection then (inSection, section ++ [line]) else (inSection, section).

(** [parseSection], from the lines that the scanner yields for the
    cartridge file. *)
Definition parseSection (lines : list gostring) (sectionName : gostring)
  : list gostring :=
  (foldl (parseSectionLine sectionName) (false, []) lines).2.

(** ** Sprite images from the atlas model *)

(** The scan of the ranges for one that holds [id], leaving at the first
    (lines 942-948). *)
Fixpoint isAvailable (ranges : list SpriteRange.t) (id : Z) : bool :=
  match ranges with
  | [] => false
  | r :: rest =>
    if bool_decide (id >= SpriteRange.Start r) && bool_decide (id <= SpriteRange.End_ r)
    then true else isAvailable rest id
  end.

(** The raster of one sprite record (lines 955-969). *)
Definition spriteImage (palette : list PaletteColor.t) (sprite : Sprite.t)
  : option image.RGBA :=
  let img := image.NewRGBA (Sprite.Width sprite) (Sprite.Height sprite) in
  for_range 0 (Sprite.Height sprite) (λ y img,
    for_range 0 (Sprite.Width sprite) (λ x img,
      row ← index (Sprite.Pixels sprite) y;
      colorIndex ← index row x;
      if decide (colorIndex >= 0 ∧ colorIndex < len palette) then
        col ← index palette colorIndex;
        Some (image.Set_ img x y
                (color.mk (PaletteColor.R col) (PaletteColor.G col)
                   (PaletteColor.B col) (PaletteColor.A col)))
      else Some (image.Set_ img x y (color.mk 0 0 0 255))) img) img.

(** [createIndividualSpritePNGs], from the sprite sheet that
    [json.Unmarshal] reads back (the value [saveSpritesheetJSON] wrote);
    [filepath.Join("sprites", name)] of a plain file name is
    ["sprites/" + name]. *)
Definition createIndividualSpritePNGs (spriteSheet : SpriteSheet.t)
    (fs : gmap string image.RGBA) : option (gmap string image.RGBA * error) :=
  fs ← loop (λ sprite fs,
    if negb (isAvailable
               (AvailableSprites.Ranges
                  (MetaData.AvailableSprites (SpriteSheet.Metadata spriteSheet)))
               (Sprite.ID sprite))
    then Some fs
    else
      img ← spriteImage (MetaData.Palette (SpriteSheet.Metadata spriteSheet)) sprite;
      let filename := "sprites/" +:+ Sprite.Filename sprite in
      Some (saveAsPng img filename fs)) (SpriteSheet.Sprites spriteSheet) fs;
  Some (fs, None).

(** ** Reference descriptions used by the proofs *)

(** Byte [i] of a line as a code point, 0 past the end. *)
Definition byteAt (line : gostring) (i : Z) : Z :=
  default 0 (rune <$> index line i).

(** The cell of the base section at column [x] of row [y]. *)
Definition baseCell (line : gostring) (y x : Z) : MapCell.t :=
  MapCell.mk x y (parseHexChar (byteAt line (x * 2)) * 16
                  + parseHexChar (byteAt line (x * 2 + 1))).

Definition baseRowCells (line : gostring) (y : Z) : list MapCell.t :=
  baseCell line y <$> seqZ 0 (Z.min 128 (Z.quot (len line) 2)).

Definition baseCells (mapData : list gostring) : list MapCell.t :=
  concat ((λ y, from_option (λ line, baseRowCells line y) [] (index mapData y))
          <$> seqZ 0 (Z.min 32 (len mapData))).

(** The cell of a dual-purpose band for tile [x] of band-row [y]. *)
Definition dualCell (baseRow : Z) (line : gostring) (y x : Z) : MapCell.t :=
  let tileCol := parseHexChar (byteAt line (x * 2)) in
  let tileRow := parseHexChar (byteAt line (x * 2 + 1)) in
  let tileID := tileRow * 16 + tileCol in
  if Z.even y then MapCell.mk x (baseRow + Z.quot y 2) tileID
  else MapCell.mk (64 + x) (baseRow + Z.quot (y - 1) 2) tileID.

Definition dualRowCells (baseRow : Z) (line : gostring) (y : Z) : list MapCell.t :=
  dualCell baseRow line y <$> seqZ 0 (Z.quot (len line) 2).

(** The lines of the graphics section that a band reads: up to 32 lines
    from [startRow] on. *)
Definition bandLines (startRow : Z) (gfxData : list gostring) : list gostring :=
  take 32 (drop (Z.to_nat startRow) gfxData).

Definition dualRows (baseRow : Z) (lines : list gostring) : list (list MapCell.t) :=
  (λ y, from_option (λ line, dualRowCells baseRow line y) [] (index lines y))
  <$> seqZ 0 (len lines).

(** The height that C4 states: 32 with no band, 48 with exactly one,
    64 with both. *)
Definition height_by_band_count (useSection3 useSection4 : bool) : Z :=
  if useSection3 && useSection4 then 64
  else if useSection3 || useSection4 then 48
  else 32.

(** The section count in the words of the specification: 2 when both
    bands are active, 3 when exactly one is, 4 when neither is. *)
Definition sections_by_band_count (useSection3 useSection4 : bool) : Z :=
  if useSection3 && useSection4 then 2
  else if xorb useSection3 useSection4 then 3
  else 4.

(** The sprite IDs that an active dual-purpose band takes away. *)
Definition band_excludes (useSection3 useSection4 : bool) (id : Z) : Prop :=
  (useSection3 = true ∧ 128 ≤ id ≤ 191) ∨ (useSection4 = true ∧ 192 ≤ id ≤ 255).

(** The IDs covered by a range, and their number. *)
Definition in_range (r : SpriteRange.t) (id : Z) : Prop :=
  SpriteRange.Start r ≤ id ≤ SpriteRange.End_ r.

Definition range_size (r : SpriteRange.t) : Z :=
  SpriteRange.End_ r - SpriteRange.Start r + 1.

(** Some pixel index of the grid is non-zero. *)
Definition some_pixel_nonzero (pixels : list (list Z)) : Prop :=
  ∃ i j row pixel, index pixels i = Some row ∧ index row j = Some pixel ∧ pixel ≠ 0.

(** The grid is 8 rows of 8 pixel indices. *)
Definition grid_8x8 (pixels : list (list Z)) : Prop :=
  len pixels = 8 ∧ ∀ row, row ∈ pixels → len row = 8.

(** What C7 asks of a sprite record. *)
Definition used_flag_correct (s : Sprite.t) : Prop :=
  grid_8x8 (Sprite.Pixels s) ∧
  (Sprite.Used s = true ↔ some_pixel_nonzero (Sprite.Pixels s)) ∧
  ((∀ row pixel, row ∈ Sprite.Pixels s → pixel ∈ row → pixel = 0) →
   Sprite.Used s = false).

(** A raster holds one colour per pixel of its bounds, as [NewRGBA]
    allocates it. *)
Definition image_wf (p : image.RGBA) : Prop :=
  0 ≤ image.W p ∧ 0 ≤ image.H p ∧ len (image.Pix p) = image.W p * image.H p.

(** A run of [Set] calls, oldest first: [(x, y, c)] is [Set(x, y, c)]. *)
Definition paint (img : image.RGBA) (ops : list (Z * Z * color.RGBA)) : image.RGBA :=
  foldl (λ img op, image.Set_ img op.1.1 op.1.2 op.2) img ops.

(** The [Set] calls of two nested loops over a [w] by [h] rectangle placed
    at [(dx, dy)], row by row, pixel [(xx, yy)] of it taking [c xx yy]. *)
Definition rect_ops (w h dx dy : Z) (c : Z → Z → color.RGBA)
  : list (Z * Z * color.RGBA) :=
  concat ((λ yy, (λ xx, (dx + xx, dy + yy, c xx yy)) <$> seqZ 0 w) <$> seqZ 0 h).

(** The colour [reconstructImage] gives the code point [r]: the palette
    entry of its hex value, the first entry when it has none. *)
Definition pixelColor (r : Z) : color.RGBA :=
  default (color.mk 0 0 0 255) (index pico8Palette (parseHexChar r)).

(** The [Set] calls of [reconstructImage], in order. *)
Definition reconstruct_ops (gfxData : list gostring) : list (Z * Z * color.RGBA) :=
  concat ((λ yl : Z * gostring,
             (λ xr : Z * Z, (xr.1, yl.1, pixelColor xr.2)) <$> range_string yl.2)
          <$> zip (seqZ 0 (len gfxData)) gfxData).

Definition section_path (i : Z) : string :=
  "sprites/section_" +:+ fmt_d i +:+ ".png".

(** The raster that [saveSprites] stores as section [i] of the sheet. *)
Definition sectionImage (spriteSheet : image.RGBA) (i : Z) : image.RGBA :=
  paint (image.NewRGBA 128 32)
    (rect_ops 128 32 0 0 (λ xx yy, image.At spriteSheet (0 + xx) (i * 32 + yy))).

(** The [Set] calls of the two loops of
    [combineSectionsIntoSpriteSheet] for [n] sections cut from
    [spriteSheet]: the copies of sections 0..n-1, then the transparent
    fill of slots n..3. *)
Definition combine_ops (spriteSheet : image.RGBA) (n : Z) : list (Z * Z * color.RGBA) :=
  concat ((λ i, rect_ops 128 32 0 (i * 32)
                  (λ x y, image.At (sectionImage spriteSheet i) x y))
          <$> seqZ 0 n)
  ++ concat ((λ i, rect_ops 128 32 0 (i * 32) (λ _ _, color.mk 0 0 0 0))
             <$> seqZ n (4 - n)).

Definition combinedImage (spriteSheet : image.RGBA) (n : Z) : image.RGBA :=
  paint (image.NewRGBA 128 (32 * 4)) (combine_ops spriteSheet n).

(** The runes that [parseHexChar] reads as a digit. *)
Definition is_hex_rune (c : Z) : Prop :=
  rune "0" ≤ c ≤ rune "9" ∨ rune "a" ≤ c ≤ rune "f" ∨ rune "A" ≤ c ≤ rune "F".

(** The pixel index that the grid of the sprite at grid position (x, y)
    holds at row [i], column [j]: the decoded character of the graphics
    section there, 0 where the section has none. *)
Definition pixelValue (gfxData : list gostring) (x y i j : Z) : Z :=
  match index gfxData (y * 8 + i) with
  | Some line =>
    match index line (x * 8 + j) with
    | Some c => parseHexChar (rune c)
    | None => 0
    end
  | None => 0
  end.

(** The grid of a sprite record holds the decoded characters of its 8x8
    block. *)
Definition pixels_decoded (gfxData : list gostring) (s : Sprite.t) : Prop :=
  ∀ i j, 0 ≤ i < 8 → 0 ≤ j < 8 →
    ∃ row, index (Sprite.Pixels s) i = Some row ∧
           index row j = Some (pixelValue gfxData (Sprite.X s) (Sprite.Y s) i j).

(** The sixteen canonical digits, [0-9] and [a-f]. *)
Definition canonical_digit (c : Z) : Prop :=
  rune "0" ≤ c ≤ rune "9" ∨ rune "a" ≤ c ≤ rune "f".

(** A line that opens or closes a section: it has the prefix ["__"]. *)
Definition marker_line (line : gostring) : Prop := HasPrefix line (gs "__") = true.

(** The flag byte of sprite [k] as the flag section gives it: the two hex
    digits at offset [2*(k mod 128)] of line [k / 128], 0 when the section
    has no such line or the line no such pair. *)
Definition flagByteAt (section : list gostring) (k : Z) : Z :=
  match index section (Z.quot k 128) with
  | Some line =>
    match index line (2 * Z.rem k 128), index line (2 * Z.rem k 128 + 1) with
    | Some c1, Some c2 => parseHexChar (rune c1) * 16 + parseHexChar (rune c2)
    | _, _ => 0
    end
  | None => 0
  end.

(** The number whose binary digits, least significant first, are [flags]. *)
Definition bitfield_of (flags : list bool) : Z :=
  foldr (λ b acc, Z.b2z b + 2 * acc) 0 flags.

(** The fields of a sprite record as they derive from its ID. *)
Definition record_fields (flagData : list Z) (s : Sprite.t) : Prop :=
  Sprite.X s = Z.rem (Sprite.ID s) 16 ∧ Sprite.Y s = Z.quot (Sprite.ID s) 16 ∧
  Sprite.ID s = Sprite.Y s * 16 + Sprite.X s ∧
  0 ≤ Sprite.X s < 16 ∧ 0 ≤ Sprite.Y s < 16 ∧
  Sprite.Width s = 8 ∧ Sprite.Height s = 8 ∧
  Sprite.Filename s = "sprite_" +:+ fmt_03d (Sprite.ID s) +:+ ".png" ∧
  index flagData (Sprite.ID s) = Some (SpriteFlags.Bitfield (Sprite.Flags s)) ∧
  getFlagArray (SpriteFlags.Bitfield (Sprite.Flags s))
    = Some (SpriteFlags.Individual (Sprite.Flags s)).

(** The records come in strictly increasing order of ID. *)
Definition increasing_ids (sprites : list Sprite.t) : Prop :=
  ∀ (a b : nat) s1 s2, sprites !! a = Some s1 → sprites !! b = Some s2 →
    (a < b)%nat → Sprite.ID s1 < Sprite.ID s2.

(** The number of IDs below [n] that no active band excludes. *)
Definition available_below (useSection3 useSection4 : bool) (n : Z) : Z :=
  n - (if useSection3 then Z.max 0 (Z.min 64 (n - 128)) else 0)
    - (if useSection4 then Z.max 0 (Z.min 64 (n - 192)) else 0).

(** Every byte of the line is ASCII (below 0x80), as in a well-formed
    cartridge. *)
Definition ascii_line (line : gostring) : Prop := Forall (λ c, rune c < 0x80) line.

(** Every character of every line decodes to the digit 0. *)
Definition all_zero_digits (rows : list gostring) : Prop :=
  ∀ line c, line ∈ rows → c ∈ line → parseHexChar (rune c) = 0.

(** Every pixel inside the bounds has colour [c]. *)
Definition filled_with (c : color.RGBA) (img : image.RGBA) : Prop :=
  ∀ x y, image.inBounds img x y → image.At img x y = c.

Definition sprite_path (n : Z) : string :=
  "sprites/sprite_" +:+ fmt_03d n +:+ ".png".

(** The raster that [saveSprites] stores for sprite [n]: its 8x8 block of
    the sheet. *)
Definition spriteFile (spriteSheet : image.RGBA) (n : Z) : image.RGBA :=
  paint (image.NewRGBA 8 8)
    (rect_ops 8 8 0 0
       (λ xx yy, image.At spriteSheet (Z.rem n 16 * 8 + xx) (Z.quot n 16 * 8 + yy))).

(** What a store holds after a pass that writes [file n] at
    [sprite_path n] for the [n] of [written], compared with the store
    [before]. *)
Definition sprites_written (file : Z → image.RGBA) (written : Z → Prop)
    (before after : gmap string image.RGBA) : Prop :=
  (∀ n, written n → after !! sprite_path n = Some (file n)) ∧
  (∀ path, (∀ n, written n → path ≠ sprite_path n) → after !! path = before !! path).

(** The colour that [createIndividualSpritePNGs] gives the pixel index
    [v]: the entry of the palette, opaque black when it has none. *)
Definition indexColor (palette : list PaletteColor.t) (v : Z) : color.RGBA :=
  match index palette v with
  | Some col =>
    color.mk (PaletteColor.R col) (PaletteColor.G col) (PaletteColor.B col)
      (PaletteColor.A col)
  | None => color.mk 0 0 0 255
  end.


(** The palette block of the atlas model: the sixteen colours of
    [pico8Palette] as records. *)
Definition jsonPalette : list PaletteColor.t :=
  (λ col, PaletteColor.mk (color.R col) (color.G col) (color.B col) (color.A col))
    <$> pico8Palette.

(** The raster that [createIndividualSpritePNGs] stores for sprite [n] of
    the atlas model of [gfxData]. *)
Definition jsonFile (gfxData : list gostring) (n : Z) : image.RGBA :=
  paint (image.NewRGBA 8 8)
    (rect_ops 8 8 0 0
       (λ x y, indexColor jsonPalette
                 (pixelValue gfxData (Z.rem n 16) (Z.quot n 16) y x))).

(** The graphics section has a character at column [x] of line [y]. *)
Definition has_char (gfxData : list gostring) (x y : Z) : Prop :=
  ∃ line c, index gfxData y = Some line ∧ index line x = Some c.

(** The colour of pixel (px, py) of the map raster after the pass over
    the regular map data: the pixel of the atlas block that the tile pair of
    tile (px/8, py/8) names, first digit the block row and second digit the
    block column, and palette colour 0 where the map has no pair there or
    the pair decodes to (0,0). *)
Definition baseMapColor (spriteSheet : image.RGBA) (mapData : list gostring)
    (px py : Z) : color.RGBA :=
  match index mapData (Z.quot py 8) with
  | Some line =>
    match index line (Z.quot px 8 * 2), index line (Z.quot px 8 * 2 + 1) with
    | Some c1, Some c2 =>
      let spriteY := parseHexChar (rune c1) in
      let spriteX := parseHexChar (rune c2) in
      if decide (spriteX ≠ 0 ∨ spriteY ≠ 0) then
        image.At spriteSheet (spriteX * 8 + Z.rem px 8) (spriteY * 8 + Z.rem py 8)
      else color.mk 0 0 0 255
    | _, _ => color.mk 0 0 0 255
    end
  | None => color.mk 0 0 0 255
  end.

(** The [Set] calls of one tile of the regular map. *)
Definition base_tile_ops (spriteSheet : image.RGBA) (line : gostring) (y x : Z)
  : list (Z * Z * color.RGBA) :=
  match index line (x * 2), index line (x * 2 + 1) with
  | Some c1, Some c2 =>
    let spriteY := parseHexChar (rune c1) in
    let spriteX := parseHexChar (rune c2) in
    if decide (spriteX ≠ 0 ∨ spriteY ≠ 0) then
      rect_ops 8 8 (x * 8) (y * 8)
        (λ xx yy, image.At spriteSheet (spriteX * 8 + xx) (spriteY * 8 + yy))
    else []
  | _, _ => []
  end.

(** The [Set] calls of a pass over the rows, tile by tile. *)
Definition rows_ops (ops : gostring → Z → Z → list (Z * Z * color.RGBA))
    (rows : list gostring) : list (Z * Z * color.RGBA) :=
  concat ((λ y, match index rows y with
                | Some line => concat (ops line y <$> seqZ 0 (Z.quot (len line) 2))
                | None => []
                end) <$> seqZ 0 (len rows)).

(** The [Set] calls of one tile of a dual-purpose pass that starts at
    tile row [baseRow]; [blackOnEven] tells whether a (0,0) pair on an even
    row is drawn as a black tile, as in section 3, or skipped, as in
    section 4. *)
Definition dual_tile_ops (spriteSheet : image.RGBA) (baseRow : Z) (blackOnEven : bool)
    (line : gostring) (y x : Z) : list (Z * Z * color.RGBA) :=
  match index line (x * 2), index line (x * 2 + 1) with
  | Some c1, Some c2 =>
    let spriteX := parseHexChar (rune c1) in
    let spriteY := parseHexChar (rune c2) in
    if Z.rem y 2 =? 0 then
      if decide (spriteX ≠ 0 ∨ spriteY ≠ 0) then
        rect_ops 8 8 (x * 8) ((baseRow + Z.quot y 2) * 8)
          (λ xx yy, image.At spriteSheet (spriteX * 8 + xx) (spriteY * 8 + yy))
      else if blackOnEven then
        rect_ops 8 8 (x * 8) ((baseRow + Z.quot y 2) * 8) (λ _ _, color.mk 0 0 0 255)
      else []
    else
      if decide (spriteX ≠ 0 ∨ spriteY ≠ 0) then
        rect_ops 8 8 ((64 + x) * 8) ((baseRow + Z.quot (y - 1) 2) * 8)
          (λ xx yy, image.At spriteSheet (spriteX * 8 + xx) (spriteY * 8 + yy))
      else []
  | _, _ => []
  end.

(** The tile of the raster that a dual-purpose pass starting at tile row
    [baseRow] gives to tile [x] of band-row [y]: the left half on even rows,
    the right half on odd rows, two band-rows per tile row. *)
Definition bandTileX (y x : Z) : Z := if Z.even y then x else 64 + x.
Definition bandTileY (baseRow y : Z) : Z := baseRow + Z.quot y 2.

(** The largest value that a Go [int] holds on every platform
    ([math.MaxInt32]; an [int] has 32 or 64 bits). *)
Definition int_max : Z := 2147483647.

(** A tile or sprite coordinate whose pixel coordinates [v*8 + 0..7] fit an
    [int]. *)
Definition tile_coord (v : Z) : Prop := -134217728 ≤ v < 134217728.

(** Map dimensions for which [mapWidth*8], [mapHeight*8] and the byte size
    of the raster that [image.NewRGBA] allocates, four bytes per pixel, fit
    an [int]. *)
Definition map_dims_fit (mapWidth mapHeight : Z) : Prop :=
  0 ≤ mapWidth ∧ 0 ≤ mapHeight ∧
  mapWidth * 8 ≤ int_max ∧ mapHeight * 8 ≤ int_max ∧
  4 * (mapWidth * 8) * (mapHeight * 8) ≤ int_max.

(** ** Loops and indexing *)

(** One step of the panic monad: a bind whose first computation has been
    rewritten to [Some _] runs on. *)
Ltac run := cbn [mbind option_bind].


Lemma loop_app {I S} (body : I → S → option S) (l1 l2 : list I) (s : S) :
  loop body (l1 ++ l2) s = loop body l1 s ≫= loop body l2.
Proof.
  revert s. induction l1 as [|i l1 IH]; intros s; simpl; [done|].
  destruct (body i s) as [s'|]; simpl; [apply IH | done].
Qed.

(** A loop whose every round appends [f i] to the accumulator. *)
Lemma loop_emit {I A} (f : I → list A) (body : I → list A → option (list A))
    (idx : list I) (acc : list A) :
  (∀ i acc, i ∈ idx → body i acc = Some (acc ++ f i)) →
  loop body idx acc = Some (acc ++ concat (f <$> idx)).
Proof.
  revert acc. induction idx as [|i idx IH]; intros acc Hb; simpl.
  - by rewrite app_nil_r.
  - rewrite Hb by apply list_elem_of_here. simpl.
    rewrite IH, <- app_assoc; [done|].
    intros j acc' Hj. apply Hb. by apply list_elem_of_further.
Qed.

(** A loop whose every round appends the single element [g i]. *)
Lemma loop_emit1 {I A} (g : I → A) (body : I → list A → option (list A))
    (idx : list I) (acc : list A) :
  (∀ i acc, i ∈ idx → body i acc = Some (acc ++ [g i])) →
  loop body idx acc = Some (acc ++ (g <$> idx)).
Proof.
  intros Hb. rewrite (loop_emit (λ i, [g i])) by done.
  do 2 f_equal. induction idx as [|i idx IH]; simpl; [done|].
  f_equal. apply IH. intros j acc' Hj. apply Hb. by apply list_elem_of_further.
Qed.

(** An invariant carried round by round; the loop then does not panic. *)
Lemma loop_inv {I S} (P : list I → S → Prop) (body : I → S → option S)
    (idx : list I) (s : S) :
  P [] s →
  (∀ done_ i s, (∃ rest, idx = done_ ++ i :: rest) → P done_ s →
     ∃ s', body i s = Some s' ∧ P (done_ ++ [i]) s') →
  ∃ s', loop body idx s = Some s' ∧ P idx s'.
Proof.
  intros H0 Hstep.
  cut (∀ rest done_ s, idx = done_ ++ rest → P done_ s →
         ∃ s', loop body rest s = Some s' ∧ P idx s').
  { intros Hc. apply (Hc idx [] s); done. }
  induction rest as [|i rest IH]; intros done_ s0 Heq HP; simpl.
  - exists s0. rewrite app_nil_r in Heq. by subst.
  - destruct (Hstep done_ i s0) as (s1 & Hb & HP1); [by exists rest | done |].
    rewrite Hb. simpl. apply (IH (done_ ++ [i])); [|done].
    by rewrite <- app_assoc.
Qed.

Lemma len_nonneg {A} (l : list A) : 0 ≤ len l.
Proof. unfold len. lia. Qed.

Lemma index_Some {A} (l : list A) (i : Z) (v : A) :
  index l i = Some v ↔ 0 ≤ i ∧ l !! Z.to_nat i = Some v.
Proof. unfold index. case_decide; [tauto|]. split; [done | tauto]. Qed.

Lemma index_is_Some {A} (l : list A) (i : Z) :
  0 ≤ i < len l → is_Some (index l i).
Proof.
  intros Hi. unfold index. rewrite decide_True by lia.
  apply lookup_lt_is_Some. unfold len in Hi. lia.
Qed.

Lemma index_lt {A} (l : list A) (i : Z) (v : A) :
  index l i = Some v → 0 ≤ i < len l.
Proof.
  rewrite index_Some. intros [Hi Hl]. apply lookup_lt_Some in Hl.
  unfold len. lia.
Qed.

Lemma byteAt_index (line : gostring) (i : Z) (c : ascii) :
  index line i = Some c → byteAt line i = rune c.
Proof. unfold byteAt. by intros ->. Qed.

Lemma elem_of_seqZ_range (lo n i : Z) : i ∈ seqZ lo n → lo ≤ i < lo + n.
Proof. rewrite elem_of_seqZ. lia. Qed.

(** ** The cells of [generateMapJSON] *)

Lemma baseTile_spec (line : gostring) (y x : Z) (cells : list MapCell.t) :
  0 ≤ x →
  baseTile line y x cells =
  Some (cells ++ if decide (x < Z.quot (len line) 2) then [baseCell line y x] else []).
Proof.
  intros Hx. unfold baseTile. pose proof (len_nonneg line) as Hl.
  assert (x * 2 + 1 < len line ↔ x < Z.quot (len line) 2) as Hiff
    by (Z.to_euclidean_division_equations; lia).
  case_decide as Hd.
  - rewrite decide_True by (by apply Hiff).
    destruct (index_is_Some line (x * 2)) as [c1 H1]; [lia|].
    destruct (index_is_Some line (x * 2 + 1)) as [c2 H2]; [lia|].
    rewrite H1, H2. simpl. unfold baseCell.
    by rewrite (byteAt_index _ _ _ H1), (byteAt_index _ _ _ H2).
  - rewrite decide_False by (by rewrite <- Hiff). by rewrite app_nil_r.
Qed.

Lemma concat_guard_all {A} (P : Z → Prop) `{!∀ x, Decision (P x)} (g : Z → A)
    (l : list Z) :
  Forall P l →
  concat ((λ x, if decide (P x) then [g x] else []) <$> l) = g <$> l.
Proof.
  induction 1 as [|a l' Ha _ IH]; [done|].
  rewrite !fmap_cons. cbn [concat]. by rewrite decide_True, IH by done.
Qed.

Lemma concat_guard_none {A} (P : Z → Prop) `{!∀ x, Decision (P x)} (g : Z → A)
    (l : list Z) :
  Forall (λ x, ¬ P x) l →
  concat ((λ x, if decide (P x) then [g x] else []) <$> l) = [].
Proof.
  induction 1 as [|a l' Ha _ IH]; [done|].
  rewrite !fmap_cons. cbn [concat]. by rewrite decide_False, IH by done.
Qed.

Lemma baseRow_spec (line : gostring) (y : Z) (cells : list MapCell.t) :
  for_range 0 128 (baseTile line y) cells = Some (cells ++ baseRowCells line y).
Proof.
  unfold for_range.
  rewrite (loop_emit (λ x, if decide (x < Z.quot (len line) 2)
                           then [baseCell line y x] else [])).
  2: { intros x acc Hx%elem_of_seqZ_range. apply baseTile_spec. lia. }
  do 2 f_equal. unfold baseRowCells.
  pose proof (len_nonneg line) as Hl.
  assert (0 ≤ Z.quot (len line) 2) as Hq by (Z.to_euclidean_division_equations; lia).
  destruct (Z.min_spec 128 (Z.quot (len line) 2)) as [[Hlt ->]|[Hge ->]].
  - apply (concat_guard_all (λ x, x < Z.quot (len line) 2)).
    apply Forall_seqZ. lia.
  - replace (128 - 0) with (Z.quot (len line) 2 + (128 - Z.quot (len line) 2)) by lia.
    rewrite seqZ_app by lia. rewrite fmap_app, concat_app.
    rewrite (concat_guard_all (λ x, x < Z.quot (len line) 2))
      by (apply Forall_seqZ; lia).
    rewrite (concat_guard_none (λ x, x < Z.quot (len line) 2))
      by (apply Forall_seqZ; lia).
    by rewrite app_nil_r.
Qed.

Lemma baseSection_spec (mapData : list gostring) (cells : list MapCell.t) :
  baseSection mapData 128 cells = Some (cells ++ baseCells mapData).
Proof.
  unfold baseSection, for_range.
  set (f := λ y, from_option (λ line, baseRowCells line y) [] (index mapData y)).
  rewrite (loop_emit (λ y, if decide (y < len mapData) then f y else [])).
  2: { intros y acc Hy%elem_of_seqZ_range. case_decide as Hd.
       - destruct (index_is_Some mapData y) as [line Hline]; [lia|].
         subst f. simpl. rewrite Hline. simpl. apply baseRow_spec.
       - by rewrite app_nil_r. }
  do 2 f_equal. unfold baseCells. fold f.
  pose proof (len_nonneg mapData) as Hl.
  assert (∀ l, Forall (λ y, y < len mapData) l →
    concat ((λ y, if decide (y < len mapData) then f y else []) <$> l)
    = concat (f <$> l)) as Hall.
  { induction 1 as [|a l' Ha _ IH]; [done|].
    rewrite !fmap_cons. cbn [concat]. by rewrite decide_True, IH by done. }
  assert (∀ l, Forall (λ y, ¬ y < len mapData) l →
    concat ((λ y, if decide (y < len mapData) then f y else []) <$> l) = [])
    as Hnone.
  { induction 1 as [|a l' Ha _ IH]; [done|].
    rewrite !fmap_cons. cbn [concat]. by rewrite decide_False, IH by done. }
  destruct (Z.min_spec 32 (len mapData)) as [[Hlt ->]|[Hge ->]].
  - apply Hall. apply Forall_seqZ. lia.
  - replace (32 - 0) with (len mapData + (32 - len mapData)) by lia.
    rewrite seqZ_app by lia. rewrite fmap_app, concat_app.
    rewrite Hall, Hnone by (apply Forall_seqZ; lia).
    by rewrite app_nil_r.
Qed.

Lemma rem2_even (y : Z) : (Z.rem y 2 =? 0) = Z.even y.
Proof.
  rewrite Zrem_even. destruct (Z.even y) eqn:E; [done|].
  apply Z.eqb_neq. intros H0. apply (proj1 (Z.sgn_null_iff y)) in H0.
  rewrite H0 in E. discriminate E.
Qed.

Lemma dualTile_spec (baseRow : Z) (line : gostring) (y x : Z)
    (cells : list MapCell.t) :
  0 ≤ x < Z.quot (len line) 2 →
  dualTile baseRow line y x cells = Some (cells ++ [dualCell baseRow line y x]).
Proof.
  intros Hx. unfold dualTile, dualCell.
  assert (x * 2 + 1 < len line) as Hb by (Z.to_euclidean_division_equations; lia).
  destruct (index_is_Some line (x * 2)) as [c1 H1]; [lia|].
  destruct (index_is_Some line (x * 2 + 1)) as [c2 H2]; [lia|].
  rewrite H1, H2. simpl.
  rewrite (byteAt_index _ _ _ H1), (byteAt_index _ _ _ H2).
  rewrite rem2_even. by destruct (Z.even y).
Qed.

Lemma dualSection_spec (startRow baseRow : Z) (gfxData : list gostring)
    (cells : list MapCell.t) :
  0 ≤ startRow →
  dualSection startRow baseRow gfxData cells =
  Some (cells ++ concat (dualRows baseRow (bandLines startRow gfxData))).
Proof.
  intros Hs. unfold dualSection. pose proof (len_nonneg gfxData) as Hl.
  case_decide as Hlt.
  - set (endRow := if decide (startRow + 32 > len gfxData) then len gfxData
                   else startRow + 32).
    assert (startRow ≤ endRow ∧ endRow ≤ len gfxData) as [He1 He2]
      by (subst endRow; case_decide; lia).
    unfold slice. rewrite decide_True by lia. simpl.
    assert (take (Z.to_nat (endRow - startRow)) (drop (Z.to_nat startRow) gfxData)
            = bandLines startRow gfxData) as ->.
    { unfold bandLines. subst endRow. case_decide; [|f_equal; lia].
      rewrite !take_ge; [done | |]; rewrite length_drop; unfold len in *; lia. }
    unfold for_range, dualRows. rewrite Z.sub_0_r.
    apply loop_emit. intros y acc Hy%elem_of_seqZ_range.
    destruct (index_is_Some (bandLines startRow gfxData) y) as [line Hline]; [lia|].
    rewrite Hline. simpl. unfold dualRowCells. rewrite Z.sub_0_r.
    apply loop_emit1. intros x acc' Hx%elem_of_seqZ_range.
    apply dualTile_spec. lia.
  - unfold bandLines. rewrite drop_ge by (unfold len in *; lia).
    by rewrite app_nil_r.
Qed.

(** [generateMapJSON] never panics and never returns an error; its cells
    are the base cells, then those of section 3, then those of section 4. *)
Lemma generateMapJSON_spec (mapData gfxData : list gostring)
    (useSection3 useSection4 : bool) :
  generateMapJSON mapData gfxData useSection3 useSection4 =
  Some (MapSheet.mk "1.0" "PICO-8 map export" 128
          (mapHeight useSection3 useSection4) "main"
          (baseCells mapData
           ++ (if useSection3 then concat (dualRows 32 (bandLines 64 gfxData)) else [])
           ++ (if useSection4 then concat (dualRows 48 (bandLines 96 gfxData)) else [])),
        None).
Proof.
  unfold generateMapJSON. rewrite baseSection_spec. simpl.
  destruct useSection3, useSection4; simpl;
    rewrite ?dualSection_spec by lia; simpl;
    rewrite ?dualSection_spec by lia; simpl;
    by rewrite ?app_nil_r, <- ?app_assoc.
Qed.

Lemma elem_of_concat {A} (x : A) (ls : list (list A)) :
  x ∈ concat ls ↔ ∃ l, l ∈ ls ∧ x ∈ l.
Proof.
  rewrite list_elem_of_In, in_concat. split; intros (l & H1 & H2); exists l.
  - by rewrite !list_elem_of_In.
  - by rewrite <- !list_elem_of_In.
Qed.

Lemma quot2_div2 (n : Z) : 0 ≤ n → Z.quot n 2 = n / 2.
Proof. intros. by apply Z.quot_div_nonneg. Qed.

Lemma length_bandLines (startRow : Z) (gfxData : list gostring) :
  len (bandLines startRow gfxData) ≤ 32.
Proof. unfold bandLines, len. rewrite length_take. lia. Qed.

Lemma elem_of_bandLines (startRow : Z) (gfxData : list gostring) (line : gostring) :
  line ∈ bandLines startRow gfxData → line ∈ gfxData.
Proof.
  unfold bandLines. intros H. by apply (subseteq_drop (Z.to_nat startRow)),
    (subseteq_take 32%nat).
Qed.

(** Every cell of a band comes from one tile [x] of one band-row [y]. *)
Lemma elem_of_dualRows (baseRow : Z) (lines : list gostring) (c : MapCell.t) :
  c ∈ concat (dualRows baseRow lines) ↔
  ∃ y line x, index lines y = Some line ∧ 0 ≤ x < Z.quot (len line) 2
              ∧ c = dualCell baseRow line y x.
Proof.
  rewrite elem_of_concat. unfold dualRows. split.
  - intros (row & Hrow & Hc). apply list_elem_of_fmap in Hrow as (y & -> & Hy).
    apply elem_of_seqZ_range in Hy.
    destruct (index lines y) as [line|] eqn:Hl; simpl in Hc; [|by apply elem_of_nil in Hc].
    unfold dualRowCells in Hc. apply list_elem_of_fmap in Hc as (x & -> & Hx).
    apply elem_of_seqZ_range in Hx. exists y, line, x. split_and!; [done|lia|lia|done].
  - intros (y & line & x & Hl & Hx & ->).
    exists (dualRowCells baseRow line y). split.
    + apply list_elem_of_fmap. exists y. rewrite Hl. split; [done|].
      apply index_lt in Hl. apply elem_of_seqZ. lia.
    + unfold dualRowCells. apply list_elem_of_fmap_2. apply elem_of_seqZ. lia.
Qed.

(** Every cell of the base section comes from one tile pair that is wholly
    inside its line. *)
Lemma elem_of_baseCells (mapData : list gostring) (c : MapCell.t) :
  c ∈ baseCells mapData ↔
  ∃ y line x, 0 ≤ y < 32 ∧ index mapData y = Some line ∧ 0 ≤ x < 128
              ∧ x < Z.quot (len line) 2 ∧ c = baseCell line y x.
Proof.
  unfold baseCells. rewrite elem_of_concat. split.
  - intros (row & Hrow & Hc). apply list_elem_of_fmap in Hrow as (y & -> & Hy).
    apply elem_of_seqZ_range in Hy.
    destruct (index mapData y) as [line|] eqn:Hl; simpl in Hc; [|by apply elem_of_nil in Hc].
    unfold baseRowCells in Hc. apply list_elem_of_fmap in Hc as (x & -> & Hx).
    apply elem_of_seqZ_range in Hx. exists y, line, x. split_and!; try done; lia.
  - intros (y & line & x & Hy & Hl & Hx & Hq & ->).
    exists (baseRowCells line y). split.
    + apply list_elem_of_fmap. exists y. rewrite Hl. split; [done|].
      apply index_lt in Hl. apply elem_of_seqZ. lia.
    + unfold baseRowCells. apply list_elem_of_fmap_2. apply elem_of_seqZ. lia.
Qed.

Lemma dualCell_Y (baseRow : Z) (line : gostring) (y x : Z) :
  0 ≤ y < 32 →
  baseRow ≤ MapCell.Y (dualCell baseRow line y x) ≤ baseRow + 15.
Proof.
  intros Hy. unfold dualCell.
  destruct (Z.even y) eqn:E; simpl.
  - Z.to_euclidean_division_equations; lia.
  - assert (y ≠ 0) by (intros ->; discriminate E).
    Z.to_euclidean_division_equations; lia.
Qed.

Lemma dualCell_X (baseRow : Z) (line : gostring) (y x : Z) :
  len line ≤ 128 → 0 ≤ x < Z.quot (len line) 2 →
  0 ≤ MapCell.X (dualCell baseRow line y x) ≤ 127.
Proof.
  intros Hl Hx. unfold dualCell.
  destruct (Z.even y); simpl; Z.to_euclidean_division_equations; lia.
Qed.

(** ** Claims on the tilemap model *)

(** C1. For every active dual-purpose band (band 3: atlas rows from 64, base
    row 32; band 4: atlas rows from 96, base row 48) [generateMapJSON] emits,
    for the band's extracted lines in order, one run of cells per band-row
    [y]; tile [x] of that run reads the hex digits at [x*2] and [x*2+1] as
    (tileCol, tileRow), has tileID = tileRow*16 + tileCol, and lies at
    column [x], row [baseRow + y/2] when [y] is even and at column [64+x],
    row [baseRow + (y-1)/2] when [y] is odd. *)
Theorem C1_dual_purpose_band_cells (mapData gfxData : list gostring)
    (useSection3 useSection4 : bool) (startRow bandBaseRow : Z) :
  (useSection3 = true ∧ startRow = 64 ∧ bandBaseRow = 32) ∨
  (useSection4 = true ∧ startRow = 96 ∧ bandBaseRow = 48) →
  ∃ sheet before rows after,
    generateMapJSON mapData gfxData useSection3 useSection4 = Some (sheet, None) ∧
    (∀ cells, dualSection startRow bandBaseRow gfxData cells
              = Some (cells ++ concat rows)) ∧
    MapSheet.Cells sheet = before ++ concat rows ++ after ∧
    len rows = len (bandLines startRow gfxData) ∧
    ∀ y line, index (bandLines startRow gfxData) y = Some line →
      ∃ row, index rows y = Some row ∧ len row = len line / 2 ∧
        ∀ x, 0 ≤ x < len line / 2 →
          ∃ c1 c2, index line (x * 2) = Some c1 ∧ index line (x * 2 + 1) = Some c2 ∧
            let tileCol := parseHexChar (rune c1) in
            let tileRow := parseHexChar (rune c2) in
            let tileID := tileRow * 16 + tileCol in
            index row x =
            Some (if Z.even y
                  then MapCell.mk x (bandBaseRow + y / 2) tileID
                  else MapCell.mk (64 + x) (bandBaseRow + (y - 1) / 2) tileID).
Proof.
  intros Hband.
  set (rows := dualRows bandBaseRow (bandLines startRow gfxData)).
  assert (∃ before after,
    baseCells mapData
    ++ (if useSection3 then concat (dualRows 32 (bandLines 64 gfxData)) else [])
    ++ (if useSection4 then concat (dualRows 48 (bandLines 96 gfxData)) else [])
    = before ++ concat rows ++ after) as (before & after & Hsplit).
  { subst rows. destruct Hband as [(-> & -> & ->)|(-> & -> & ->)].
    - by exists (baseCells mapData),
        (if useSection4 then concat (dualRows 48 (bandLines 96 gfxData)) else []).
    - exists (baseCells mapData
        ++ (if useSection3 then concat (dualRows 32 (bandLines 64 gfxData)) else [])), [].
      by rewrite app_nil_r, <- app_assoc. }
  eexists _, before, rows, after. split; [apply generateMapJSON_spec|].
  split; [intros cells; apply dualSection_spec; lia|].
  split; [done|]. split.
  { subst rows. unfold dualRows, len. rewrite length_fmap, length_seqZ.
    unfold len. lia. }
  intros y line Hline. pose proof (index_lt _ _ _ Hline) as Hy.
  pose proof (len_nonneg line) as Hl.
  exists (dualRowCells bandBaseRow line y). split; [|split].
  - subst rows. unfold dualRows. apply index_Some. split; [lia|].
    rewrite list_lookup_fmap, lookup_seqZ_lt by lia.
    simpl. rewrite Z2Nat.id, Z.add_0_l by lia. by rewrite Hline.
  - unfold dualRowCells, len. rewrite length_fmap, length_seqZ.
    rewrite quot2_div2 by done.
    assert (0 ≤ len line / 2) by (apply Z.div_pos; lia). unfold len in *. lia.
  - intros x Hx. rewrite <- quot2_div2 in Hx by done.
    assert (x * 2 + 1 < len line) as Hb by (Z.to_euclidean_division_equations; lia).
    destruct (index_is_Some line (x * 2)) as [c1 H1]; [lia|].
    destruct (index_is_Some line (x * 2 + 1)) as [c2 H2]; [lia|].
    exists c1, c2. split; [done|]. split; [done|]. simpl.
    apply index_Some. split; [lia|]. unfold dualRowCells.
    rewrite list_lookup_fmap, lookup_seqZ_lt by lia.
    simpl. rewrite Z2Nat.id, Z.add_0_l by lia. f_equal.
    unfold dualCell. rewrite (byteAt_index _ _ _ H1), (byteAt_index _ _ _ H2).
    destruct (Z.even y) eqn:E; f_equal; f_equal.
    + apply quot2_div2. lia.
    + apply quot2_div2. assert (y ≠ 0) by (intros ->; discriminate E). lia.
Qed.

(** The band-3 rows of a three-line band: row 0 feeds map row 32 on the
    left, row 1 map row 32 on the right, row 2 map row 33 on the left. *)
Lemma C1_dual_purpose_band_cells_witness :
  ∃ sheet before rows after,
    generateMapJSON [gs "00"] (replicate 64 [] ++ [gs "12"; gs "a3"; gs "0f"])
      true false = Some (sheet, None) ∧
    (∀ cells, dualSection 64 32 (replicate 64 [] ++ [gs "12"; gs "a3"; gs "0f"]) cells
              = Some (cells ++ concat rows)) ∧
    MapSheet.Cells sheet = before ++ concat rows ++ after ∧
    len rows = len (bandLines 64 (replicate 64 [] ++ [gs "12"; gs "a3"; gs "0f"])) ∧
    ∀ y line,
      index (bandLines 64 (replicate 64 [] ++ [gs "12"; gs "a3"; gs "0f"])) y
        = Some line →
      ∃ row, index rows y = Some row ∧ len row = len line / 2 ∧
        ∀ x, 0 ≤ x < len line / 2 →
          ∃ c1 c2, index line (x * 2) = Some c1 ∧ index line (x * 2 + 1) = Some c2 ∧
            let tileCol := parseHexChar (rune c1) in
            let tileRow := parseHexChar (rune c2) in
            let tileID := tileRow * 16 + tileCol in
            index row x =
            Some (if Z.even y
                  then MapCell.mk x (32 + y / 2) tileID
                  else MapCell.mk (64 + x) (32 + (y - 1) / 2) tileID).
Proof.
  apply (C1_dual_purpose_band_cells
           [gs "00"] (replicate 64 [] ++ [gs "12"; gs "a3"; gs "0f"])
           true false 64 32).
  left. repeat split; reflexivity.
Defined.

Lemma dualRows_Y (baseRow startRow : Z) (gfxData : list gostring) (c : MapCell.t) :
  c ∈ concat (dualRows baseRow (bandLines startRow gfxData)) →
  baseRow ≤ MapCell.Y c ≤ baseRow + 15.
Proof.
  intros (y & line & x & Hl & Hx & ->)%elem_of_dualRows.
  apply dualCell_Y. apply index_lt in Hl.
  pose proof (length_bandLines startRow gfxData). lia.
Qed.

(** C2. For every base tilemap row [y] in 0..31 and every column [x] in
    0..127 whose two hex digits [c1], [c2] are present in the line,
    [generateMapJSON] takes the first digit as the sprite row and the second
    as the sprite column and emits the cell {x, y, row*16 + column}; it is
    the only cell emitted at (x, y). *)
Theorem C2_base_section_cells (mapData gfxData : list gostring)
    (useSection3 useSection4 : bool) (y x : Z) (line : gostring) (c1 c2 : ascii) :
  0 ≤ y < 32 → index mapData y = Some line →
  0 ≤ x < 128 → index line (x * 2) = Some c1 → index line (x * 2 + 1) = Some c2 →
  ∃ sheet,
    generateMapJSON mapData gfxData useSection3 useSection4 = Some (sheet, None) ∧
    let spriteRow := parseHexChar (rune c1) in
    let spriteColumn := parseHexChar (rune c2) in
    let cell := MapCell.mk x y (spriteRow * 16 + spriteColumn) in
    cell ∈ MapSheet.Cells sheet ∧
    ∀ c, c ∈ MapSheet.Cells sheet → MapCell.X c = x → MapCell.Y c = y → c = cell.
Proof.
  intros Hy Hline Hx H1 H2. eexists. split; [apply generateMapJSON_spec|].
  cbn [MapSheet.Cells]. set (cell := MapCell.mk _ _ _).
  assert (cell = baseCell line y x) as Hcell.
  { unfold baseCell. by rewrite (byteAt_index _ _ _ H1), (byteAt_index _ _ _ H2). }
  assert (x < Z.quot (len line) 2) as Hq.
  { apply index_lt in H2. Z.to_euclidean_division_equations; lia. }
  split.
  - apply elem_of_app. left. apply elem_of_baseCells.
    by exists y, line, x.
  - intros c Hc HX HY. apply elem_of_app in Hc as [Hc|Hc].
    + apply elem_of_baseCells in Hc as (y' & line' & x' & _ & Hl' & _ & _ & ->).
      simpl in HX, HY. subst x' y'. congruence.
    + exfalso. apply elem_of_app in Hc as [Hc|Hc].
      * destruct useSection3; [|by apply elem_of_nil in Hc].
        apply dualRows_Y in Hc. lia.
      * destruct useSection4; [|by apply elem_of_nil in Hc].
        apply dualRows_Y in Hc. lia.
Qed.

(** End-to-end scenario 4: the tile pair "12" at map position (0,0) yields
    the cell {x:0, y:0, sprite:18}. *)
Lemma C2_base_section_cells_witness :
  ∃ sheet,
    generateMapJSON [gs "12"] [] false false = Some (sheet, None) ∧
    MapCell.mk 0 0 18 ∈ MapSheet.Cells sheet ∧
    ∀ c, c ∈ MapSheet.Cells sheet → MapCell.X c = 0 → MapCell.Y c = 0 →
         c = MapCell.mk 0 0 18.
Proof.
  apply (C2_base_section_cells [gs "12"] [] false false 0 0 (gs "12") "1" "2");
    (lia || reflexivity).
Defined.

(** C4 as stated fails with band 4 alone: the height is 64, not 48. *)
Lemma C4_height_band4_alone :
  ∃ sheet,
    generateMapJSON [] [] false true = Some (sheet, None) ∧
    MapSheet.Height sheet = 64 ∧
    MapSheet.Height sheet ≠ height_by_band_count false true.
Proof. eexists. split; [reflexivity|]. split; [reflexivity|]. discriminate. Qed.

(** C4, amended. For every option setting the map descriptor's width is
    128; its height is 64 whenever band 4 is active, 48 when only band 3 is
    active, and 32 when neither is.  It agrees with the count of active
    bands except for band 4 alone. *)
Theorem C4_map_dimensions (mapData gfxData : list gostring)
    (useSection3 useSection4 : bool) :
  ∃ sheet,
    generateMapJSON mapData gfxData useSection3 useSection4 = Some (sheet, None) ∧
    MapSheet.Width sheet = 128 ∧
    MapSheet.Height sheet =
      (if useSection4 then 64 else if useSection3 then 48 else 32) ∧
    (MapSheet.Height sheet = height_by_band_count useSection3 useSection4
     ↔ ¬ (useSection3 = false ∧ useSection4 = true)).
Proof.
  eexists. split; [apply generateMapJSON_spec|]. cbn [MapSheet.Width MapSheet.Height].
  split; [done|]. unfold mapHeight, height_by_band_count.
  destruct useSection3, useSection4; simpl; (split; [done|]);
    split; try done; try (by intros _ [? ?]).
  intros H. exfalso. apply H. done.
Qed.

(** C10. When no line of the graphics section is longer than 128
    characters, every cell of [generateMapJSON] has 0 <= x <= 127 and
    0 <= y < height; the cells of the base section lie in rows 0-31, those
    of section 3 in rows 32-47 and those of section 4 in rows 48-63. *)
Theorem C10_cells_within_map (mapData gfxData : list gostring)
    (useSection3 useSection4 : bool) :
  (∀ line, line ∈ gfxData → len line ≤ 128) →
  ∃ sheet base band3 band4,
    generateMapJSON mapData gfxData useSection3 useSection4 = Some (sheet, None) ∧
    baseSection mapData 128 [] = Some base ∧
    dualSection 64 32 gfxData [] = Some band3 ∧
    dualSection 96 48 gfxData [] = Some band4 ∧
    MapSheet.Cells sheet =
      base ++ (if useSection3 then band3 else []) ++ (if useSection4 then band4 else []) ∧
    (∀ c, c ∈ MapSheet.Cells sheet →
       0 ≤ MapCell.X c ≤ 127 ∧ 0 ≤ MapCell.Y c < MapSheet.Height sheet) ∧
    (∀ c, c ∈ base → 0 ≤ MapCell.Y c ≤ 31) ∧
    (∀ c, c ∈ band3 → 32 ≤ MapCell.Y c ≤ 47) ∧
    (∀ c, c ∈ band4 → 48 ≤ MapCell.Y c ≤ 63).
Proof.
  intros Hlen.
  assert (∀ c, c ∈ baseCells mapData → 0 ≤ MapCell.X c ≤ 127 ∧ 0 ≤ MapCell.Y c ≤ 31)
    as Hbase.
  { intros c (y & line & x & Hy & _ & Hx & _ & ->)%elem_of_baseCells. simpl. lia. }
  assert (∀ baseRow startRow c,
    c ∈ concat (dualRows baseRow (bandLines startRow gfxData)) →
    0 ≤ MapCell.X c ≤ 127 ∧ baseRow ≤ MapCell.Y c ≤ baseRow + 15) as Hband.
  { intros baseRow startRow c Hc. split; [|by eapply dualRows_Y].
    apply elem_of_dualRows in Hc as (y & line & x & Hl & Hx & ->).
    apply dualCell_X; [|done]. apply Hlen, (elem_of_bandLines startRow).
    apply index_Some in Hl as [_ Hl]. by eapply list_elem_of_lookup_2. }
  eexists _, (baseCells mapData), (concat (dualRows 32 (bandLines 64 gfxData))),
    (concat (dualRows 48 (bandLines 96 gfxData))).
  split; [apply generateMapJSON_spec|].
  split; [apply (baseSection_spec mapData [])|].
  split; [by rewrite dualSection_spec by lia|].
  split; [by rewrite dualSection_spec by lia|].
  cbn [MapSheet.Cells MapSheet.Height]. split; [done|]. split; [|split; [|split]].
  - intros c Hc. unfold mapHeight.
    apply elem_of_app in Hc as [Hc|Hc]; [apply Hbase in Hc|
      apply elem_of_app in Hc as [Hc|Hc]].
    + destruct useSection3, useSection4; lia.
    + destruct useSection3; [|by apply elem_of_nil in Hc].
      apply Hband in Hc. destruct useSection4; lia.
    + destruct useSection4; [|by apply elem_of_nil in Hc].
      apply Hband in Hc. lia.
  - intros c Hc. apply Hbase in Hc. lia.
  - intros c Hc. apply Hband in Hc. lia.
  - intros c Hc. apply Hband in Hc. lia.
Qed.

Lemma C10_cells_within_map_witness :
  (∀ line, line ∈ replicate 96 [] ++ [gs "12"; gs "a3"] → len line ≤ 128) ∧
  ∃ sheet base band3 band4,
    generateMapJSON [gs "0102"] (replicate 96 [] ++ [gs "12"; gs "a3"]) true true
      = Some (sheet, None) ∧
    baseSection [gs "0102"] 128 [] = Some base ∧
    dualSection 64 32 (replicate 96 [] ++ [gs "12"; gs "a3"]) [] = Some band3 ∧
    dualSection 96 48 (replicate 96 [] ++ [gs "12"; gs "a3"]) [] = Some band4 ∧
    MapSheet.Cells sheet = base ++ band3 ++ band4 ∧
    (∀ c, c ∈ MapSheet.Cells sheet →
       0 ≤ MapCell.X c ≤ 127 ∧ 0 ≤ MapCell.Y c < MapSheet.Height sheet) ∧
    (∀ c, c ∈ base → 0 ≤ MapCell.Y c ≤ 31) ∧
    (∀ c, c ∈ band3 → 32 ≤ MapCell.Y c ≤ 47) ∧
    (∀ c, c ∈ band4 → 48 ≤ MapCell.Y c ≤ 63).
Proof.
  assert (∀ line, line ∈ replicate 96 [] ++ [gs "12"; gs "a3"] → len line ≤ 128)
    as Hlen.
  { intros line [Hl|Hl]%elem_of_app.
    - apply elem_of_replicate in Hl as [-> _]. vm_compute. discriminate.
    - repeat (apply elem_of_cons in Hl as [->|Hl]; [vm_compute; discriminate|]).
      by apply elem_of_nil in Hl. }
  split; [exact Hlen|].
  exact (C10_cells_within_map [gs "0102"] (replicate 96 [] ++ [gs "12"; gs "a3"])
           true true Hlen).
Defined.

(** ** Claims on the section count *)

(** C9. The historical rule (2 sections when either band is active, 4
    otherwise) and the canonical rule differ exactly when exactly one band
    option is active; there the historical rule gives 2 and the canonical
    rule 3.  The canonical rule is the one the specification words: 2 with
    both bands, 3 with exactly one, 4 with none. *)
Theorem C9_section_count_rules (useSection3 useSection4 : bool) :
  numSections useSection3 useSection4
    = sections_by_band_count useSection3 useSection4 ∧
  if xorb useSection3 useSection4
  then numSections_historical useSection3 useSection4 = 2
       ∧ numSections useSection3 useSection4 = 3
       ∧ numSections_historical useSection3 useSection4
         ≠ numSections useSection3 useSection4
  else numSections_historical useSection3 useSection4
       = numSections useSection3 useSection4.
Proof. destruct useSection3, useSection4; repeat split; discriminate. Qed.

(** ** The sprite records of [generateSpriteSheetJSON] *)

Lemma loop_inv_elem {I S} (P : S → Prop) (body : I → S → option S)
    (idx : list I) (s : S) :
  P s →
  (∀ i s, i ∈ idx → P s → ∃ s', body i s = Some s' ∧ P s') →
  ∃ s', loop body idx s = Some s' ∧ P s'.
Proof.
  intros H0 Hstep.
  apply (loop_inv (λ _, P)); [done|].
  intros done_ i s0 [rest ->] HP. apply Hstep; [|done].
  apply elem_of_app. right. apply list_elem_of_here.
Qed.

Lemma seqZ_split (lo n i : Z) (done_ rest : list Z) :
  seqZ lo n = done_ ++ i :: rest → i = lo + len done_ ∧ len done_ < n.
Proof.
  intros Heq.
  assert (seqZ lo n !! length done_ = Some i) as Hl.
  { rewrite Heq. by rewrite lookup_app_r, Nat.sub_diag by lia. }
  apply lookup_seqZ in Hl. unfold len. lia.
Qed.

Lemma set_index_Some {A} (l : list A) (i : Z) (v : A) :
  0 ≤ i < len l → set_index l i v = Some (<[Z.to_nat i := v]> l).
Proof. intros. unfold set_index. by rewrite decide_True. Qed.

Lemma len_insert {A} (l : list A) (i : nat) (v : A) : len (<[i := v]> l) = len l.
Proof. unfold len. by rewrite length_insert. Qed.

Lemma index_insert {A} (l : list A) (i k : Z) (v : A) :
  0 ≤ i < len l → 0 ≤ k →
  index (<[Z.to_nat i := v]> l) k = if decide (k = i) then Some v else index l k.
Proof.
  intros Hi Hk. unfold index. rewrite !decide_True by done.
  case_decide as Hd.
  - subst k. apply list_lookup_insert_eq. unfold len in Hi. lia.
  - rewrite decide_True by done. apply list_lookup_insert_ne. lia.
Qed.

(** The loop over [j] never panics; it overwrites the columns that lie
    inside the line and leaves the others. *)
Lemma pixelRow_spec (steps : nat) (line : gostring) (x j : Z) (row : list Z) :
  0 ≤ x → 0 ≤ j → j + Z.of_nat steps ≤ 8 → len row = 8 →
  ∃ row', pixelRow steps line x j row = Some row' ∧ len row' = 8 ∧
    ∀ k, 0 ≤ k < 8 →
      index row' k =
      if decide (j ≤ k < j + Z.of_nat steps ∧ x * 8 + k < len line)
      then (λ c, parseHexChar (rune c)) <$> index line (x * 8 + k)
      else index row k.
Proof.
  revert j row. induction steps as [|n IH]; intros j row Hx Hj Hn Hrow;
    cbn [pixelRow].
  - exists row. split; [done|]. split; [done|]. intros k Hk.
    by rewrite decide_False by lia.
  - destruct (bool_decide (j < 8) && bool_decide (x * 8 + j < len line)) eqn:E.
    + apply andb_true_iff in E as [Hj8%bool_decide_eq_true Hlt%bool_decide_eq_true].
      rewrite decide_True by done.
      destruct (index_is_Some line (x * 8 + j)) as [c Hc]; [lia|].
      rewrite Hc. run. rewrite set_index_Some by lia.
      run.
      destruct (IH (j + 1) (<[Z.to_nat j := parseHexChar (rune c)]> row))
        as (row' & Hrun & Hlen & Hval); [lia | lia | lia | by rewrite len_insert |].
      exists row'. split; [done|]. split; [done|]. intros k Hk.
      rewrite (Hval k Hk), index_insert by lia.
      destruct (decide (k = j)) as [->|Hne].
      * rewrite decide_False by lia. rewrite decide_True by lia. by rewrite Hc.
      * destruct (decide (j + 1 ≤ k < j + 1 + Z.of_nat n ∧ x * 8 + k < len line)).
        -- by rewrite decide_True by lia.
        -- by rewrite decide_False by lia.
    + exists row. split; [done|]. split; [done|]. intros k Hk.
      apply andb_false_iff in E as [E%bool_decide_eq_false|E%bool_decide_eq_false];
        [lia|].
      by rewrite decide_False by lia.
Qed.

Lemma pixelValue_row (gfxData : list gostring) (line : gostring) (x y i k : Z) :
  0 ≤ x → 0 ≤ k →
  index gfxData (y * 8 + i) = Some line →
  Some (pixelValue gfxData x y i k) =
  if decide (x * 8 + k < len line)
  then (λ c, parseHexChar (rune c)) <$> index line (x * 8 + k)
  else Some 0.
Proof.
  intros Hx Hk Hline. unfold pixelValue. rewrite Hline.
  destruct (index line (x * 8 + k)) as [c|] eqn:E.
  - apply index_lt in E. by rewrite decide_True by lia.
  - case_decide as Hd; [|done].
    destruct (index_is_Some line (x * 8 + k)) as [c Hc]; [lia | congruence].
Qed.

(** [spritePixels] never panics; the grid is 8x8 and holds [pixelValue]. *)
Lemma spritePixels_spec (gfxData : list gostring) (x y : Z) :
  0 ≤ x → 0 ≤ y →
  ∃ pixels, spritePixels gfxData x y = Some pixels ∧ grid_8x8 pixels ∧
    ∀ i j, 0 ≤ i < 8 → 0 ≤ j < 8 →
      ∃ row, index pixels i = Some row ∧
             index row j = Some (pixelValue gfxData x y i j).
Proof.
  intros Hx Hy. unfold spritePixels, for_range.
  change (len (replicate 8 ([] : list Z)) - 0) with 8.
  set (good := λ (i : Z) (row : list Z),
         len row = 8 ∧
         ∀ j, 0 ≤ j < 8 → index row j = Some (pixelValue gfxData x y i j)).
  destruct (loop_inv
    (λ done_ pixels, len pixels = 8 ∧
       ∀ k row, (k < length done_)%nat → pixels !! k = Some row →
                good (Z.of_nat k) row)
    (λ i pixels,
       pixels ← set_index pixels i (replicate 8 0);
       if decide (y * 8 + i < len gfxData) then
         line ← index gfxData (y * 8 + i);
         row ← index pixels i;
         row ← pixelRow 8 line x 0 row;
         set_index pixels i row
       else Some pixels)
    (seqZ 0 8) (replicate 8 [])) as (pixels & Hrun & Hlen & Hrows).
  - split; [done|]. intros k row Hk. simpl in Hk. lia.
  - intros done_ i pixels [rest Hsplit] [Hlen Hrows].
    apply seqZ_split in Hsplit as [-> Hd]. rewrite Z.add_0_l.
    pose proof (len_nonneg done_) as Hd0.
    rewrite set_index_Some by lia. run.
    set (pixels1 := <[Z.to_nat (len done_) := replicate 8 0]> pixels).
    assert (len pixels1 = 8) as Hlen1 by (subst pixels1; by rewrite len_insert).
    assert (pixels1 !! Z.to_nat (len done_) = Some (replicate 8 0)) as Hcur.
    { subst pixels1. apply list_lookup_insert_eq. unfold len in *. lia. }
    assert (∀ pixels2 row2, good (len done_) row2 →
      pixels2 = <[Z.to_nat (len done_) := row2]> pixels1 →
      len pixels2 = 8 ∧
      ∀ k row, (k < length (done_ ++ [len done_]))%nat →
               pixels2 !! k = Some row → good (Z.of_nat k) row) as Hok.
    { intros pixels2 row2 Hrow2 ->. split; [by rewrite len_insert|].
      intros k row Hk Hlook. rewrite length_app in Hk. simpl in Hk.
      destruct (decide (k = Z.to_nat (len done_))) as [->|Hne].
      - rewrite list_lookup_insert_eq in Hlook by (unfold len in *; lia).
        injection Hlook as <-. by rewrite Z2Nat.id by lia.
      - rewrite list_lookup_insert_ne in Hlook by done. subst pixels1.
        rewrite list_lookup_insert_ne in Hlook by done.
        apply (Hrows k); [|done]. unfold len in Hne. lia. }
    case_decide as Hin.
    + destruct (index_is_Some gfxData (y * 8 + len done_)) as [line Hline]; [lia|].
      rewrite Hline. run.
      assert (index pixels1 (len done_) = Some (replicate 8 0)) as ->
        by (apply index_Some; split; [lia | done]).
      run.
      destruct (pixelRow_spec 8 line x 0 (replicate 8 0))
        as (row' & -> & Hrow' & Hval); [lia | lia | lia | done |].
      run. rewrite set_index_Some by lia. eexists.
      split; [done|]. apply (Hok _ row'); [|done]. split; [done|].
      intros j Hj. rewrite (Hval j Hj), (pixelValue_row _ line) by (done || lia).
      destruct (decide (x * 8 + j < len line)).
      * by rewrite decide_True by lia.
      * rewrite decide_False by lia. apply index_Some. split; [lia|].
        apply lookup_replicate_2. lia.
    + eexists. split; [done|]. apply (Hok _ (replicate 8 0)).
      * split; [done|]. intros j Hj. unfold pixelValue.
        destruct (index gfxData (y * 8 + len done_)) as [line|] eqn:E;
          [apply index_lt in E; lia|].
        apply index_Some. split; [lia|]. apply lookup_replicate_2. lia.
      * symmetry. by apply list_insert_id.
  - exists pixels. rewrite length_seqZ in Hrows.
    split; [done|]. split; [split; [done|]|].
    + intros row [k Hk]%list_elem_of_lookup.
      apply (Hrows k row); [|done]. apply lookup_lt_Some in Hk.
      unfold len in Hlen. lia.
    + intros i j Hi Hj.
      destruct (index_is_Some pixels i) as [row Hrow]; [lia|].
      exists row. split; [done|]. apply index_Some in Hrow as [_ Hrow].
      destruct (Hrows (Z.to_nat i) row) as [_ Hval]; [lia | done |].
      rewrite Z2Nat.id in Hval by lia. by apply Hval.
Qed.

Lemma scanRow_true (row : list Z) (used : bool) :
  scanRow row used = true ↔ used = true ∨ ∃ pixel, pixel ∈ row ∧ pixel ≠ 0.
Proof.
  induction row as [|p row IH]; simpl.
  - split; [by left | intros [H|(p & Hp & _)]; [done | by apply elem_of_nil in Hp]].
  - case_decide as Hp.
    + split; [|done]. intros _. right. exists p. split; [apply list_elem_of_here | done].
    + rewrite IH. split; intros [H|(q & Hq & Hne)]; try by left.
      * right. exists q. split; [by apply list_elem_of_further | done].
      * right. exists q. split; [|done].
        apply elem_of_cons in Hq as [->|Hq]; [|done]. exfalso. lia.
Qed.

Lemma scanPixels_true (pixels : list (list Z)) (used : bool) :
  scanPixels pixels used = true ↔
  used = true ∨ ∃ row pixel, row ∈ pixels ∧ pixel ∈ row ∧ pixel ≠ 0.
Proof.
  revert used. induction pixels as [|row pixels IH]; intros used; simpl.
  - split; [by left | intros [H|(r & p & Hr & _)]; [done | by apply elem_of_nil in Hr]].
  - destruct (scanRow row used) eqn:E.
    + split; [|done]. intros _. apply scanRow_true in E as [E|(p & Hp & Hne)];
        [by left|]. right. exists row, p. split; [apply list_elem_of_here | done].
    + rewrite IH. split.
      * intros [H|(r & p & Hr & Hp)]; [done|].
        right. exists r, p. split; [by apply list_elem_of_further | done].
      * intros [H|(r & p & Hr & Hp & Hne)].
        { exfalso. assert (scanRow row used = true) as Ht
            by (apply scanRow_true; by left). congruence. }
        apply elem_of_cons in Hr as [->|Hr].
        { exfalso. assert (scanRow row used = true) as Ht
            by (apply scanRow_true; right; by exists p). congruence. }
        right. by exists r, p.
Qed.

Lemma scanPixels_some_pixel_nonzero (pixels : list (list Z)) :
  scanPixels pixels false = true ↔ some_pixel_nonzero pixels.
Proof.
  rewrite scanPixels_true. unfold some_pixel_nonzero. split.
  - intros [H|(row & p & [i Hi]%list_elem_of_lookup & [j Hj]%list_elem_of_lookup & Hne)];
      [done|].
    exists (Z.of_nat i), (Z.of_nat j), row, p.
    rewrite !index_Some, !Nat2Z.id. split_and!; try done; lia.
  - intros (i & j & row & p & [_ Hi]%index_Some & [_ Hj]%index_Some & Hne).
    right. exists row, p. split_and!; [| |done]; by eapply list_elem_of_lookup_2.
Qed.

Lemma getFlagArray_total (flagByte : Z) :
  ∃ flags, getFlagArray flagByte = Some flags ∧ len flags = 8.
Proof. eexists. split; reflexivity. Qed.

Lemma used_flag_correct_intro (s : Sprite.t) :
  grid_8x8 (Sprite.Pixels s) →
  Sprite.Used s = scanPixels (Sprite.Pixels s) false →
  used_flag_correct s.
Proof.
  intros Hgrid Hused. split; [done|]. rewrite Hused. split.
  - apply scanPixels_some_pixel_nonzero.
  - intros Hzero. apply not_true_is_false. rewrite scanPixels_true.
    intros [H|(row & p & Hrow & Hp & Hne)]; [done|].
    apply Hne. by apply (Hzero row).
Qed.

Lemma spriteEntry_spec (gfxData : list gostring) (flagData : list Z)
    (useSection3 useSection4 : bool) (spriteID : Z) (sprites : list Sprite.t) :
  len flagData = 256 → 0 ≤ spriteID < 256 →
  ∃ sprites', spriteEntry gfxData flagData useSection3 useSection4 spriteID sprites
              = Some sprites' ∧
    (sprites' = sprites ∨
     ∃ s, sprites' = sprites ++ [s] ∧ Sprite.ID s = spriteID
          ∧ used_flag_correct s ∧ pixels_decoded gfxData s).
Proof.
  intros Hflags Hid. unfold spriteEntry.
  destruct (_ || _); [exists sprites; by split; [|left]|].
  destruct (spritePixels_spec gfxData (Z.rem spriteID 16) (Z.quot spriteID 16))
    as (pixels & -> & Hgrid & Hval); [Z.to_euclidean_division_equations; lia ..|].
  run.
  destruct (index_is_Some flagData spriteID) as [flagByte ->]; [lia|].
  run.
  destruct (getFlagArray_total flagByte) as (flags & -> & _).
  run. eexists. split; [done|]. right. eexists.
  split; [done|]. split; [done|]. split; [by apply used_flag_correct_intro|].
  exact Hval.
Qed.

(** With the 256 flag entries that [parseFlagSection] always allocates,
    [generateSpriteSheetJSON] neither panics nor returns an error. *)
Lemma generateSpriteSheetJSON_spec (gfxData : list gostring) (flagData : list Z)
    (useSection3 useSection4 : bool) :
  len flagData = 256 →
  ∃ sprites palette,
    generateSpriteSheetJSON gfxData flagData useSection3 useSection4 =
    Some (SpriteSheet.mk "1.0" "PICO-8 spritesheet export" sprites
            (MetaData.mk 8 8 16 16 (availableSprites useSection3 useSection4)
               palette), None) ∧
    ∀ s, s ∈ sprites → used_flag_correct s ∧ pixels_decoded gfxData s.
Proof.
  intros Hflags. unfold generateSpriteSheetJSON.
  destruct (for_each pico8Palette _ _) as [palette|] eqn:Hpal;
    [|by vm_compute in Hpal].
  run.
  destruct (loop_inv_elem
              (λ sprites, ∀ s, s ∈ sprites →
                 used_flag_correct s ∧ pixels_decoded gfxData s)
              (spriteEntry gfxData flagData useSection3 useSection4)
              (seqZ 0 (256 - 0)) []) as (sprites & Hrun & Hgood).
  - intros s Hs. by apply elem_of_nil in Hs.
  - intros i sprites Hi%elem_of_seqZ_range Hgood.
    destruct (spriteEntry_spec gfxData flagData useSection3 useSection4 i sprites)
      as (sprites' & Hrun & [->|(s & -> & _ & Hs)]); [done | lia | by eauto |].
    exists (sprites ++ [s]). split; [done|].
    intros s' [Hs'|Hs']%elem_of_app; [by apply Hgood|].
    apply list_elem_of_singleton in Hs'. by subst.
  - unfold for_range. rewrite Hrun. run.
    by exists sprites, palette.
Qed.

(** ** Claims on the sprite atlas model *)

(** C7. For every sprite record that [generateSpriteSheetJSON] emits, the
    pixel grid is 8 rows of 8 indices and [Used] is true if and only if at
    least one of them is non-zero; a record whose grid is all zero has
    [Used = false]. *)
Theorem C7_used_flag (gfxData : list gostring) (flagData : list Z)
    (useSection3 useSection4 : bool) :
  len flagData = 256 →
  ∃ sheet,
    generateSpriteSheetJSON gfxData flagData useSection3 useSection4
      = Some (sheet, None) ∧
    ∀ s, s ∈ SpriteSheet.Sprites sheet →
      grid_8x8 (Sprite.Pixels s) ∧
      (Sprite.Used s = true ↔ some_pixel_nonzero (Sprite.Pixels s)) ∧
      ((∀ row pixel, row ∈ Sprite.Pixels s → pixel ∈ row → pixel = 0) →
       Sprite.Used s = false).
Proof.
  intros Hflags.
  destruct (generateSpriteSheetJSON_spec gfxData flagData useSection3 useSection4 Hflags)
    as (sprites & palette & -> & Hgood).
  eexists. split; [done|]. intros s Hs. exact (proj1 (Hgood s Hs)).
Qed.

Lemma C7_used_flag_witness :
  len (replicate 256 0) = 256 ∧
  ∃ sheet,
    generateSpriteSheetJSON [gs "0070"] (replicate 256 0) false false
      = Some (sheet, None) ∧
    ∀ s, s ∈ SpriteSheet.Sprites sheet →
      grid_8x8 (Sprite.Pixels s) ∧
      (Sprite.Used s = true ↔ some_pixel_nonzero (Sprite.Pixels s)) ∧
      ((∀ row pixel, row ∈ Sprite.Pixels s → pixel ∈ row → pixel = 0) →
       Sprite.Used s = false).
Proof.
  split; [reflexivity|].
  apply (C7_used_flag [gs "0070"] (replicate 256 0) false false). reflexivity.
Defined.

Lemma availableSprites_ranges (useSection3 useSection4 : bool) :
  (λ r, (SpriteRange.Start r, SpriteRange.End_ r))
    <$> AvailableSprites.Ranges (availableSprites useSection3 useSection4)
  = [(0, 127)] ++ (if useSection3 then [] else [(128, 191)])
               ++ (if useSection4 then [] else [(192, 255)]).
Proof. by destruct useSection3, useSection4. Qed.

Lemma availableSprites_cover (useSection3 useSection4 : bool) (id : Z) :
  (∃ r, r ∈ AvailableSprites.Ranges (availableSprites useSection3 useSection4)
        ∧ in_range r id)
  ↔ 0 ≤ id ≤ 255 ∧ ¬ band_excludes useSection3 useSection4 id.
Proof.
  unfold band_excludes, in_range. split.
  - intros (r & Hr & Hid).
    destruct useSection3, useSection4; cbn in Hr;
      repeat (apply elem_of_cons in Hr as [->|Hr]);
      try (by apply elem_of_nil in Hr); cbn in Hid;
      (split; [lia|]); intros [[? ?]|[? ?]]; (discriminate || lia).
  - intros [Hid Hex].
    assert (useSection3 = true → ¬ 128 ≤ id ≤ 191) as H3
      by (intros ? ?; apply Hex; by left).
    assert (useSection4 = true → ¬ 192 ≤ id ≤ 255) as H4
      by (intros ? ?; apply Hex; by right).
    destruct (decide (id ≤ 127)) as [Hlo|Hlo].
    { exists (SpriteRange.mk 0 127 true "Base sprites"). split; [|cbn; lia].
      destruct useSection3, useSection4; apply list_elem_of_here. }
    destruct (decide (id ≤ 191)) as [Hmid|Hmid].
    { exists (SpriteRange.mk 128 191 true "Section 3 sprites"). split; [|cbn; lia].
      destruct useSection3; [exfalso; apply H3; [done | lia]|].
      destruct useSection4; apply list_elem_of_further, list_elem_of_here. }
    exists (SpriteRange.mk 192 255 true "Section 4 sprites"). split; [|cbn; lia].
    destruct useSection4; [exfalso; apply H4; [done | lia]|].
    destruct useSection3; cbn; repeat constructor.
Qed.

(** C3. For every combination of the two band options, an ID lies in some
    emitted range exactly when it is in 0..255 and outside the ID interval
    of every active band; two distinct entries of the range list share no
    ID; the reported total is the number of IDs covered; and with only
    band 3 active the ranges are [{0,127},{192,255}] with total 192. *)
Theorem C3_available_ranges (gfxData : list gostring) (flagData : list Z)
    (useSection3 useSection4 : bool) :
  len flagData = 256 →
  ∃ sheet,
    generateSpriteSheetJSON gfxData flagData useSection3 useSection4
      = Some (sheet, None) ∧
    let available := MetaData.AvailableSprites (SpriteSheet.Metadata sheet) in
    let ranges := AvailableSprites.Ranges available in
    (∀ id, (∃ r, r ∈ ranges ∧ in_range r id)
           ↔ 0 ≤ id ≤ 255 ∧ ¬ band_excludes useSection3 useSection4 id) ∧
    (∀ (i j : nat) r1 r2 id, ranges !! i = Some r1 → ranges !! j = Some r2 →
       i ≠ j → ¬ (in_range r1 id ∧ in_range r2 id)) ∧
    AvailableSprites.Total available = foldr Z.add 0 (range_size <$> ranges) ∧
    (useSection3 = true → useSection4 = false →
       (λ r, (SpriteRange.Start r, SpriteRange.End_ r)) <$> ranges
         = [(0, 127); (192, 255)]
       ∧ AvailableSprites.Total available = 192).
Proof.
  intros Hflags.
  destruct (generateSpriteSheetJSON_spec gfxData flagData useSection3 useSection4 Hflags)
    as (sprites & palette & -> & _).
  eexists. split; [done|].
  cbn [SpriteSheet.Metadata MetaData.AvailableSprites]. cbv zeta.
  split; [apply availableSprites_cover|]. split; [|split].
  - intros i j r1 r2 id H1 H2 Hij [Hin1 Hin2]. unfold in_range in *.
    destruct useSection3, useSection4; cbn in H1, H2;
      repeat (destruct i as [|i]; cbn in H1; try discriminate H1);
      repeat (destruct j as [|j]; cbn in H2; try discriminate H2);
      try (by apply Hij);
      injection H1 as <-; injection H2 as <-; cbn in Hin1, Hin2; lia.
  - by destruct useSection3, useSection4.
  - by intros -> ->.
Qed.

(** End-to-end scenario 3, on an empty graphics section. *)
Lemma C3_available_ranges_witness :
  len (replicate 256 0) = 256 ∧
  ∃ sheet,
    generateSpriteSheetJSON [] (replicate 256 0) true false = Some (sheet, None) ∧
    let available := MetaData.AvailableSprites (SpriteSheet.Metadata sheet) in
    let ranges := AvailableSprites.Ranges available in
    (∀ id, (∃ r, r ∈ ranges ∧ in_range r id)
           ↔ 0 ≤ id ≤ 255 ∧ ¬ band_excludes true false id) ∧
    (∀ (i j : nat) r1 r2 id, ranges !! i = Some r1 → ranges !! j = Some r2 →
       i ≠ j → ¬ (in_range r1 id ∧ in_range r2 id)) ∧
    AvailableSprites.Total available = foldr Z.add 0 (range_size <$> ranges) ∧
    (true = true → false = false →
       (λ r, (SpriteRange.Start r, SpriteRange.End_ r)) <$> ranges
         = [(0, 127); (192, 255)]
       ∧ AvailableSprites.Total available = 192).
Proof.
  split; [reflexivity|].
  apply (C3_available_ranges [] (replicate 256 0) true false). reflexivity.
Defined.

(** ** Rasters *)

Lemma NewRGBA_wf (w h : Z) : 0 ≤ w → 0 ≤ h → image_wf (image.NewRGBA w h).
Proof.
  intros Hw Hh. unfold image_wf, image.NewRGBA, len. cbn.
  rewrite length_replicate. split_and!; [done | done | nia].
Qed.

Lemma Set_W (p : image.RGBA) (x y : Z) (c : color.RGBA) :
  image.W (image.Set_ p x y c) = image.W p.
Proof. unfold image.Set_. by case_decide. Qed.

Lemma Set_H (p : image.RGBA) (x y : Z) (c : color.RGBA) :
  image.H (image.Set_ p x y c) = image.H p.
Proof. unfold image.Set_. by case_decide. Qed.

Lemma Set_wf (p : image.RGBA) (x y : Z) (c : color.RGBA) :
  image_wf p → image_wf (image.Set_ p x y c).
Proof.
  unfold image_wf, image.Set_. intros Hwf. case_decide; [|done]. cbn.
  by rewrite len_insert.
Qed.

Lemma Set_inBounds (p : image.RGBA) (x y : Z) (c : color.RGBA) (x' y' : Z) :
  image.inBounds (image.Set_ p x y c) x' y' ↔ image.inBounds p x' y'.
Proof. unfold image.inBounds. by rewrite Set_W, Set_H. Qed.

(** Reading a pixel after one [Set]. *)
Lemma At_Set (p : image.RGBA) (x y : Z) (c : color.RGBA) (x' y' : Z) :
  image_wf p →
  image.At (image.Set_ p x y c) x' y' =
  if decide (x' = x ∧ y' = y ∧ image.inBounds p x y) then c else image.At p x' y'.
Proof.
  intros (HW & HH & Hlen). unfold image.At.
  destruct (decide (image.inBounds p x' y')) as [Hin'|Hout'].
  - rewrite decide_True by (by apply Set_inBounds).
    unfold image.Set_. destruct (decide (image.inBounds p x y)) as [Hin|Hout].
    + unfold image.PixOffset. cbn. unfold image.inBounds in Hin, Hin'.
      assert (0 ≤ y * image.W p + x < image.W p * image.H p) as Hoff by nia.
      assert (0 ≤ y' * image.W p + x') as Hoff' by nia.
      destruct (decide (x' = x ∧ y' = y)) as [[-> ->]|Hne].
      * rewrite decide_True by done.
        rewrite list_lookup_insert_eq; [done|]. unfold len in Hlen. lia.
      * rewrite decide_False by tauto.
        rewrite list_lookup_insert_ne; [done|].
        intros Heq. apply Hne. apply Z2Nat.inj in Heq; [|lia|lia].
        assert (y = y') by nia. subst y'. lia.
    + rewrite decide_False by tauto. done.
  - rewrite decide_False by (by rewrite Set_inBounds).
    case_decide as Hd; [|done]. destruct Hd as (-> & -> & Hin). done.
Qed.

Lemma paint_app (img : image.RGBA) (ops1 ops2 : list (Z * Z * color.RGBA)) :
  paint img (ops1 ++ ops2) = paint (paint img ops1) ops2.
Proof. unfold paint. apply foldl_app. Qed.

Lemma paint_W (img : image.RGBA) (ops : list (Z * Z * color.RGBA)) :
  image.W (paint img ops) = image.W img.
Proof.
  revert img. induction ops as [|op ops IH]; intros img; [done|].
  cbn. rewrite IH. apply Set_W.
Qed.

Lemma paint_H (img : image.RGBA) (ops : list (Z * Z * color.RGBA)) :
  image.H (paint img ops) = image.H img.
Proof.
  revert img. induction ops as [|op ops IH]; intros img; [done|].
  cbn. rewrite IH. apply Set_H.
Qed.

Lemma paint_wf (img : image.RGBA) (ops : list (Z * Z * color.RGBA)) :
  image_wf img → image_wf (paint img ops).
Proof.
  revert img. induction ops as [|op ops IH]; intros img Hwf; [done|].
  cbn. apply IH. by apply Set_wf.
Qed.

(** A pixel that no [Set] of the run addresses keeps its colour. *)
Lemma paint_At_other (img : image.RGBA) (ops : list (Z * Z * color.RGBA)) (x y : Z) :
  image_wf img →
  (∀ op, op ∈ ops → ¬ (op.1.1 = x ∧ op.1.2 = y)) →
  image.At (paint img ops) x y = image.At img x y.
Proof.
  revert img. induction ops as [|op ops IH]; intros img Hwf Hops; [done|].
  cbn. rewrite IH.
  - rewrite At_Set by done. rewrite decide_False; [done|].
    intros (-> & -> & _). by apply (Hops op); [apply list_elem_of_here|].
  - by apply Set_wf.
  - intros op' Hop'. apply Hops. by apply list_elem_of_further.
Qed.

(** A pixel inside the bounds that some [Set] of the run addresses, every
    such [Set] writing [c], ends as [c]. *)
Lemma paint_At_hit (img : image.RGBA) (ops : list (Z * Z * color.RGBA)) (x y : Z)
    (c : color.RGBA) :
  image_wf img → image.inBounds img x y →
  (∀ op, op ∈ ops → op.1.1 = x → op.1.2 = y → op.2 = c) →
  (∃ op, op ∈ ops ∧ op.1.1 = x ∧ op.1.2 = y) →
  image.At (paint img ops) x y = c.
Proof.
  intros Hwf Hin Hcol Hhit.
  cut (image.At img x y = c ∨ ∃ op, op ∈ ops ∧ op.1.1 = x ∧ op.1.2 = y);
    [|by right].
  clear Hhit. revert img Hwf Hin Hcol.
  induction ops as [|op ops IH]; intros img Hwf Hin Hcol Hhit.
  - destruct Hhit as [?|(op & Hop & _)]; [done | by apply elem_of_nil in Hop].
  - cbn. apply IH.
    + by apply Set_wf.
    + by apply Set_inBounds.
    + intros op' Hop'. apply Hcol. by apply list_elem_of_further.
    + rewrite At_Set by done.
      destruct (decide (x = op.1.1 ∧ y = op.1.2 ∧ image.inBounds img op.1.1 op.1.2))
        as [(Hx & Hy & _)|Hmiss].
      * left. apply Hcol; [apply list_elem_of_here | done | done].
      * destruct Hhit as [?|(op' & Hop' & Hx & Hy)]; [by left|].
        apply elem_of_cons in Hop' as [->|Hop']; [|right; by exists op'].
        exfalso. apply Hmiss. subst x y. done.
Qed.

Lemma loop_paint {I} (ops : I → list (Z * Z * color.RGBA))
    (body : I → image.RGBA → option image.RGBA) (idx : list I) (img : image.RGBA) :
  (∀ i img, i ∈ idx → body i img = Some (paint img (ops i))) →
  loop body idx img = Some (paint img (concat (ops <$> idx))).
Proof.
  revert img. induction idx as [|i idx IH]; intros img Hb; [done|].
  cbn [loop]. rewrite Hb by apply list_elem_of_here. run.
  rewrite IH. { by rewrite fmap_cons; cbn [concat]; rewrite paint_app. }
  intros j img' Hj. apply Hb. by apply list_elem_of_further.
Qed.

Lemma loop_paint1 {I} (op : I → Z * Z * color.RGBA)
    (body : I → image.RGBA → option image.RGBA) (idx : list I) (img : image.RGBA) :
  (∀ i img, i ∈ idx → body i img = Some (image.Set_ img (op i).1.1 (op i).1.2 (op i).2)) →
  loop body idx img = Some (paint img (op <$> idx)).
Proof.
  intros Hb. rewrite (loop_paint (λ i, [op i])) by done.
  do 2 f_equal. clear Hb. induction idx as [|i idx IH]; [done|].
  rewrite !fmap_cons. cbn [concat app]. by rewrite IH.
Qed.

(** Two nested loops that [Set] one pixel per round. *)
Lemma rect_loops (w h dx dy : Z) (c : Z → Z → color.RGBA)
    (body : Z → Z → image.RGBA → option image.RGBA) (img : image.RGBA) :
  (∀ yy xx img, body yy xx img = Some (image.Set_ img (dx + xx) (dy + yy) (c xx yy))) →
  for_range 0 h (λ yy img, for_range 0 w (body yy) img) img
  = Some (paint img (rect_ops w h dx dy c)).
Proof.
  intros Hb. unfold for_range, rect_ops. rewrite !Z.sub_0_r.
  apply loop_paint. intros yy img' _.
  apply (loop_paint1 (λ xx, (dx + xx, dy + yy, c xx yy))).
  intros xx img'' _. apply Hb.
Qed.

Lemma elem_of_rect_ops (w h dx dy : Z) (c : Z → Z → color.RGBA)
    (op : Z * Z * color.RGBA) :
  op ∈ rect_ops w h dx dy c ↔
  ∃ xx yy, 0 ≤ xx < w ∧ 0 ≤ yy < h ∧ op = (dx + xx, dy + yy, c xx yy).
Proof.
  unfold rect_ops. rewrite elem_of_concat. split.
  - intros (row & (yy & -> & Hyy%elem_of_seqZ_range)%list_elem_of_fmap & Hop).
    apply list_elem_of_fmap in Hop as (xx & -> & Hxx%elem_of_seqZ_range).
    exists xx, yy. split_and!; (lia || done).
  - intros (xx & yy & Hxx & Hyy & ->). eexists. split.
    + apply list_elem_of_fmap. exists yy. split; [done|]. apply elem_of_seqZ. lia.
    + apply list_elem_of_fmap. exists xx. split; [done|]. apply elem_of_seqZ. lia.
Qed.

(** The raster after painting a rectangle. *)
Lemma paint_rect_At (img : image.RGBA) (w h dx dy : Z) (c : Z → Z → color.RGBA)
    (x y : Z) :
  image_wf img →
  image.At (paint img (rect_ops w h dx dy c)) x y =
  if decide (image.inBounds img x y ∧ dx ≤ x < dx + w ∧ dy ≤ y < dy + h)
  then c (x - dx) (y - dy) else image.At img x y.
Proof.
  intros Hwf. case_decide as Hd.
  - destruct Hd as (Hin & Hx & Hy). apply paint_At_hit; [done | done | |].
    + intros op (xx & yy & _ & _ & ->)%elem_of_rect_ops. cbn. intros <- <-.
      f_equal; lia.
    + exists (x, y, c (x - dx) (y - dy)). split; [|done].
      apply elem_of_rect_ops. exists (x - dx), (y - dy).
      split_and!; try lia. repeat f_equal; lia.
  - destruct (decide (image.inBounds img x y)) as [Hin|Hout].
    + apply paint_At_other; [done|].
      intros op (xx & yy & Hxx & Hyy & ->)%elem_of_rect_ops. cbn.
      intros [<- <-]. apply Hd. split; [done | lia].
    + unfold image.At. rewrite !decide_False; [done | done |].
      unfold image.inBounds in *. by rewrite paint_W, paint_H.
Qed.

Lemma drawBlackTile_paint (dst : image.RGBA) (tileX tileY : Z) :
  drawBlackTile dst tileX tileY =
  Some (paint dst (rect_ops 8 8 (tileX * 8) (tileY * 8) (λ _ _, color.mk 0 0 0 255))).
Proof.
  unfold drawBlackTile.
  apply (rect_loops 8 8 (tileX * 8) (tileY * 8) (λ _ _, color.mk 0 0 0 255)
           (λ yy xx dst,
              c ← index pico8Palette 0;
              Some (image.Set_ dst (tileX * 8 + xx) (tileY * 8 + yy) c))).
  intros yy xx img. reflexivity.
Qed.

Lemma drawSprite_paint (dst src : image.RGBA) (spriteX spriteY dstTileX dstTileY : Z) :
  drawSprite dst src spriteX spriteY dstTileX dstTileY =
  Some (paint dst (rect_ops 8 8 (dstTileX * 8) (dstTileY * 8)
                     (λ xx yy, image.At src (spriteX * 8 + xx) (spriteY * 8 + yy)))).
Proof.
  unfold drawSprite.
  apply (rect_loops 8 8 (dstTileX * 8) (dstTileY * 8)
           (λ xx yy, image.At src (spriteX * 8 + xx) (spriteY * 8 + yy))
           (λ yy xx dst,
              Some (image.Set_ dst (dstTileX * 8 + xx) (dstTileY * 8 + yy)
                      (image.At src (spriteX * 8 + xx) (spriteY * 8 + yy))))).
  intros yy xx img. reflexivity.
Qed.

(** ** The atlas raster and the exported sheet *)

Lemma reconstructPixel_spec (y x r : Z) (img : image.RGBA) :
  reconstructPixel y x r img = Some (image.Set_ img x y (pixelColor r)).
Proof.
  unfold reconstructPixel, pixelColor. case_decide as Hd.
  - destruct (index_is_Some pico8Palette (parseHexChar r)) as [c ->]; [lia|]. done.
  - assert (index pico8Palette (parseHexChar r) = None) as ->; [|done].
    destruct (index pico8Palette (parseHexChar r)) eqn:E; [|done].
    apply index_lt in E. lia.
Qed.

Lemma reconstructImage_paint (gfxData : list gostring) :
  reconstructImage gfxData
  = Some (paint (image.NewRGBA 128 128) (reconstruct_ops gfxData)).
Proof.
  unfold reconstructImage, for_each, reconstruct_ops.
  apply loop_paint. intros [y line] img _. cbn [fst snd].
  apply (loop_paint1 (λ xr : Z * Z, (xr.1, y, pixelColor xr.2))).
  intros [x r] img' _. apply reconstructPixel_spec.
Qed.

Lemma copyRegion_paint (w h x0 y0 : Z) (spriteSheet sub : image.RGBA) :
  copyRegion w h x0 y0 spriteSheet sub =
  Some (paint sub (rect_ops w h 0 0
                     (λ xx yy, image.At spriteSheet (x0 + xx) (y0 + yy)))).
Proof.
  unfold copyRegion.
  apply (rect_loops w h 0 0 (λ xx yy, image.At spriteSheet (x0 + xx) (y0 + yy))
           (λ yy xx sub,
              Some (image.Set_ sub xx yy (image.At spriteSheet (x0 + xx) (y0 + yy))))).
  intros yy xx img. reflexivity.
Qed.

Lemma section_path_inj (i j : Z) :
  0 ≤ i < 4 → 0 ≤ j < 4 → section_path i = section_path j → i = j.
Proof.
  intros Hi Hj.
  assert (i = 0 ∨ i = 1 ∨ i = 2 ∨ i = 3) as Hi' by lia.
  assert (j = 0 ∨ j = 1 ∨ j = 2 ∨ j = 3) as Hj' by lia.
  destruct Hi' as [-> | [-> | [-> | ->]]], Hj' as [-> | [-> | [-> | ->]]];
    vm_compute; intros H; (done || discriminate H).
Qed.

Lemma numSections_range (useSection3 useSection4 : bool) :
  2 ≤ numSections useSection3 useSection4 ≤ 4.
Proof. destruct useSection3, useSection4; cbn; lia. Qed.

Lemma saveSection_spec (spriteSheet : image.RGBA) (i : Z)
    (fs : gmap string image.RGBA) :
  (subImg ← copyRegion (16 * 8) (4 * 8) 0 (i * (4 * 8)) spriteSheet
             (image.NewRGBA (16 * 8) (4 * 8));
   Some (saveAsPng subImg ("sprites/section_" +:+ fmt_d i +:+ ".png") fs))
  = Some (<[section_path i := sectionImage spriteSheet i]> fs).
Proof.
  rewrite copyRegion_paint. run.
  unfold saveAsPng, section_path, sectionImage. do 2 f_equal.
Qed.

(** [saveSprites] does not panic, and afterwards every one of the
    [numSections] section files holds its band of the sheet, whatever the
    store held before. *)
Lemma saveSprites_spec (spriteSheet : image.RGBA) (useSection3 useSection4 : bool)
    (fs : gmap string image.RGBA) :
  ∃ fs', saveSprites spriteSheet useSection3 useSection4 fs = Some fs' ∧
    ∀ i, 0 ≤ i < numSections useSection3 useSection4 →
      loadImage (section_path i) fs' = Some (sectionImage spriteSheet i).
Proof.
  unfold saveSprites.
  match goal with
  | |- ∃ fs', (loop ?body ?idx fs ≫= _) = _ ∧ _ =>
      destruct (loop_inv_elem (λ _, True) body idx fs) as (fs1 & Hfs1 & _)
  end; [exact I | |].
  { intros r fs0 _ _. destruct (_ && _); [eexists; split; [reflexivity | exact I]|].
    apply loop_inv_elem; [exact I|]. intros n fs2 _ _.
    rewrite copyRegion_paint. eexists. split; [reflexivity | exact I]. }
  rewrite Hfs1. run. unfold for_range.
  pose proof (numSections_range useSection3 useSection4) as Hn.
  match goal with
  | |- ∃ fs', loop ?body ?idx fs1 = _ ∧ _ =>
      destruct (loop_inv
        (λ done_ (fs' : gmap string image.RGBA),
           ∀ i, i ∈ done_ → fs' !! section_path i = Some (sectionImage spriteSheet i))
        body idx fs1) as (fs' & Hrun & Hfs)
  end.
  - intros i Hi. by apply elem_of_nil in Hi.
  - intros done_ i fs0 [rest Hsplit] Hinv.
    assert (0 ≤ i < 4 ∧ ∀ j, j ∈ done_ → 0 ≤ j < 4) as [Hi Hdone].
    { split.
      - assert (i ∈ seqZ 0 (numSections useSection3 useSection4 - 0)) as Hi
          by (rewrite Hsplit; apply elem_of_app; right; apply list_elem_of_here).
        apply elem_of_seqZ_range in Hi. lia.
      - intros j Hj.
        assert (j ∈ seqZ 0 (numSections useSection3 useSection4 - 0)) as Hj'
          by (rewrite Hsplit; apply elem_of_app; left; exact Hj).
        apply elem_of_seqZ_range in Hj'. lia. }
    exists (<[section_path i := sectionImage spriteSheet i]> fs0).
    split; [exact (saveSection_spec spriteSheet i fs0)|].
    intros j [Hj|Hj]%elem_of_app.
    + destruct (decide (i = j)) as [->|Hne].
      * apply lookup_insert_eq.
      * rewrite lookup_insert_ne; [exact (Hinv j Hj)|].
        intros Heq. apply Hne. apply section_path_inj; [exact Hi | auto | exact Heq].
    + apply list_elem_of_singleton in Hj as ->. apply lookup_insert_eq.
  - exists fs'. split; [exact Hrun|]. intros i Hi. apply Hfs. apply elem_of_seqZ. lia.
Qed.

Lemma NewRGBA_W (w h : Z) : image.W (image.NewRGBA w h) = w.
Proof. reflexivity. Qed.

Lemma NewRGBA_H (w h : Z) : image.H (image.NewRGBA w h) = h.
Proof. reflexivity. Qed.

Lemma sectionImage_At (spriteSheet : image.RGBA) (i x y : Z) :
  0 ≤ x < 128 → 0 ≤ y < 32 →
  image.At (sectionImage spriteSheet i) x y = image.At spriteSheet x (i * 32 + y).
Proof.
  intros Hx Hy. unfold sectionImage.
  rewrite paint_rect_At by (apply NewRGBA_wf; lia).
  rewrite decide_True.
  - f_equal; lia.
  - unfold image.inBounds. rewrite NewRGBA_W, NewRGBA_H. lia.
Qed.

Lemma paint_concat_cons {I} (ops : I → list (Z * Z * color.RGBA)) (i : I)
    (idx : list I) (img : image.RGBA) :
  paint img (concat (ops <$> i :: idx))
  = paint (paint img (ops i)) (concat (ops <$> idx)).
Proof. rewrite fmap_cons. cbn [concat]. apply paint_app. Qed.

Lemma combineLoad_spec (spriteSheet : image.RGBA) (idx : list Z)
    (fs : gmap string image.RGBA) (combined : image.RGBA) :
  (∀ i, i ∈ idx → loadImage (section_path i) fs = Some (sectionImage spriteSheet i)) →
  combineLoad idx fs combined =
  Some (inl (paint combined
               (concat ((λ i, rect_ops 128 32 0 (i * 32)
                               (λ x y, image.At (sectionImage spriteSheet i) x y))
                        <$> idx)))).
Proof.
  revert combined. induction idx as [|i idx IH]; intros combined Hload; [done|].
  cbn [combineLoad].
  change ("sprites/section_" +:+ fmt_d i +:+ ".png") with (section_path i).
  rewrite (Hload i) by apply list_elem_of_here.
  match goal with
  | |- context [for_range 0 32 ?b combined] =>
      assert (for_range 0 32 b combined =
              Some (paint combined
                      (rect_ops 128 32 0 (i * 32)
                         (λ x y, image.At (sectionImage spriteSheet i) x y)))) as ->
  end.
  { apply (rect_loops 128 32 0 (i * 32)
             (λ x y, image.At (sectionImage spriteSheet i) x y)
             (λ y x combined,
                Some (image.Set_ combined x (i * 32 + y)
                        (image.At (sectionImage spriteSheet i) x y)))).
    intros yy xx img. reflexivity. }
  run. rewrite IH.
  - rewrite (paint_concat_cons
               (λ i, rect_ops 128 32 0 (i * 32)
                       (λ x y, image.At (sectionImage spriteSheet i) x y))
               i idx combined).
    reflexivity.
  - intros j Hj. apply Hload. apply list_elem_of_further. exact Hj.
Qed.

Lemma combineFill_spec (n : Z) (combined : image.RGBA) :
  for_range n 4 (λ i combined,
    for_range 0 32 (λ y combined,
      for_range 0 128 (λ x combined,
        Some (image.Set_ combined x (i * 32 + y) (color.mk 0 0 0 0)))
        combined) combined) combined =
  Some (paint combined
          (concat ((λ i, rect_ops 128 32 0 (i * 32) (λ _ _, color.mk 0 0 0 0))
                   <$> seqZ n (4 - n)))).
Proof.
  unfold for_range at 1. apply loop_paint. intros i img _.
  apply (rect_loops 128 32 0 (i * 32) (λ _ _, color.mk 0 0 0 0)
           (λ y x combined,
              Some (image.Set_ combined x (i * 32 + y) (color.mk 0 0 0 0)))).
  intros yy xx img'. reflexivity.
Qed.

(** Once the first [n] section files hold the bands of the sheet,
    [combineSectionsIntoSpriteSheet] returns no error and stores the
    stitched raster as spritesheet.png. *)
Lemma combineSections_spec (spriteSheet : image.RGBA) (n : Z)
    (fs : gmap string image.RGBA) :
  (∀ i, 0 ≤ i < n → loadImage (section_path i) fs = Some (sectionImage spriteSheet i)) →
  combineSectionsIntoSpriteSheet n fs =
  Some (<["spritesheet.png" := combinedImage spriteSheet n]> fs, None).
Proof.
  intros Hload. unfold combineSectionsIntoSpriteSheet.
  rewrite (combineLoad_spec spriteSheet)
    by (intros i Hi%elem_of_seqZ_range; apply Hload; lia).
  run. rewrite combineFill_spec. run.
  unfold saveAsPng, combinedImage, combine_ops.
  rewrite (paint_app (image.NewRGBA 128 (32 * 4))). reflexivity.
Qed.

Lemma elem_of_combine_ops (spriteSheet : image.RGBA) (n : Z) (op : Z * Z * color.RGBA) :
  0 ≤ n ≤ 4 →
  op ∈ combine_ops spriteSheet n ↔
  ∃ i xx yy, 0 ≤ i < 4 ∧ 0 ≤ xx < 128 ∧ 0 ≤ yy < 32 ∧
    op = (0 + xx, i * 32 + yy,
          if decide (i < n) then image.At (sectionImage spriteSheet i) xx yy
          else color.mk 0 0 0 0).
Proof.
  intros Hn. unfold combine_ops. rewrite elem_of_app, !elem_of_concat. split.
  - intros [(ops & Hops & Hop)|(ops & Hops & Hop)];
      apply list_elem_of_fmap in Hops as (i & -> & Hi%elem_of_seqZ_range);
      apply elem_of_rect_ops in Hop as (xx & yy & Hxx & Hyy & ->);
      exists i, xx, yy.
    + rewrite decide_True by lia. split_and!; (lia || reflexivity).
    + rewrite decide_False by lia. split_and!; (lia || reflexivity).
  - intros (i & xx & yy & Hi & Hxx & Hyy & ->).
    destruct (decide (i < n)) as [Hlt|Hge]; [left | right]; eexists; split.
    + apply list_elem_of_fmap. exists i. split; [reflexivity|].
      apply elem_of_seqZ. lia.
    + apply elem_of_rect_ops. exists xx, yy. split_and!; (lia || reflexivity).
    + apply list_elem_of_fmap. exists i. split; [reflexivity|].
      apply elem_of_seqZ. lia.
    + apply elem_of_rect_ops. exists xx, yy. split_and!; (lia || reflexivity).
Qed.

(** The stitched raster: the bands of the sheet above row [32 * n],
    transparent below. *)
Lemma combinedImage_At (spriteSheet : image.RGBA) (n x y : Z) :
  0 ≤ n ≤ 4 → 0 ≤ x < 128 → 0 ≤ y < 128 →
  image.At (combinedImage spriteSheet n) x y =
  if decide (y < 32 * n) then image.At spriteSheet x y else color.mk 0 0 0 0.
Proof.
  intros Hn Hx Hy. unfold combinedImage. apply paint_At_hit.
  - apply NewRGBA_wf; lia.
  - unfold image.inBounds. rewrite NewRGBA_W, NewRGBA_H. lia.
  - intros op Hop Hopx Hopy.
    apply elem_of_combine_ops in Hop as (i & xx & yy & Hi & Hxx & Hyy & ->); [|lia].
    cbn [fst snd] in *.
    destruct (decide (i < n)) as [Hlt|Hge].
    + rewrite decide_True by lia. rewrite sectionImage_At by lia. f_equal; lia.
    + rewrite decide_False by lia. reflexivity.
  - exists (0 + x, (y `div` 32) * 32 + y `mod` 32,
            if decide (y `div` 32 < n)
            then image.At (sectionImage spriteSheet (y `div` 32)) x (y `mod` 32)
            else color.mk 0 0 0 0).
    split; [|cbn [fst snd]; split; [lia | Z.to_euclidean_division_equations; lia]].
    apply elem_of_combine_ops; [lia|].
    exists (y `div` 32), x, (y `mod` 32).
    split_and!; try reflexivity; try lia; Z.to_euclidean_division_equations; lia.
Qed.

(** ** Claim on the exported sheet *)

(** C8. For every option setting and every store of earlier files, the
    sheet that [main] exports as spritesheet.png is 128x128 pixels; with
    numSections = 2 when both bands are active, 3 when exactly one is and 4
    when neither is, its rows above 32*numSections are the first
    numSections 128x32 bands of the atlas raster, in place, and every pixel
    of the remaining band slots is the fully transparent colour
    (0,0,0,0). *)
Theorem C8_composite_sheet (gfxData : list gostring) (useSection3 useSection4 : bool)
    (fs : gmap string image.RGBA) :
  ∃ spriteSheet fs' combined,
    reconstructImage gfxData = Some spriteSheet ∧
    exportSpriteSheet gfxData useSection3 useSection4 fs = Some (fs', None) ∧
    fs' !! "spritesheet.png" = Some combined ∧
    image.W combined = 128 ∧ image.H combined = 128 ∧
    len (image.Pix combined) = 128 * 128 ∧
    numSections useSection3 useSection4
      = sections_by_band_count useSection3 useSection4 ∧
    ∀ x y,
      image.At combined x y =
      if decide (0 ≤ x < 128 ∧ 0 ≤ y < 32 * sections_by_band_count useSection3 useSection4)
      then image.At spriteSheet x y
      else color.mk 0 0 0 0.
Proof.
  pose proof (numSections_range useSection3 useSection4) as Hn.
  assert (numSections useSection3 useSection4
          = sections_by_band_count useSection3 useSection4) as Hcount
    by (destruct useSection3, useSection4; reflexivity).
  set (spriteSheet := paint (image.NewRGBA 128 128) (reconstruct_ops gfxData)).
  destruct (saveSprites_spec spriteSheet useSection3 useSection4 fs)
    as (fs1 & Hsave & Hfiles).
  exists spriteSheet,
    (<["spritesheet.png" := combinedImage spriteSheet (numSections useSection3 useSection4)]>
       fs1),
    (combinedImage spriteSheet (numSections useSection3 useSection4)).
  split; [apply reconstructImage_paint|]. split.
  { unfold exportSpriteSheet. rewrite reconstructImage_paint.
    run. fold spriteSheet. rewrite Hsave.
    run. apply combineSections_spec. exact Hfiles. }
  split; [apply lookup_insert_eq|].
  assert (image_wf (combinedImage spriteSheet (numSections useSection3 useSection4)))
    as (_ & _ & Hlen) by (apply paint_wf, NewRGBA_wf; lia).
  unfold combinedImage in Hlen |- *. rewrite paint_W, paint_H in *.
  rewrite NewRGBA_W, NewRGBA_H in *.
  split; [reflexivity|]. split; [reflexivity|]. split; [exact Hlen|].
  split; [exact Hcount|]. rewrite <- Hcount. intros x y.
  destruct (decide (0 ≤ x < 128 ∧ 0 ≤ y < 128)) as [[Hx Hy]|Hout].
  - fold (combinedImage spriteSheet (numSections useSection3 useSection4)).
    rewrite combinedImage_At by lia.
    destruct (decide (y < 32 * numSections useSection3 useSection4)).
    + rewrite decide_True by lia. reflexivity.
    + rewrite decide_False by lia. reflexivity.
  - rewrite decide_False by lia. unfold image.At. rewrite decide_False; [reflexivity|].
    unfold image.inBounds. rewrite paint_W, paint_H, NewRGBA_W, NewRGBA_H. lia.
Qed.

(** ** Malformed input *)

Lemma parseHexChar_range (c : Z) :
  (is_hex_rune c ∧ 0 ≤ parseHexChar c ≤ 15) ∨ (¬ is_hex_rune c ∧ parseHexChar c = -1).
Proof.
  unfold parseHexChar, is_hex_rune.
  change (rune "0") with 48. change (rune "9") with 57.
  change (rune "a") with 97. change (rune "f") with 102.
  change (rune "A") with 65. change (rune "F") with 70.
  repeat case_match; lia.
Qed.

Lemma decodeRune_width (s : gostring) : s ≠ [] → 1 ≤ (decodeRune s).2 ≤ 4.
Proof.
  destruct s as [|c0 t]; [done|]. intros _. unfold decodeRune.
  repeat case_match; cbn [snd]; lia.
Qed.

(** More steps than bytes change nothing: the walk over a string ends. *)
Lemma range_string_from_steps (k1 k2 : nat) (i : Z) (s : gostring) :
  (length s ≤ k1)%nat → (length s ≤ k2)%nat →
  range_string_from k1 i s = range_string_from k2 i s.
Proof.
  revert k2 i s. induction k1 as [|k1 IH]; intros k2 i s H1 H2.
  - destruct s; [|cbn in H1; lia]. by destruct k2.
  - destruct s as [|c t]; [by destruct k2|].
    destruct k2 as [|k2]; [cbn in H2; lia|]. cbn [range_string_from].
    pose proof (decodeRune_width (c :: t) ltac:(discriminate)) as Hw.
    destruct (decodeRune (c :: t)) as [r sz]. cbn [snd] in Hw. f_equal.
    apply IH; rewrite length_drop; cbn [length] in *; lia.
Qed.

Lemma range_string_from_ge (steps : nat) (i : Z) (s : gostring) (x r : Z) :
  (x, r) ∈ range_string_from steps i s → i ≤ x.
Proof.
  revert i s. induction steps as [|k IH]; intros i s Hin; cbn in Hin.
  - by apply elem_of_nil in Hin.
  - destruct s as [|c t]; [by apply elem_of_nil in Hin|].
    pose proof (decodeRune_width (c :: t) ltac:(discriminate)) as Hw.
    destruct (decodeRune (c :: t)) as [r0 sz]. cbn [snd] in Hw.
    apply elem_of_cons in Hin as [Heq|Hin]; [injection Heq as -> ->; lia|].
    apply IH in Hin. lia.
Qed.

(** [range] yields at most one code point per byte offset. *)
Lemma range_string_from_fun (steps : nat) (i : Z) (s : gostring) (x r r' : Z) :
  (x, r) ∈ range_string_from steps i s →
  (x, r') ∈ range_string_from steps i s → r = r'.
Proof.
  revert i s. induction steps as [|k IH]; intros i s Hin Hin'; cbn in Hin, Hin'.
  - by apply elem_of_nil in Hin.
  - destruct s as [|c t]; [by apply elem_of_nil in Hin|].
    pose proof (decodeRune_width (c :: t) ltac:(discriminate)) as Hw.
    destruct (decodeRune (c :: t)) as [r0 sz]. cbn [snd] in Hw.
    apply elem_of_cons in Hin as [Heq|Hin], Hin' as [Heq'|Hin'].
    + congruence.
    + injection Heq as -> ->. apply range_string_from_ge in Hin'. lia.
    + injection Heq' as -> ->. apply range_string_from_ge in Hin. lia.
    + by apply (IH _ _ Hin Hin').
Qed.

Lemma elem_of_zip_seqZ {A} (l : list A) (i : Z) (a : A) :
  (i, a) ∈ zip (seqZ 0 (len l)) l ↔ index l i = Some a.
Proof.
  rewrite list_elem_of_lookup, index_Some. split.
  - intros (k & Hk). apply lookup_zip_with_Some in Hk as (j & b & Heq & Hj & Hb).
    injection Heq as -> ->. apply lookup_seqZ in Hj as [-> _].
    rewrite Z.add_0_l, Nat2Z.id. split; [lia | done].
  - intros [Hi Ha]. exists (Z.to_nat i). apply lookup_zip_with_Some.
    exists i, a. split; [done|]. split; [|done].
    apply lookup_seqZ. apply lookup_lt_Some in Ha. unfold len. lia.
Qed.

Lemma elem_of_reconstruct_ops (gfxData : list gostring) (op : Z * Z * color.RGBA) :
  op ∈ reconstruct_ops gfxData ↔
  ∃ y line x r, index gfxData y = Some line ∧ (x, r) ∈ range_string line
                ∧ op = (x, y, pixelColor r).
Proof.
  unfold reconstruct_ops. rewrite elem_of_concat. split.
  - intros (ops & ([y line] & -> & Hyl)%list_elem_of_fmap & Hop).
    apply list_elem_of_fmap in Hop as ([x r] & -> & Hxr).
    apply elem_of_zip_seqZ in Hyl. by exists y, line, x, r.
  - intros (y & line & x & r & Hline & Hxr & ->). eexists. split.
    + apply list_elem_of_fmap. exists (y, line). split; [reflexivity|].
      by apply elem_of_zip_seqZ.
    + cbn [fst snd]. apply list_elem_of_fmap. by exists (x, r).
Qed.

Lemma NewRGBA_At (w h x y : Z) : image.At (image.NewRGBA w h) x y = color.zero.
Proof.
  unfold image.At. case_decide; [|done]. unfold image.NewRGBA. cbn [image.Pix].
  destruct (replicate _ _ !! _) as [c|] eqn:E; [|done].
  by apply lookup_replicate_1 in E as [-> _].
Qed.

Lemma pixelColor_spec (r : Z) :
  pixelColor r =
  if decide (0 ≤ parseHexChar r ≤ 15)
  then default color.zero (index pico8Palette (parseHexChar r))
  else color.mk 0 0 0 255.
Proof.
  unfold pixelColor. case_decide as Hd.
  - destruct (index_is_Some pico8Palette (parseHexChar r)) as [c ->]; [|done].
    change (len pico8Palette) with 16. lia.
  - destruct (index pico8Palette (parseHexChar r)) as [c|] eqn:E; [|done].
    apply index_lt in E. change (len pico8Palette) with 16 in E. lia.
Qed.

(** [reconstructImage] does not panic; a pixel is the palette colour of
    the code point that [range] yields at its offset, palette colour 0 when
    that is no hex digit, and the zero colour of [NewRGBA] where the
    section has no character. *)
Lemma reconstructImage_spec (gfxData : list gostring) :
  ∃ spriteSheet,
    reconstructImage gfxData = Some spriteSheet ∧
    image.W spriteSheet = 128 ∧ image.H spriteSheet = 128 ∧
    ∀ x y, 0 ≤ x < 128 → 0 ≤ y < 128 →
      (∀ line r, index gfxData y = Some line → (x, r) ∈ range_string line →
         image.At spriteSheet x y = pixelColor r) ∧
      ((∀ line r, index gfxData y = Some line → (x, r) ∉ range_string line) →
         image.At spriteSheet x y = color.zero).
Proof.
  eexists. split; [apply reconstructImage_paint|].
  rewrite paint_W, paint_H, NewRGBA_W, NewRGBA_H.
  split; [reflexivity|]. split; [reflexivity|]. intros x y Hx Hy. split.
  - intros line r Hline Hxr. apply paint_At_hit.
    + apply NewRGBA_wf; lia.
    + unfold image.inBounds. rewrite NewRGBA_W, NewRGBA_H. lia.
    + intros op (y' & line' & x' & r' & Hline' & Hxr' & ->)%elem_of_reconstruct_ops.
      cbn [fst snd]. intros -> ->. f_equal.
      assert (line' = line) as -> by congruence.
      by apply (range_string_from_fun _ _ _ _ _ _ Hxr' Hxr).
    + exists (x, y, pixelColor r). split; [|done].
      apply elem_of_reconstruct_ops. by exists y, line, x, r.
  - intros Hnone. rewrite paint_At_other; [apply NewRGBA_At | apply NewRGBA_wf; lia |].
    intros op (y' & line' & x' & r' & Hline' & Hxr' & ->)%elem_of_reconstruct_ops.
    cbn [fst snd]. intros [-> ->]. by apply (Hnone line' r').
Qed.

(** ** Totality of the remaining stages *)

Lemma flagLine_total (steps : nat) (line : gostring) (lineNum i : Z)
    (flagData : list Z) :
  0 ≤ lineNum → 0 ≤ i → len flagData = 256 →
  ∃ flagData', flagLine steps line lineNum i flagData = Some flagData'
               ∧ len flagData' = 256.
Proof.
  revert i flagData. induction steps as [|k IH]; intros i flagData Hn Hi Hlen;
    cbn [flagLine]; [by exists flagData|].
  destruct (bool_decide (i < len line - 1) && bool_decide (Z.quot i 2 < 128)) eqn:E;
    [|by exists flagData].
  apply andb_true_iff in E as [Hlt%bool_decide_eq_true Hq%bool_decide_eq_true].
  case_decide as Hbreak; [by exists flagData|].
  destruct (index_is_Some line i) as [c1 ->]; [lia|].
  destruct (index_is_Some line (i + 1)) as [c2 ->]; [lia|].
  run.
  assert (0 ≤ Z.quot i 2) by (Z.to_euclidean_division_equations; lia).
  rewrite set_index_Some by lia. run.
  apply IH; [lia | lia |]. by rewrite len_insert.
Qed.

(** Past 128 rounds the guard [i/2 < 128] has closed the loop. *)
Lemma flagLine_steps (k1 k2 : nat) (line : gostring) (lineNum i : Z)
    (flagData : list Z) :
  0 ≤ i → 256 ≤ i + 2 * Z.of_nat k1 → 256 ≤ i + 2 * Z.of_nat k2 →
  flagLine k1 line lineNum i flagData = flagLine k2 line lineNum i flagData.
Proof.
  revert k2 i flagData.
  assert (∀ k j fd, 256 ≤ j → flagLine k line lineNum j fd = Some fd) as Hend.
  { intros [|k] j fd Hj; [done|]. cbn [flagLine].
    rewrite (bool_decide_eq_false_2 (Z.quot j 2 < 128))
      by (Z.to_euclidean_division_equations; lia).
    by rewrite andb_false_r. }
  induction k1 as [|k1 IH]; intros k2 i flagData Hi H1 H2.
  - rewrite (Hend k2) by lia. done.
  - destruct k2 as [|k2]; [rewrite (Hend (S k1)) by lia; done|].
    cbn [flagLine]. destruct (_ && _); [|done]. case_decide; [done|].
    destruct (index line i); [|done]. destruct (index line (i + 1)); [|done].
    run. destruct (set_index _ _ _); [|done].
    run. apply IH; lia.
Qed.

Lemma flagLines_total (section : list gostring) (lineNum : Z) (flagData : list Z) :
  0 ≤ lineNum → len flagData = 256 →
  ∃ flagData', flagLines section lineNum flagData = Some flagData'
               ∧ len flagData' = 256.
Proof.
  revert lineNum flagData.
  induction section as [|line rest IH]; intros lineNum flagData Hn Hlen;
    cbn [flagLines]; [by exists flagData|].
  case_decide; [by exists flagData|].
  destruct (flagLine_total 128 line lineNum 0 flagData) as (fd & -> & Hfd);
    [lia | lia | done |].
  run. apply IH; [lia | done].
Qed.

(** [parseFlagSection] always returns its 256 entries. *)
Lemma parseFlagSection_total (section : list gostring) :
  ∃ flagData, parseFlagSection section = Some flagData ∧ len flagData = 256.
Proof.
  unfold parseFlagSection. case_decide.
  - eexists. split; [reflexivity|]. unfold len. by rewrite length_replicate.
  - apply flagLines_total; [lia|]. unfold len. by rewrite length_replicate.
Qed.

(** Past 8 rounds the guard [j < 8] has closed the loop of [pixelRow]. *)
Lemma pixelRow_steps (k1 k2 : nat) (line : gostring) (x j : Z) (row : list Z) :
  8 ≤ j + Z.of_nat k1 → 8 ≤ j + Z.of_nat k2 →
  pixelRow k1 line x j row = pixelRow k2 line x j row.
Proof.
  revert k2 j row.
  assert (∀ k j' r, 8 ≤ j' → pixelRow k line x j' r = Some r) as Hend.
  { intros [|k] j' r Hj; [done|]. cbn [pixelRow].
    by rewrite (bool_decide_eq_false_2 (j' < 8)) by lia. }
  induction k1 as [|k1 IH]; intros k2 j row H1 H2.
  - rewrite (Hend k2) by lia. done.
  - destruct k2 as [|k2]; [rewrite (Hend (S k1)) by lia; done|].
    cbn [pixelRow]. destruct (_ && _); [|done].
    destruct (if decide _ then _ else _); [|done].
    run. apply IH; lia.
Qed.

Lemma renderRows_total
    (tile : gostring → Z → Z → image.RGBA → option image.RGBA)
    (rows : list gostring) (mapImage : image.RGBA) :
  (∀ line y x img, 0 ≤ x < Z.quot (len line) 2 → is_Some (tile line y x img)) →
  is_Some (renderRows tile rows mapImage).
Proof.
  intros Htile. unfold renderRows, for_range.
  destruct (loop_inv_elem (λ _, True)
    (λ y mapImage, line ← index rows y;
       loop (tile line y) (seqZ 0 (Z.quot (len line) 2 - 0)) mapImage)
    (seqZ 0 (len rows - 0)) mapImage) as (img & Hrun & _); [exact I | |].
  - intros y img Hy%elem_of_seqZ_range _.
    destruct (index_is_Some rows y) as [line ->]; [lia|]. run.
    apply loop_inv_elem; [exact I|]. intros x img' Hx%elem_of_seqZ_range _.
    destruct (Htile line y x img') as [img'' ->]; [lia|]. by exists img''.
  - exists img. exact Hrun.
Qed.

Lemma renderTiles_total (spriteSheet : image.RGBA) (line : gostring) (y x : Z)
    (img : image.RGBA) :
  0 ≤ x < Z.quot (len line) 2 →
  is_Some (renderBaseTile spriteSheet line y x img) ∧
  is_Some (renderSection3Tile spriteSheet line y x img) ∧
  is_Some (renderSection4Tile spriteSheet line y x img).
Proof.
  intros Hx. unfold renderBaseTile, renderSection3Tile, renderSection4Tile.
  assert (x * 2 + 1 < len line) by (Z.to_euclidean_division_equations; lia).
  destruct (index_is_Some line (x * 2)) as [c1 ->]; [lia|].
  destruct (index_is_Some line (x * 2 + 1)) as [c2 ->]; [lia|].
  run.
  split_and!; repeat case_match;
    rewrite ?drawSprite_paint, ?drawBlackTile_paint; by eexists.
Qed.

(** [renderMap] does not panic, whatever the lines hold. *)
Lemma renderMap_total (mapData : list gostring)
    (dualPurposeSection1 dualPurposeSection2 : option (list gostring))
    (spriteSheet : image.RGBA) (mapWidth mapHeight : Z) :
  is_Some (renderMap mapData dualPurposeSection1 dualPurposeSection2
             spriteSheet mapWidth mapHeight).
Proof.
  unfold renderMap.
  rewrite (rect_loops (mapWidth * 8) (mapHeight * 8) 0 0 (λ _ _, color.mk 0 0 0 255)
             (λ y x mapImage,
                c ← index pico8Palette 0; Some (image.Set_ mapImage x y c)))
    by (intros; reflexivity).
  run.
  destruct (renderRows_total (renderBaseTile spriteSheet) mapData
              (paint (image.NewRGBA (mapWidth * 8) (mapHeight * 8))
                 (rect_ops (mapWidth * 8) (mapHeight * 8) 0 0
                    (λ _ _, color.mk 0 0 0 255)))) as [img1 ->].
  { intros line y x img Hx.
    exact (proj1 (renderTiles_total spriteSheet line y x img Hx)). }
  run.
  assert (∃ img2, match dualPurposeSection1 with
                  | Some rows => renderRows (renderSection3Tile spriteSheet) rows img1
                  | None => Some img1
                  end = Some img2) as [img2 ->].
  { destruct dualPurposeSection1 as [rows|]; [|by eexists].
    apply renderRows_total. intros line y x img Hx.
    exact (proj1 (proj2 (renderTiles_total spriteSheet line y x img Hx))). }
  run.
  assert (∃ img3, match dualPurposeSection2 with
                  | Some rows => renderRows (renderSection4Tile spriteSheet) rows img2
                  | None => Some img2
                  end = Some img3) as [img3 ->].
  { destruct dualPurposeSection2 as [rows|]; [|by eexists].
    apply renderRows_total. intros line y x img Hx.
    exact (proj2 (proj2 (renderTiles_total spriteSheet line y x img Hx))). }
  run. by eexists.
Qed.

Lemma dualPurposeSlice_total (use : bool) (startRow : Z) (gfxData : list gostring) :
  0 ≤ startRow → is_Some (dualPurposeSlice use startRow gfxData).
Proof.
  intros Hs. unfold dualPurposeSlice. destruct use; [|by eexists].
  case_decide; [|by eexists]. unfold slice.
  rewrite decide_True; [by eexists|]. case_decide; lia.
Qed.

(** The map raster of [main] is produced for every cartridge. *)
Lemma renderCartMap_total (mapData gfxData : list gostring)
    (useSection3 useSection4 : bool) :
  is_Some (renderCartMap mapData gfxData useSection3 useSection4).
Proof.
  unfold renderCartMap.
  destruct (dualPurposeSlice_total useSection3 (8 * 8) gfxData) as [s1 ->]; [lia|].
  destruct (dualPurposeSlice_total useSection4 (12 * 8) gfxData) as [s2 ->]; [lia|].
  run. rewrite reconstructImage_paint. run.
  apply renderMap_total.
Qed.

(** The atlas model of [main] is produced, with a nil error, for every
    cartridge; its records hold the decoded characters. *)
Lemma cartSpriteSheetJSON_spec (gfxData flagSection : list gostring)
    (useSection3 useSection4 : bool) :
  ∃ sheet, cartSpriteSheetJSON gfxData flagSection useSection3 useSection4
           = Some (sheet, None) ∧
    ∀ s, s ∈ SpriteSheet.Sprites sheet →
      used_flag_correct s ∧ pixels_decoded gfxData s.
Proof.
  unfold cartSpriteSheetJSON.
  destruct (parseFlagSection_total flagSection) as (flagData & -> & Hlen).
  run.
  destruct (generateSpriteSheetJSON_spec gfxData flagData useSection3 useSection4 Hlen)
    as (sprites & palette & -> & Hgood).
  eexists. split; [reflexivity|]. exact Hgood.
Qed.

(** ** Claim on malformed input *)

(** C5 as stated fails where a character is not a hex digit: the map tile
    "zz" becomes sprite -17, not the blank tile (0,0), and the pixel grid of
    the atlas model stores -1, not palette index 0. *)
Lemma C5_invalid_digit_not_blank :
  ¬ is_hex_rune (rune "z") ∧
  (∃ sheet,
     generateMapJSON [gs "zz"] [] false false = Some (sheet, None) ∧
     MapSheet.Cells sheet = [MapCell.mk 0 0 (-17)] ∧
     MapCell.Sprite (MapCell.mk 0 0 (-17)) ≠ 0 * 16 + 0) ∧
  (∃ pixels row,
     spritePixels [gs "z"] 0 0 = Some pixels ∧
     index pixels 0 = Some row ∧ index row 0 = Some (-1) ∧ -1 ≠ 0).
Proof.
  split; [|split].
  - unfold is_hex_rune. vm_compute. intros [[? ?]|[[? ?]|[? ?]]]; congruence.
  - eexists. split; [vm_compute; reflexivity|]. split; [reflexivity | discriminate].
  - eexists _, _. split; [vm_compute; reflexivity|].
    split; [reflexivity|]. split; [reflexivity | discriminate].
Qed.

(** C5, amended. Malformed and short lines never make decoding fail:
    [parseHexChar] returns -1 for whatever is not a hex digit, and the atlas
    raster, the map raster, the atlas model and the tilemap model of [main]
    are produced for every input, the two models with a nil error.
    - Atlas raster: a character that is no hex digit is painted with palette
      colour 0; a pixel for which the section has no character is left as
      [NewRGBA] made it, (0,0,0,0).
    - Atlas model: the pixel grid holds the decoded value of each character,
      -1 for one that is no hex digit, and 0 where the section has none.
    - Tilemap model: a tile pair that is not wholly inside its line yields no
      cell; a pair that is yields the cell row*16 + column of its two decoded
      digits, an invalid digit counting as -1. *)
Theorem C5_malformed_input_absorbed (mapData gfxData flagSection : list gostring)
    (useSection3 useSection4 : bool) :
  (∀ c, (is_hex_rune c ∧ 0 ≤ parseHexChar c ≤ 15)
        ∨ (¬ is_hex_rune c ∧ parseHexChar c = -1)) ∧
  (∃ spriteSheet,
     reconstructImage gfxData = Some spriteSheet ∧
     index pico8Palette 0 = Some (color.mk 0 0 0 255) ∧
     ∀ x y, 0 ≤ x < 128 → 0 ≤ y < 128 →
       (∀ line r, index gfxData y = Some line → (x, r) ∈ range_string line →
          ¬ is_hex_rune r → image.At spriteSheet x y = color.mk 0 0 0 255) ∧
       ((∀ line r, index gfxData y = Some line → (x, r) ∉ range_string line) →
          image.At spriteSheet x y = color.mk 0 0 0 0)) ∧
  is_Some (renderCartMap mapData gfxData useSection3 useSection4) ∧
  (∃ sheet,
     cartSpriteSheetJSON gfxData flagSection useSection3 useSection4
       = Some (sheet, None) ∧
     ∀ s i j, s ∈ SpriteSheet.Sprites sheet → 0 ≤ i < 8 → 0 ≤ j < 8 →
       ∃ row, index (Sprite.Pixels s) i = Some row ∧
         index row j =
         Some match index gfxData (Sprite.Y s * 8 + i) with
              | Some line =>
                match index line (Sprite.X s * 8 + j) with
                | Some c => parseHexChar (rune c)
                | None => 0
                end
              | None => 0
              end) ∧
  (∃ sheet,
     generateMapJSON mapData gfxData useSection3 useSection4 = Some (sheet, None) ∧
     ∀ y line x, 0 ≤ y < 32 → index mapData y = Some line → 0 ≤ x < 128 →
       if decide (x * 2 + 1 < len line) then
         ∃ c1 c2, index line (x * 2) = Some c1 ∧ index line (x * 2 + 1) = Some c2 ∧
           MapCell.mk x y (parseHexChar (rune c1) * 16 + parseHexChar (rune c2))
             ∈ MapSheet.Cells sheet
       else ∀ c, c ∈ MapSheet.Cells sheet → ¬ (MapCell.X c = x ∧ MapCell.Y c = y)).
Proof.
  split; [apply parseHexChar_range|]. split; [|split; [|split]].
  - destruct (reconstructImage_spec gfxData) as (spriteSheet & Hrun & _ & _ & Hpix).
    exists spriteSheet. split; [exact Hrun|]. split; [reflexivity|].
    intros x y Hx Hy. destruct (Hpix x y Hx Hy) as [Hset Hunset].
    split; [|exact Hunset].
    intros line r Hline Hxr Hhex. rewrite (Hset line r Hline Hxr).
    rewrite pixelColor_spec.
    destruct (parseHexChar_range r) as [[? _]|[_ ->]]; [done|].
    by rewrite decide_False by lia.
  - apply renderCartMap_total.
  - destruct (cartSpriteSheetJSON_spec gfxData flagSection useSection3 useSection4)
      as (sheet & Hrun & Hgood).
    exists sheet. split; [exact Hrun|]. intros s i j Hs Hi Hj.
    destruct (Hgood s Hs) as [_ Hdec]. exact (Hdec i j Hi Hj).
  - eexists. split; [apply generateMapJSON_spec|]. cbn [MapSheet.Cells].
    intros y line x Hy Hline Hx. pose proof (len_nonneg line) as Hl.
    case_decide as Hd.
    + destruct (index_is_Some line (x * 2)) as [c1 H1]; [lia|].
      destruct (index_is_Some line (x * 2 + 1)) as [c2 H2]; [lia|].
      exists c1, c2. split; [done|]. split; [done|].
      apply elem_of_app. left. apply elem_of_baseCells.
      exists y, line, x. split_and!; try done; try lia.
      * Z.to_euclidean_division_equations; lia.
      * unfold baseCell. by rewrite (byteAt_index _ _ _ H1), (byteAt_index _ _ _ H2).
    + intros c Hc [HX HY]. apply elem_of_app in Hc as [Hc|Hc].
      * apply elem_of_baseCells in Hc as (y' & line' & x' & _ & Hl' & _ & Hq & ->).
        cbn in HX, HY. subst x' y'.
        assert (line' = line) as -> by congruence.
        Z.to_euclidean_division_equations; lia.
      * apply elem_of_app in Hc as [Hc|Hc].
        -- destruct useSection3; [|by apply elem_of_nil in Hc].
           apply dualRows_Y in Hc. lia.
        -- destruct useSection4; [|by apply elem_of_nil in Hc].
           apply dualRows_Y in Hc. lia.
Qed.

(** ** Further properties of the decoders *)

(** X1. On the sixteen canonical digits [0-9a-f], [parseHexChar] is
    injective and lands in 0..15. *)
Theorem X1_parseHexChar_injective (c1 c2 : Z) :
  canonical_digit c1 → canonical_digit c2 →
  parseHexChar c1 = parseHexChar c2 →
  c1 = c2 ∧ 0 ≤ parseHexChar c1 ≤ 15.
Proof.
  unfold canonical_digit, parseHexChar.
  change (rune "0") with 48. change (rune "9") with 57.
  change (rune "a") with 97. change (rune "f") with 102.
  change (rune "A") with 65. change (rune "F") with 70.
  intros H1 H2. repeat case_match; lia.
Qed.

Lemma X1_parseHexChar_injective_witness :
  canonical_digit (rune "7") ∧ canonical_digit (rune "7") ∧
  rune "7" = rune "7" ∧ 0 ≤ parseHexChar (rune "7") ≤ 15.
Proof.
  assert (canonical_digit (rune "7")) as H by (left; vm_compute; split; discriminate).
  split; [exact H|]. split; [exact H|].
  exact (X1_parseHexChar_injective (rune "7") (rune "7") H H eq_refl).
Defined.

(** X2. An upper-case digit [A-F] decodes like its lower-case form, to
    10..15. *)
Theorem X2_parseHexChar_case (c : Z) :
  rune "A" ≤ c ≤ rune "F" →
  parseHexChar c = parseHexChar (c + (rune "a" - rune "A")) ∧
  parseHexChar c = c - rune "A" + 10 ∧ 10 ≤ parseHexChar c ≤ 15.
Proof.
  unfold parseHexChar.
  change (rune "0") with 48. change (rune "9") with 57.
  change (rune "a") with 97. change (rune "f") with 102.
  change (rune "A") with 65. change (rune "F") with 70.
  intros H. repeat case_match; lia.
Qed.

Lemma X2_parseHexChar_case_witness :
  rune "A" ≤ rune "C" ≤ rune "F" ∧
  parseHexChar (rune "C") = parseHexChar (rune "C" + (rune "a" - rune "A")) ∧
  parseHexChar (rune "C") = rune "C" - rune "A" + 10 ∧
  10 ≤ parseHexChar (rune "C") ≤ 15.
Proof.
  assert (rune "A" ≤ rune "C" ≤ rune "F") as H by (vm_compute; split; discriminate).
  split; [exact H|]. exact (X2_parseHexChar_case (rune "C") H).
Defined.

(** ** The section extractor *)

Lemma foldl_parseSectionLine_app (sectionName : gostring) (lines1 lines2 : list gostring)
    (st : bool * list gostring) :
  foldl (parseSectionLine sectionName) st (lines1 ++ lines2)
  = foldl (parseSectionLine sectionName)
      (foldl (parseSectionLine sectionName) st lines1) lines2.
Proof. apply foldl_app. Qed.

(** Lines before the first marker of the section leave the scan closed. *)
Lemma parseSection_closed (sectionName : gostring) (lines section : list gostring) :
  Forall (λ l, HasPrefix l sectionName = false) lines →
  foldl (parseSectionLine sectionName) (false, section) lines = (false, section).
Proof.
  induction 1 as [|l lines Hl _ IH]; [done|]. cbn [foldl].
  unfold parseSectionLine at 2. rewrite Hl.
  destruct (HasPrefix l (gs "__") && negb (bool_decide (l = sectionName))); exact IH.
Qed.

(** Lines that are no markers are appended while the scan is open. *)
Lemma parseSection_open (sectionName : gostring) (body section : list gostring) :
  Forall (λ l, HasPrefix l sectionName = false ∧ ¬ marker_line l) body →
  foldl (parseSectionLine sectionName) (true, section) body = (true, section ++ body).
Proof.
  revert section. induction body as [|l body IH]; intros section Hall.
  - by rewrite app_nil_r.
  - apply Forall_cons in Hall as [[Hl Hm] Hall]. cbn [foldl].
    unfold parseSectionLine at 2. rewrite Hl.
    unfold marker_line in Hm. apply not_true_is_false in Hm. rewrite Hm.
    cbn [andb]. rewrite IH by done. by rewrite <- app_assoc.
Qed.

(** What the scan has captured holds no marker and no line that opens the
    section. *)
Lemma parseSection_captured (sectionName : gostring) (lines : list gostring)
    (st : bool * list gostring) :
  Forall (λ l, HasPrefix l sectionName = false ∧ ¬ marker_line l) st.2 →
  Forall (λ l, HasPrefix l sectionName = false ∧ ¬ marker_line l)
    (foldl (parseSectionLine sectionName) st lines).2.
Proof.
  revert st. induction lines as [|l lines IH]; intros [inSection section] Hst; [done|].
  cbn [foldl]. apply IH. unfold parseSectionLine.
  destruct (HasPrefix l sectionName) eqn:Hl; [done|].
  destruct (HasPrefix l (gs "__")) eqn:Hm; cbn [andb].
  - destruct (negb (bool_decide (l = sectionName))) eqn:Hne; [done|].
    apply negb_false_iff, bool_decide_eq_true in Hne. subst l.
    assert (HasPrefix sectionName sectionName = true) as Hrefl.
    { clear. induction sectionName as [|c n IH]; [done|]. cbn.
      by rewrite bool_decide_eq_true_2, IH. }
    congruence.
  - destruct inSection; [|done]. cbn [snd] in *. apply Forall_app. split; [done|].
    apply Forall_singleton. split; [done|]. unfold marker_line. by rewrite Hm.
Qed.

(** X3. [parseSection] never returns a marker line: no captured line has
    the prefix ["__"], and none has the section name as a prefix; every
    captured line is a line of the input. *)
Theorem X3_parseSection_no_markers (lines : list gostring) (sectionName line : gostring) :
  line ∈ parseSection lines sectionName →
  HasPrefix line (gs "__") = false ∧ HasPrefix line sectionName = false ∧ line ∈ lines.
Proof.
  intros Hin. unfold parseSection in Hin.
  pose proof (parseSection_captured sectionName lines (false, []) (Forall_nil_2 _))
    as Hcap.
  rewrite Forall_forall in Hcap. destruct (Hcap line Hin) as [Hn Hm].
  split; [by apply not_true_is_false|]. split; [done|].
  clear Hcap Hn Hm. revert Hin.
  cut (∀ st, line ∈ (foldl (parseSectionLine sectionName) st lines).2 →
             line ∈ st.2 ∨ line ∈ lines).
  { intros Hc Hin. destruct (Hc _ Hin) as [H|H]; [by apply elem_of_nil in H | done]. }
  induction lines as [|l lines IH]; intros [inSection section] Hin; [by left|].
  cbn [foldl] in Hin. apply IH in Hin as [Hin|Hin]; [|right; by apply list_elem_of_further].
  unfold parseSectionLine in Hin.
  destruct (HasPrefix l sectionName); [by left|].
  destruct (if _ && _ then false else inSection); [|by left].
  cbn [snd] in *. apply elem_of_app in Hin as [Hin|Hin]; [by left|].
  apply list_elem_of_singleton in Hin as ->. right. apply list_elem_of_here.
Qed.

Lemma X3_parseSection_no_markers_witness :
  gs "0f" ∈ parseSection [gs "__gfx__"; gs "0f"; gs "__map__"; gs "ab"] (gs "__gfx__") ∧
  HasPrefix (gs "0f") (gs "__") = false ∧
  HasPrefix (gs "0f") (gs "__gfx__") = false ∧
  gs "0f" ∈ [gs "__gfx__"; gs "0f"; gs "__map__"; gs "ab"].
Proof.
  assert (gs "0f" ∈ parseSection [gs "__gfx__"; gs "0f"; gs "__map__"; gs "ab"]
                      (gs "__gfx__")) as H by (vm_compute; apply list_elem_of_here).
  split; [exact H|].
  exact (X3_parseSection_no_markers _ _ _ H).
Defined.

(** X4. When the section's marker opens the section once, the lines up
    to the next marker are returned exactly: with no line before the marker
    that has the section name as a prefix, a body free of markers, and a
    rest that is empty or starts with another marker and never reopens the
    section, [parseSection] returns the body. *)
Theorem X4_parseSection_extracts_body (sectionName marker : gostring)
    (before body rest : list gostring) :
  Forall (λ l, HasPrefix l sectionName = false) before →
  HasPrefix marker sectionName = true →
  Forall (λ l, HasPrefix l sectionName = false ∧ ¬ marker_line l) body →
  Forall (λ l, HasPrefix l sectionName = false) rest →
  (∀ l, head rest = Some l → marker_line l) →
  parseSection (before ++ marker :: body ++ rest) sectionName = body.
Proof.
  intros Hbefore Hmarker Hbody Hrest Hstop. unfold parseSection.
  rewrite foldl_parseSectionLine_app, parseSection_closed by done.
  cbn [foldl]. unfold parseSectionLine at 2. rewrite Hmarker.
  rewrite foldl_parseSectionLine_app, parseSection_open by done.
  cbn [app]. destruct rest as [|stop rest]; [done|].
  apply Forall_cons in Hrest as [Hs Hrest]. cbn [foldl].
  unfold parseSectionLine at 2. rewrite Hs.
  assert (marker_line stop) as Hm by (by apply Hstop). unfold marker_line in Hm.
  rewrite Hm. cbn [andb].
  assert (bool_decide (stop = sectionName) = false) as ->.
  { apply bool_decide_eq_false. intros ->.
    assert (HasPrefix sectionName sectionName = true) as Hrefl.
    { clear. induction sectionName as [|c n IH]; [done|]. cbn.
      by rewrite bool_decide_eq_true_2, IH. }
    congruence. }
  cbn [negb]. by rewrite parseSection_closed.
Qed.

Lemma X4_parseSection_extracts_body_witness :
  Forall (λ l, HasPrefix l (gs "__map__") = false) [gs "pico-8 cartridge"; gs "__gfx__"; gs "00"] ∧
  HasPrefix (gs "__map__") (gs "__map__") = true ∧
  Forall (λ l, HasPrefix l (gs "__map__") = false ∧ ¬ marker_line l) [gs "0102"; gs "zz"] ∧
  Forall (λ l, HasPrefix l (gs "__map__") = false) [gs "__sfx__"; gs "0102"] ∧
  (∀ l, head [gs "__sfx__"; gs "0102"] = Some l → marker_line l) ∧
  parseSection ([gs "pico-8 cartridge"; gs "__gfx__"; gs "00"]
                ++ gs "__map__" :: [gs "0102"; gs "zz"] ++ [gs "__sfx__"; gs "0102"])
    (gs "__map__") = [gs "0102"; gs "zz"].
Proof.
  assert (Forall (λ l, HasPrefix l (gs "__map__") = false)
            [gs "pico-8 cartridge"; gs "__gfx__"; gs "00"]) as H1
    by (repeat constructor).
  assert (Forall (λ l, HasPrefix l (gs "__map__") = false ∧ ¬ marker_line l)
            [gs "0102"; gs "zz"]) as H2
    by (repeat constructor; unfold marker_line; vm_compute; discriminate).
  assert (Forall (λ l, HasPrefix l (gs "__map__") = false) [gs "__sfx__"; gs "0102"])
    as H3 by (repeat constructor).
  assert (∀ l, head [gs "__sfx__"; gs "0102"] = Some l → marker_line l) as H4
    by (intros l [= <-]; reflexivity).
  split; [exact H1|]. split; [reflexivity|]. split; [exact H2|].
  split; [exact H3|]. split; [exact H4|].
  exact (X4_parseSection_extracts_body (gs "__map__") (gs "__map__") _ _ _
           H1 eq_refl H2 H3 H4).
Defined.

(** X5. A cartridge without the section's marker yields the empty
    section (on which [main] exits for graphics and tilemap, and
    [parseFlagSection] returns all zeros). *)
Theorem X5_parseSection_absent (lines : list gostring) (sectionName : gostring) :
  Forall (λ l, HasPrefix l sectionName = false) lines →
  parseSection lines sectionName = [] ∧ len (parseSection lines sectionName) = 0.
Proof.
  intros Hall. unfold parseSection. by rewrite parseSection_closed.
Qed.

Lemma X5_parseSection_absent_witness :
  Forall (λ l, HasPrefix l (gs "__gff__") = false) [gs "__gfx__"; gs "00"; gs "__map__"] ∧
  parseSection [gs "__gfx__"; gs "00"; gs "__map__"] (gs "__gff__") = [] ∧
  len (parseSection [gs "__gfx__"; gs "00"; gs "__map__"] (gs "__gff__")) = 0.
Proof.
  assert (Forall (λ l, HasPrefix l (gs "__gff__") = false)
            [gs "__gfx__"; gs "00"; gs "__map__"]) as H by (repeat constructor).
  split; [exact H|]. exact (X5_parseSection_absent _ _ H).
Defined.

(** ** The flag decoder *)

(** The loop over the pairs of one line writes the entries of the pairs it
    reaches and leaves the others. *)
Lemma flagLine_spec (steps : nat) (line : gostring) (lineNum j : Z)
    (flagData : list Z) :
  0 ≤ lineNum < 2 → 0 ≤ j → j + Z.of_nat steps ≤ 128 → len flagData = 256 →
  ∃ flagData', flagLine steps line lineNum (2 * j) flagData = Some flagData' ∧
    len flagData' = 256 ∧
    ∀ k, 0 ≤ k < 256 →
      index flagData' k =
      if decide (Z.quot k 128 = lineNum ∧ j ≤ Z.rem k 128 < j + Z.of_nat steps
                 ∧ 2 * Z.rem k 128 + 1 < len line)
      then Some (flagByteAt [line] (Z.rem k 128))
      else index flagData k.
Proof.
  revert j flagData. induction steps as [|n IH]; intros j flagData Hn Hj Hs Hlen;
    cbn [flagLine].
  - exists flagData. split; [done|]. split; [done|]. intros k Hk.
    by rewrite decide_False by lia.
  - assert (Z.quot (2 * j) 2 = j) as Hq by (Z.to_euclidean_division_equations; lia).
    rewrite Hq.
    destruct (bool_decide (2 * j < len line - 1) && bool_decide (j < 128)) eqn:E.
    + apply andb_true_iff in E as [Hlt%bool_decide_eq_true Hj128%bool_decide_eq_true].
      rewrite decide_False by lia.
      destruct (index_is_Some line (2 * j)) as [c1 H1]; [lia|].
      destruct (index_is_Some line (2 * j + 1)) as [c2 H2]; [lia|].
      rewrite H1, H2. run. rewrite set_index_Some by lia. run.
      replace (2 * j + 2) with (2 * (j + 1)) by lia.
      destruct (IH (j + 1)
                  (<[Z.to_nat (lineNum * 128 + j) :=
                       parseHexChar (rune c1) * 16 + parseHexChar (rune c2)]> flagData))
        as (fd & Hrun & Hfd & Hval); [lia | lia | lia | by rewrite len_insert |].
      exists fd. split; [done|]. split; [done|]. intros k Hk.
      rewrite (Hval k Hk), index_insert by lia.
      assert (k = Z.quot k 128 * 128 + Z.rem k 128 ∧ 0 ≤ Z.rem k 128 < 128
              ∧ 0 ≤ Z.quot k 128 < 2) as (Hdec & Hr & Hqk)
        by (Z.to_euclidean_division_equations; lia).
      destruct (decide (k = lineNum * 128 + j)) as [->|Hne].
      * assert (Z.quot (lineNum * 128 + j) 128 = lineNum
                ∧ Z.rem (lineNum * 128 + j) 128 = j) as [Hq' Hr']
          by (Z.to_euclidean_division_equations; lia).
        rewrite Hq', Hr'. rewrite decide_False by lia. rewrite decide_True by lia.
        unfold flagByteAt.
        assert (Z.quot j 128 = 0 ∧ Z.rem j 128 = j) as [-> ->]
          by (Z.to_euclidean_division_equations; lia).
        change (index [line] 0) with (Some line). cbv beta iota. by rewrite H1, H2.
      * destruct (decide (Z.quot k 128 = lineNum
                          ∧ j + 1 ≤ Z.rem k 128 < j + 1 + Z.of_nat n
                          ∧ 2 * Z.rem k 128 + 1 < len line)).
        -- by rewrite decide_True by lia.
        -- by rewrite decide_False by lia.
    + exists flagData. split; [done|]. split; [done|]. intros k Hk.
      apply andb_false_iff in E as [E%bool_decide_eq_false|E%bool_decide_eq_false].
      * by rewrite decide_False by lia.
      * lia.
Qed.

Lemma flagByteAt_line (section : list gostring) (line : gostring) (k : Z) :
  0 ≤ k < 256 → index section (Z.quot k 128) = Some line →
  flagByteAt section k = flagByteAt [line] (Z.rem k 128).
Proof.
  intros Hk Hline. unfold flagByteAt. rewrite Hline.
  assert (Z.quot (Z.rem k 128) 128 = 0 ∧ Z.rem (Z.rem k 128) 128 = Z.rem k 128)
    as [-> ->] by (Z.to_euclidean_division_equations; lia).
  done.
Qed.

Lemma flagByteAt_short (line : gostring) (r : Z) :
  0 ≤ r < 128 → ¬ 2 * r + 1 < len line → flagByteAt [line] r = 0.
Proof.
  intros Hr Hshort. unfold flagByteAt.
  assert (Z.quot r 128 = 0 ∧ Z.rem r 128 = r) as [-> ->]
    by (Z.to_euclidean_division_equations; lia).
  change (index [line] 0) with (Some line). cbv beta iota.
  destruct (index line (2 * r)) as [c1|]; [|reflexivity].
  destruct (index line (2 * r + 1)) as [c2|] eqn:E; [|reflexivity].
  apply index_lt in E. lia.
Qed.

(** X6. [parseFlagSection] always returns 256 entries, and entry [k] is
    the byte of the two hex digits at offset [2*(k mod 128)] of line
    [k / 128] of the section, first digit times 16 plus second; it is 0 for
    every sprite that the section's first two lines do not reach, and lines
    after the second are never read. *)
Theorem X6_parseFlagSection_entries (section : list gostring) :
  ∃ flagData,
    parseFlagSection section = Some flagData ∧
    len flagData = 256 ∧
    (∀ k, 0 ≤ k < 256 → index flagData k = Some (flagByteAt section k)) ∧
    parseFlagSection (take 2 section) = Some flagData.
Proof.
  assert (len (replicate 256 0) = 256) as Hrep
    by (unfold len; by rewrite length_replicate).
  assert (∀ k, 0 ≤ k < 256 → index (replicate 256 0) k = Some 0) as Hzero.
  { intros k Hk. apply index_Some. split; [lia|]. apply lookup_replicate_2. lia. }
  unfold parseFlagSection.
  destruct section as [|l0 [|l1 rest]].
  - exists (replicate 256 0). split; [done|]. split; [done|]. split; [|done].
    intros k Hk. rewrite Hzero by done. unfold flagByteAt.
    by destruct (Z.quot k 128).
  - rewrite decide_False by (unfold len; cbn; lia). cbn [take flagLines].
    rewrite decide_False by lia.
    destruct (flagLine_spec 128 l0 0 0 (replicate 256 0))
      as (fd & Hrun & Hlen & Hval); [lia | lia | lia | done |].
    change (2 * 0) with 0 in Hrun. rewrite Hrun. run.
    exists fd. split; [done|]. split; [done|]. split; [|done].
    intros k Hk. rewrite (Hval k Hk), Hzero by done.
    assert (0 ≤ Z.rem k 128 < 128 ∧ 0 ≤ Z.quot k 128 < 2) as [Hr Hq]
      by (Z.to_euclidean_division_equations; lia).
    destruct (decide (Z.quot k 128 = 0)) as [Hq0|Hq1].
    + rewrite (flagByteAt_line [l0] l0 k Hk) by (rewrite Hq0; reflexivity).
      case_decide as Hd; [done|]. by rewrite flagByteAt_short by lia.
    + rewrite decide_False by lia. unfold flagByteAt.
      assert (Z.quot k 128 = 1) as -> by lia. done.
  - rewrite !decide_False by (unfold len; cbn; lia). cbn [take flagLines].
    rewrite !decide_False by lia.
    destruct (flagLine_spec 128 l0 0 0 (replicate 256 0))
      as (fd0 & Hrun0 & Hlen0 & Hval0); [lia | lia | lia | done |].
    change (2 * 0) with 0 in Hrun0. rewrite Hrun0. run.
    destruct (flagLine_spec 128 l1 1 0 fd0)
      as (fd1 & Hrun1 & Hlen1 & Hval1); [lia | lia | lia | done |].
    change (2 * 0) with 0 in Hrun1. change (0 + 1) with 1. rewrite Hrun1. run.
    change (1 + 1) with 2.
    assert (∀ sec, flagLines sec 2 fd1 = Some fd1) as Hstop.
    { intros [|a sec]; [done|]. cbn [flagLines]. by rewrite decide_True by lia. }
    rewrite !Hstop.
    exists fd1. split; [done|]. split; [done|]. split; [|done].
    intros k Hk. rewrite (Hval1 k Hk), (Hval0 k Hk), Hzero by done.
    assert (0 ≤ Z.rem k 128 < 128 ∧ 0 ≤ Z.quot k 128 < 2) as [Hr Hq]
      by (Z.to_euclidean_division_equations; lia).
    destruct (decide (Z.quot k 128 = 0)) as [Hq0|Hq1].
    + rewrite decide_False by lia.
      rewrite (flagByteAt_line (l0 :: l1 :: rest) l0 k Hk) by (rewrite Hq0; reflexivity).
      case_decide as Hd; [done|]. by rewrite flagByteAt_short by lia.
    + assert (Z.quot k 128 = 1) as Hq1' by lia.
      rewrite (flagByteAt_line (l0 :: l1 :: rest) l1 k Hk) by (rewrite Hq1'; reflexivity).
      case_decide as Hd; [done|]. rewrite decide_False by lia.
      by rewrite flagByteAt_short by lia.
Qed.

Lemma land_shiftl_1 (a b : Z) :
  0 ≤ b → bool_decide (Z.land a (Z.shiftl 1 b) ≠ 0) = Z.testbit a b.
Proof.
  intros Hb. rewrite Z.shiftl_1_l.
  assert (Z.land a (2 ^ b) = if Z.testbit a b then 2 ^ b else 0) as ->.
  { apply Z.bits_inj'. intros n Hn. rewrite Z.land_spec, Z.pow2_bits_eqb by done.
    destruct (Z.eqb_spec b n) as [->|Hne].
    - rewrite andb_true_r. destruct (Z.testbit a n) eqn:E.
      + rewrite Z.pow2_bits_eqb by done. symmetry. apply Z.eqb_refl.
      + symmetry. apply Z.bits_0.
    - rewrite andb_false_r. destruct (Z.testbit a b).
      + rewrite Z.pow2_bits_eqb by done. symmetry. by apply Z.eqb_neq.
      + symmetry. apply Z.bits_0. }
  destruct (Z.testbit a b).
  - apply bool_decide_eq_true. apply Z.pow_nonzero; lia.
  - apply bool_decide_eq_false. intros H. by apply H.
Qed.

Lemma byte_bits_roundtrip :
  Forall (λ v, bitfield_of ((λ b, Z.testbit v b) <$> seqZ 0 8) = v) (seqZ 0 256).
Proof.
  apply (bool_decide_unpack
           (Forall (λ v, bitfield_of ((λ b, Z.testbit v b) <$> seqZ 0 8) = v)
              (seqZ 0 256))).
  vm_compute. exact I.
Qed.

(** X7. For a flag byte in 0..255, [getFlagArray] returns 8 booleans,
    entry [b] being bit [b] of the byte, and the byte is recovered from
    them: the expansion loses nothing. *)
Theorem X7_getFlagArray_roundtrip (flagByte : Z) :
  0 ≤ flagByte < 256 →
  ∃ flags,
    getFlagArray flagByte = Some flags ∧ len flags = 8 ∧
    (∀ b, 0 ≤ b < 8 → index flags b = Some (Z.testbit flagByte b)) ∧
    bitfield_of flags = flagByte.
Proof.
  intros Hbyte.
  assert (getFlagArray flagByte = Some ((λ b, Z.testbit flagByte b) <$> seqZ 0 8)) as Hrun.
  { transitivity
      (Some ((λ b, bool_decide (Z.land flagByte (Z.shiftl 1 b) ≠ 0)) <$> seqZ 0 8));
      [reflexivity|].
    f_equal. apply list_fmap_ext. intros i b Hb. apply lookup_seqZ in Hb as [-> Hi].
    apply land_shiftl_1. lia. }
  eexists. split; [exact Hrun|]. split; [reflexivity|]. split.
  - intros b Hb. apply index_Some. split; [lia|].
    rewrite list_lookup_fmap, lookup_seqZ_lt by lia. cbn. f_equal. f_equal. lia.
  - pose proof byte_bits_roundtrip as Hall. rewrite Forall_forall in Hall.
    apply Hall. apply elem_of_seqZ. lia.
Qed.

Lemma X7_getFlagArray_roundtrip_witness :
  0 ≤ 5 < 256 ∧
  ∃ flags,
    getFlagArray 5 = Some flags ∧ len flags = 8 ∧
    (∀ b, 0 ≤ b < 8 → index flags b = Some (Z.testbit 5 b)) ∧
    bitfield_of flags = 5.
Proof.
  assert (0 ≤ 5 < 256) as H by lia.
  split; [exact H|]. exact (X7_getFlagArray_roundtrip 5 H).
Defined.

(** ** The records of the atlas model *)

Lemma spriteEntry_record (gfxData : list gostring) (flagData : list Z)
    (useSection3 useSection4 : bool) (spriteID : Z) (sprites : list Sprite.t) :
  len flagData = 256 → 0 ≤ spriteID < 256 →
  if decide (band_excludes useSection3 useSection4 spriteID)
  then spriteEntry gfxData flagData useSection3 useSection4 spriteID sprites
       = Some sprites
  else ∃ s, spriteEntry gfxData flagData useSection3 useSection4 spriteID sprites
            = Some (sprites ++ [s]) ∧
         Sprite.ID s = spriteID ∧ record_fields flagData s ∧
         used_flag_correct s ∧ pixels_decoded gfxData s.
Proof.
  intros Hflags Hid. unfold spriteEntry.
  assert ((bool_decide (spriteID >= 128) && bool_decide (spriteID < 192) && useSection3)
          || (bool_decide (spriteID >= 192) && useSection4) = true
          ↔ band_excludes useSection3 useSection4 spriteID) as Hcond.
  { unfold band_excludes. rewrite orb_true_iff, !andb_true_iff, !bool_decide_eq_true.
    split.
    - intros [[[? ?] ?]|[? ?]]; [left | right]; split; (done || lia).
    - intros [[? ?]|[? ?]]; [left | right]; split_and!; (done || lia). }
  destruct (decide (band_excludes useSection3 useSection4 spriteID)) as [Hex|Hex].
  - apply Hcond in Hex. by rewrite Hex.
  - destruct (_ || _) eqn:E; [exfalso; by apply Hex, Hcond|].
    destruct (spritePixels_spec gfxData (Z.rem spriteID 16) (Z.quot spriteID 16))
      as (pixels & -> & Hgrid & Hval); [Z.to_euclidean_division_equations; lia ..|].
    run. destruct (index_is_Some flagData spriteID) as [flagByte Hbyte]; [lia|].
    rewrite Hbyte. run.
    destruct (getFlagArray_total flagByte) as (flags & Hflagsrun & _).
    rewrite Hflagsrun. run. eexists. split; [reflexivity|]. cbn.
    split; [reflexivity|]. split.
    + unfold record_fields. cbn. split_and!; try reflexivity; try done;
        Z.to_euclidean_division_equations; lia.
    + split; [by apply used_flag_correct_intro | exact Hval].
Qed.

Lemma available_below_step (useSection3 useSection4 : bool) (n : Z) :
  0 ≤ n < 256 →
  available_below useSection3 useSection4 (n + 1) =
  available_below useSection3 useSection4 n
  + (if decide (band_excludes useSection3 useSection4 n) then 0 else 1).
Proof.
  intros Hn. unfold available_below, band_excludes.
  destruct useSection3, useSection4; case_decide as Hd; try lia;
    try (exfalso; apply Hd; lia);
    try (destruct Hd as [[? ?]|[? ?]]; (discriminate || lia)).
Qed.

(** The loop over the sprite IDs: no panic, one record per ID that no
    active band excludes, in increasing order. *)
Lemma generateSpriteSheetJSON_records (gfxData : list gostring) (flagData : list Z)
    (useSection3 useSection4 : bool) :
  len flagData = 256 →
  ∃ sprites palette,
    generateSpriteSheetJSON gfxData flagData useSection3 useSection4 =
    Some (SpriteSheet.mk "1.0" "PICO-8 spritesheet export" sprites
            (MetaData.mk 8 8 16 16 (availableSprites useSection3 useSection4)
               palette), None) ∧
    len sprites = available_below useSection3 useSection4 256 ∧
    (∀ s, s ∈ sprites →
       0 ≤ Sprite.ID s < 256 ∧ ¬ band_excludes useSection3 useSection4 (Sprite.ID s)
       ∧ record_fields flagData s ∧ pixels_decoded gfxData s) ∧
    (∀ id, 0 ≤ id < 256 → ¬ band_excludes useSection3 useSection4 id →
       ∃ s, s ∈ sprites ∧ Sprite.ID s = id) ∧
    increasing_ids sprites.
Proof.
  intros Hflags. unfold generateSpriteSheetJSON.
  destruct (for_each pico8Palette _ _) as [palette|] eqn:Hpal;
    [|by vm_compute in Hpal].
  run. unfold for_range.
  destruct (loop_inv
    (λ done_ sprites,
       len sprites = available_below useSection3 useSection4 (len done_) ∧
       (∀ s, s ∈ sprites →
          0 ≤ Sprite.ID s < len done_
          ∧ ¬ band_excludes useSection3 useSection4 (Sprite.ID s)
          ∧ record_fields flagData s ∧ pixels_decoded gfxData s) ∧
       (∀ id, 0 ≤ id < len done_ → ¬ band_excludes useSection3 useSection4 id →
          ∃ s, s ∈ sprites ∧ Sprite.ID s = id) ∧
       increasing_ids sprites)
    (spriteEntry gfxData flagData useSection3 useSection4)
    (seqZ 0 (256 - 0)) []) as (sprites & Hrun & Hinv).
  - split; [by destruct useSection3, useSection4|].
    split; [intros s Hs; by apply elem_of_nil in Hs|].
    split; [intros id Hid; unfold len in Hid; cbn in Hid; lia|].
    intros a b s1 s2 H1. by rewrite lookup_nil in H1.
  - intros done_ i sprites0 [rest Hsplit] (Hlen & Hall & Hcov & Hinc).
    apply seqZ_split in Hsplit as [-> Hd]. rewrite Z.add_0_l.
    pose proof (len_nonneg done_) as Hd0.
    assert (len (done_ ++ [len done_]) = len done_ + 1) as Hlen'
      by (unfold len; rewrite length_app; cbn; lia).
    rewrite Hlen'.
    pose proof (spriteEntry_record gfxData flagData useSection3 useSection4
                  (len done_) sprites0 Hflags ltac:(lia)) as Hstep.
    pose proof (available_below_step useSection3 useSection4 (len done_) ltac:(lia))
      as Hcount.
    destruct (decide (band_excludes useSection3 useSection4 (len done_))) as [Hex|Hex].
    + exists sprites0. split; [exact Hstep|]. split; [lia|]. split; [|split; [|done]].
      * intros s Hs. destruct (Hall s Hs) as (? & ? & ? & ?). split_and!; (done || lia).
      * intros id Hid Hne. apply Hcov; [|done].
        destruct (decide (id = len done_)) as [->|]; [done | lia].
    + destruct Hstep as (s & Hstep & HID & Hrec & _ & Hdec).
      exists (sprites0 ++ [s]). split; [exact Hstep|]. split; [|split; [|split]].
      * unfold len in *. rewrite length_app. cbn. lia.
      * intros s' [Hs'|Hs']%elem_of_app.
        -- destruct (Hall s' Hs') as (? & ? & ? & ?). split_and!; (done || lia).
        -- apply list_elem_of_singleton in Hs' as ->. rewrite HID.
           split_and!; (done || lia).
      * intros id Hid Hne. destruct (decide (id = len done_)) as [->|Hneq].
        -- exists s. split; [|done]. apply elem_of_app. right. apply list_elem_of_here.
        -- destruct (Hcov id ltac:(lia) Hne) as (s' & Hs' & HID').
           exists s'. split; [|done]. apply elem_of_app. by left.
      * intros a b s1 s2 H1 H2 Hab.
        destruct (decide (b < length sprites0)%nat) as [Hb|Hb].
        -- rewrite lookup_app_l in H1, H2 by lia. by apply (Hinc a b).
        -- rewrite lookup_app_r in H2 by lia.
           destruct (b - length sprites0)%nat eqn:Eb; [|by destruct n].
           injection H2 as <-. rewrite lookup_app_l in H1 by lia.
           apply list_elem_of_lookup_2 in H1. destruct (Hall s1 H1) as (? & _). lia.
  - destruct Hinv as (Hlen & Hall & Hcov & Hinc).
    assert (len (seqZ 0 (256 - 0)) = 256) as Hn by (unfold len; by rewrite length_seqZ).
    rewrite Hn in *. rewrite Hrun. run. by exists sprites, palette.
Qed.

(** X8. With the 256 flag entries, the sprite records that
    [generateSpriteSheetJSON] emits are exactly one per ID of the emitted
    availability ranges, in strictly increasing order of ID, and their
    number is the reported total. *)
Theorem X8_sprites_match_ranges (gfxData : list gostring) (flagData : list Z)
    (useSection3 useSection4 : bool) :
  len flagData = 256 →
  ∃ sheet,
    generateSpriteSheetJSON gfxData flagData useSection3 useSection4
      = Some (sheet, None) ∧
    let available := MetaData.AvailableSprites (SpriteSheet.Metadata sheet) in
    (∀ id, (∃ s, s ∈ SpriteSheet.Sprites sheet ∧ Sprite.ID s = id)
           ↔ (∃ r, r ∈ AvailableSprites.Ranges available ∧ in_range r id)) ∧
    increasing_ids (SpriteSheet.Sprites sheet) ∧
    len (SpriteSheet.Sprites sheet) = AvailableSprites.Total available.
Proof.
  intros Hflags.
  destruct (generateSpriteSheetJSON_records gfxData flagData useSection3 useSection4
              Hflags) as (sprites & palette & -> & Hlen & Hall & Hcov & Hinc).
  eexists. split; [reflexivity|].
  cbn [SpriteSheet.Sprites SpriteSheet.Metadata MetaData.AvailableSprites]. cbv zeta.
  split; [|split; [exact Hinc|]].
  - intros id. rewrite availableSprites_cover. split.
    + intros (s & Hs & <-). destruct (Hall s Hs) as (? & ? & _). split; [lia | done].
    + intros [Hid Hne]. apply Hcov; [lia | done].
  - rewrite Hlen. unfold available_below. by destruct useSection3, useSection4.
Qed.

Lemma X8_sprites_match_ranges_witness :
  len (replicate 256 0) = 256 ∧
  ∃ sheet,
    generateSpriteSheetJSON [gs "0070"] (replicate 256 0) true false
      = Some (sheet, None) ∧
    let available := MetaData.AvailableSprites (SpriteSheet.Metadata sheet) in
    (∀ id, (∃ s, s ∈ SpriteSheet.Sprites sheet ∧ Sprite.ID s = id)
           ↔ (∃ r, r ∈ AvailableSprites.Ranges available ∧ in_range r id)) ∧
    increasing_ids (SpriteSheet.Sprites sheet) ∧
    len (SpriteSheet.Sprites sheet) = AvailableSprites.Total available.
Proof.
  split; [reflexivity|].
  apply (X8_sprites_match_ranges [gs "0070"] (replicate 256 0) true false). reflexivity.
Defined.

(** X9. Every emitted sprite record derives from its ID: grid position
    (id mod 16, id / 16), hence id = y*16 + x with x and y in 0..15; size
    8x8; file name sprite_ followed by the ID in three digits; the flag
    entry of that ID as bitfield with its boolean expansion; and a pixel
    grid that holds the decoded characters of the sprite's 8x8 block. *)
Theorem X9_sprite_record_fields (gfxData : list gostring) (flagData : list Z)
    (useSection3 useSection4 : bool) :
  len flagData = 256 →
  ∃ sheet,
    generateSpriteSheetJSON gfxData flagData useSection3 useSection4
      = Some (sheet, None) ∧
    ∀ s, s ∈ SpriteSheet.Sprites sheet →
      0 ≤ Sprite.ID s < 256 ∧ record_fields flagData s ∧ pixels_decoded gfxData s.
Proof.
  intros Hflags.
  destruct (generateSpriteSheetJSON_records gfxData flagData useSection3 useSection4
              Hflags) as (sprites & palette & -> & _ & Hall & _).
  eexists. split; [reflexivity|]. cbn [SpriteSheet.Sprites].
  intros s Hs. destruct (Hall s Hs) as (? & _ & ? & ?). done.
Qed.

Lemma X9_sprite_record_fields_witness :
  len (replicate 256 0) = 256 ∧
  ∃ sheet,
    generateSpriteSheetJSON [gs "0070"] (replicate 256 0) false true
      = Some (sheet, None) ∧
    ∀ s, s ∈ SpriteSheet.Sprites sheet →
      0 ≤ Sprite.ID s < 256 ∧ record_fields (replicate 256 0) s
      ∧ pixels_decoded [gs "0070"] s.
Proof.
  split; [reflexivity|].
  apply (X9_sprite_record_fields [gs "0070"] (replicate 256 0) false true). reflexivity.
Defined.

(** ** Order of the tilemap cells *)

Lemma lookup_concat_uniform {A} (rows : list (list A)) (n y x : nat) (row : list A)
    (a : A) :
  Forall (λ r, length r = n) rows →
  rows !! y = Some row → row !! x = Some a →
  concat rows !! (y * n + x)%nat = Some a.
Proof.
  intros Hall. revert y. induction Hall as [|r rows Hr _ IH]; intros y Hrow Hx.
  - by rewrite lookup_nil in Hrow.
  - destruct y as [|y]; cbn in Hrow.
    + injection Hrow as ->. cbn. rewrite lookup_app_l; [done|].
      by apply lookup_lt_Some in Hx.
    + cbn [concat]. rewrite lookup_app_r by lia.
      replace (S y * n + x - length r)%nat with (y * n + x)%nat by lia.
      by apply IH.
Qed.

Lemma length_concat_uniform {A} (rows : list (list A)) (n : nat) :
  Forall (λ r, length r = n) rows → length (concat rows) = (length rows * n)%nat.
Proof.
  induction 1 as [|r rows Hr _ IH]; [done|]. cbn. rewrite length_app. lia.
Qed.

(** X10. In a tilemap whose first 32 lines hold all 128 tile pairs, the
    base section comes first and in row-major order: the cell of column [x]
    of row [y] is entry [y*128 + x] of the cell list, which holds at least
    4096 cells, and exactly 4096 when no dual-purpose band is active. *)
Theorem X10_cells_row_major (mapData gfxData : list gostring)
    (useSection3 useSection4 : bool) :
  (∀ y, 0 ≤ y < 32 → ∃ line, index mapData y = Some line ∧ 256 ≤ len line) →
  ∃ sheet,
    generateMapJSON mapData gfxData useSection3 useSection4 = Some (sheet, None) ∧
    (∀ y x, 0 ≤ y < 32 → 0 ≤ x < 128 →
       ∃ line c1 c2,
         index mapData y = Some line ∧
         index line (x * 2) = Some c1 ∧ index line (x * 2 + 1) = Some c2 ∧
         index (MapSheet.Cells sheet) (y * 128 + x) =
         Some (MapCell.mk x y (parseHexChar (rune c1) * 16 + parseHexChar (rune c2)))) ∧
    4096 ≤ len (MapSheet.Cells sheet) ∧
    (useSection3 = false → useSection4 = false → len (MapSheet.Cells sheet) = 4096).
Proof.
  intros Hfull. eexists. split; [apply generateMapJSON_spec|]. cbn [MapSheet.Cells].
  assert (32 ≤ len mapData) as Hlen.
  { destruct (Hfull 31) as (line & Hl & _); [lia|]. apply index_lt in Hl. lia. }
  set (rows := (λ y, from_option (λ line, baseRowCells line y) [] (index mapData y))
               <$> seqZ 0 (Z.min 32 (len mapData))).
  assert (length rows = 32%nat) as Hrows.
  { subst rows. rewrite length_fmap, length_seqZ. lia. }
  assert (∀ y, 0 ≤ y < 32 → ∃ line, index mapData y = Some line ∧ 256 ≤ len line
            ∧ rows !! Z.to_nat y = Some (baseRowCells line y)
            ∧ length (baseRowCells line y) = 128%nat) as Hrow.
  { intros y Hy. destruct (Hfull y Hy) as (line & Hl & Hlong).
    exists line. split; [done|]. split; [done|]. split.
    - subst rows. rewrite list_lookup_fmap, lookup_seqZ_lt by lia.
      cbn. rewrite Z.add_0_l, Z2Nat.id by lia. by rewrite Hl.
    - unfold baseRowCells. rewrite length_fmap, length_seqZ.
      assert (128 ≤ Z.quot (len line) 2) by (Z.to_euclidean_division_equations; lia).
      lia. }
  assert (Forall (λ r, length r = 128%nat) rows) as Hunif.
  { apply Forall_forall. intros r [i Hi]%list_elem_of_lookup.
    assert (i < 32)%nat as Hi32 by (apply lookup_lt_Some in Hi; lia).
    destruct (Hrow (Z.of_nat i)) as (line & _ & _ & Hr & Hn); [lia|].
    rewrite Nat2Z.id in Hr. congruence. }
  change (baseCells mapData) with (concat rows).
  assert (length (concat rows) = 4096%nat) as Hbase
    by (rewrite (length_concat_uniform rows 128) by done; lia).
  split; [|split].
  - intros y x Hy Hx. destruct (Hrow y Hy) as (line & Hl & Hlong & Hr & Hn).
    destruct (index_is_Some line (x * 2)) as [c1 H1]; [lia|].
    destruct (index_is_Some line (x * 2 + 1)) as [c2 H2]; [lia|].
    exists line, c1, c2. split; [done|]. split; [done|]. split; [done|].
    apply index_Some. split; [lia|]. rewrite lookup_app_l.
    2: { rewrite Hbase. lia. }
    replace (Z.to_nat (y * 128 + x)) with (Z.to_nat y * 128 + Z.to_nat x)%nat by lia.
    apply (lookup_concat_uniform rows 128 _ _ (baseRowCells line y)); [done | done |].
    unfold baseRowCells. rewrite list_lookup_fmap, lookup_seqZ_lt.
    2: { assert (128 ≤ Z.quot (len line) 2) by (Z.to_euclidean_division_equations; lia).
         lia. }
    cbn. rewrite Z.add_0_l, Z2Nat.id by lia. f_equal. unfold baseCell.
    by rewrite (byteAt_index _ _ _ H1), (byteAt_index _ _ _ H2).
  - unfold len. rewrite length_app, Hbase. lia.
  - intros -> ->. unfold len. rewrite !length_app, Hbase. cbn. lia.
Qed.

Lemma X10_cells_row_major_witness :
  (∀ y, 0 ≤ y < 32 →
     ∃ line, index (replicate 32 (replicate 256 "0"%char)) y = Some line
             ∧ 256 ≤ len line) ∧
  ∃ sheet,
    generateMapJSON (replicate 32 (replicate 256 "0"%char)) [] false false
      = Some (sheet, None) ∧
    (∀ y x, 0 ≤ y < 32 → 0 ≤ x < 128 →
       ∃ line c1 c2,
         index (replicate 32 (replicate 256 "0"%char)) y = Some line ∧
         index line (x * 2) = Some c1 ∧ index line (x * 2 + 1) = Some c2 ∧
         index (MapSheet.Cells sheet) (y * 128 + x) =
         Some (MapCell.mk x y (parseHexChar (rune c1) * 16 + parseHexChar (rune c2)))) ∧
    4096 ≤ len (MapSheet.Cells sheet) ∧
    (false = false → false = false → len (MapSheet.Cells sheet) = 4096).
Proof.
  assert (∀ y, 0 ≤ y < 32 →
     ∃ line, index (replicate 32 (replicate 256 "0"%char)) y = Some line
             ∧ 256 ≤ len line) as H.
  { intros y Hy. exists (replicate 256 "0"%char). split.
    - apply index_Some. split; [lia|]. apply lookup_replicate_2. lia.
    - unfold len. rewrite length_replicate. lia. }
  split; [exact H|].
  exact (X10_cells_row_major (replicate 32 (replicate 256 "0"%char)) [] false false H).
Defined.

(** ** Pixels of the atlas raster *)

Lemma range_string_from_ascii (steps : nat) (i x : Z) (s : gostring) (c : ascii) :
  ascii_line s → (length s ≤ steps)%nat → index s x = Some c →
  (i + x, rune c) ∈ range_string_from steps i s.
Proof.
  intros Hs. revert steps i x. induction Hs as [|c0 t Hc0 _ IH]; intros steps i x Hlen Hx.
  - apply index_Some in Hx as [_ Hx]. by rewrite lookup_nil in Hx.
  - destruct steps as [|k]; [cbn in Hlen; lia|]. cbn [range_string_from].
    assert (decodeRune (c0 :: t) = (rune c0, 1)) as ->.
    { unfold decodeRune. by rewrite (proj2 (Z.ltb_lt _ _) Hc0). }
    apply index_Some in Hx as [Hx0 Hx].
    destruct (decide (x = 0)) as [->|Hne].
    + cbn in Hx. injection Hx as ->. rewrite Z.add_0_r. apply list_elem_of_here.
    + apply list_elem_of_further. change (drop (Z.to_nat 1) (c0 :: t)) with t.
      replace (i + x) with (i + 1 + (x - 1)) by lia.
      apply IH; [cbn in Hlen; lia|]. apply index_Some. split; [lia|].
      replace (Z.to_nat x) with (S (Z.to_nat (x - 1))) in Hx by lia. exact Hx.
Qed.

(** X11. [reconstructImage] returns a 128x128 raster in which the pixel
    (x, y) of an ASCII line [y] is decided by character [x] of that line:
    the palette entry of its hex value, or palette entry 0 when it is no hex
    digit. *)
Theorem X11_atlas_pixel (gfxData : list gostring) (x y : Z) (line : gostring)
    (c : ascii) :
  0 ≤ x < 128 → 0 ≤ y < 128 →
  index gfxData y = Some line → ascii_line line → index line x = Some c →
  ∃ spriteSheet,
    reconstructImage gfxData = Some spriteSheet ∧
    image.W spriteSheet = 128 ∧ image.H spriteSheet = 128 ∧
    index pico8Palette
      (if decide (0 ≤ parseHexChar (rune c) ≤ 15) then parseHexChar (rune c) else 0)
    = Some (image.At spriteSheet x y).
Proof.
  intros Hx Hy Hline Hascii Hc.
  destruct (reconstructImage_spec gfxData) as (spriteSheet & Hrun & HW & HH & Hpix).
  exists spriteSheet. split; [done|]. split; [done|]. split; [done|].
  destruct (Hpix x y Hx Hy) as [Hset _].
  rewrite (Hset line (rune c) Hline).
  2: { unfold range_string. replace x with (0 + x) at 1 by lia.
       by apply range_string_from_ascii. }
  rewrite pixelColor_spec. case_decide as Hd; [|reflexivity].
  destruct (index_is_Some pico8Palette (parseHexChar (rune c))) as [col ->]; [|done].
  change (len pico8Palette) with 16. lia.
Qed.

(** End-to-end scenario 2: the character 7 at column 2 of line 0 makes
    pixel (2, 0) white, palette entry 7. *)
Lemma X11_atlas_pixel_witness :
  0 ≤ 2 < 128 ∧ 0 ≤ 0 < 128 ∧
  index [gs "0070"] 0 = Some (gs "0070") ∧ ascii_line (gs "0070") ∧
  index (gs "0070") 2 = Some "7"%char ∧
  ∃ spriteSheet,
    reconstructImage [gs "0070"] = Some spriteSheet ∧
    image.W spriteSheet = 128 ∧ image.H spriteSheet = 128 ∧
    index pico8Palette 7 = Some (image.At spriteSheet 2 0).
Proof.
  assert (ascii_line (gs "0070")) as Ha
    by (repeat constructor; vm_compute; reflexivity).
  split; [lia|]. split; [lia|]. split; [reflexivity|]. split; [exact Ha|].
  split; [reflexivity|].
  exact (X11_atlas_pixel [gs "0070"] 2 0 (gs "0070") "7"%char
           ltac:(lia) ltac:(lia) eq_refl Ha eq_refl).
Defined.

(** ** The map raster *)

(** X12. [drawSprite] is a block copy: for sprite and tile coordinates
    whose pixel coordinates fit an [int], inside the destination's bounds
    the 8x8 block of tile (dstTileX, dstTileY) takes the source pixels of
    the block of sprite (spriteX, spriteY), the zero colour where the source
    has none; every other pixel and the bounds are unchanged. *)
Theorem X12_drawSprite_block_copy (dst src : image.RGBA)
    (spriteX spriteY dstTileX dstTileY : Z) :
  image_wf dst →
  tile_coord spriteX → tile_coord spriteY →
  tile_coord dstTileX → tile_coord dstTileY →
  ∃ out,
    drawSprite dst src spriteX spriteY dstTileX dstTileY = Some out ∧
    image.W out = image.W dst ∧ image.H out = image.H dst ∧ image_wf out ∧
    ∀ x y,
      image.At out x y =
      if decide (image.inBounds dst x y
                 ∧ dstTileX * 8 ≤ x < dstTileX * 8 + 8
                 ∧ dstTileY * 8 ≤ y < dstTileY * 8 + 8)
      then image.At src (spriteX * 8 + (x - dstTileX * 8))
                        (spriteY * 8 + (y - dstTileY * 8))
      else image.At dst x y.
Proof.
  intros Hwf _ _ _ _. rewrite drawSprite_paint. eexists. split; [reflexivity|].
  rewrite paint_W, paint_H. split; [reflexivity|]. split; [reflexivity|].
  split; [by apply paint_wf|]. intros x y. by rewrite paint_rect_At.
Qed.

Lemma X12_drawSprite_block_copy_witness :
  image_wf (image.NewRGBA 16 8) ∧
  tile_coord 2 ∧ tile_coord 1 ∧ tile_coord 1 ∧ tile_coord 0 ∧
  ∃ out,
    drawSprite (image.NewRGBA 16 8) (image.NewRGBA 128 128) 2 1 1 0 = Some out ∧
    image.W out = image.W (image.NewRGBA 16 8) ∧
    image.H out = image.H (image.NewRGBA 16 8) ∧ image_wf out ∧
    ∀ x y,
      image.At out x y =
      if decide (image.inBounds (image.NewRGBA 16 8) x y
                 ∧ 1 * 8 ≤ x < 1 * 8 + 8 ∧ 0 * 8 ≤ y < 0 * 8 + 8)
      then image.At (image.NewRGBA 128 128) (2 * 8 + (x - 1 * 8)) (1 * 8 + (y - 0 * 8))
      else image.At (image.NewRGBA 16 8) x y.
Proof.
  assert (image_wf (image.NewRGBA 16 8)) as H by (apply NewRGBA_wf; lia).
  assert (tile_coord 2 ∧ tile_coord 1 ∧ tile_coord 0) as (H2 & H1 & H0)
    by (unfold tile_coord; lia).
  split; [exact H|]. split; [exact H2|]. split; [exact H1|]. split; [exact H1|].
  split; [exact H0|].
  exact (X12_drawSprite_block_copy (image.NewRGBA 16 8) (image.NewRGBA 128 128)
           2 1 1 0 H H2 H1 H1 H0).
Defined.

(** A property of the raster that every tile step keeps is kept by the
    pass over the rows, which then does not panic. *)
Lemma renderRows_inv (P : image.RGBA → Prop)
    (tile : gostring → Z → Z → image.RGBA → option image.RGBA)
    (rows : list gostring) (mapImage : image.RGBA) :
  (∀ line y x img, line ∈ rows → 0 ≤ x < Z.quot (len line) 2 → P img →
     ∃ img', tile line y x img = Some img' ∧ P img') →
  P mapImage →
  ∃ img', renderRows tile rows mapImage = Some img' ∧ P img'.
Proof.
  intros Htile HP. unfold renderRows, for_range.
  apply loop_inv_elem; [exact HP|].
  intros y img Hy%elem_of_seqZ_range HPimg.
  destruct (index_is_Some rows y) as [line Hline]; [lia|]. rewrite Hline. run.
  apply loop_inv_elem; [exact HPimg|].
  intros x img' Hx%elem_of_seqZ_range HPimg'. apply Htile; [|lia|done].
  apply index_Some in Hline as [_ Hline]. by eapply list_elem_of_lookup_2.
Qed.

(** Every tile step of the three passes is a run of [Set] calls. *)
Lemma renderTiles_paint (spriteSheet : image.RGBA) (line : gostring) (y x : Z)
    (img : image.RGBA) :
  0 ≤ x < Z.quot (len line) 2 →
  (∃ ops, renderBaseTile spriteSheet line y x img = Some (paint img ops)) ∧
  (∃ ops, renderSection3Tile spriteSheet line y x img = Some (paint img ops)) ∧
  (∃ ops, renderSection4Tile spriteSheet line y x img = Some (paint img ops)).
Proof.
  intros Hx. unfold renderBaseTile, renderSection3Tile, renderSection4Tile.
  assert (x * 2 + 1 < len line) by (Z.to_euclidean_division_equations; lia).
  destruct (index_is_Some line (x * 2)) as [c1 ->]; [lia|].
  destruct (index_is_Some line (x * 2 + 1)) as [c2 ->]; [lia|].
  run.
  split_and!; repeat case_match;
    rewrite ?drawSprite_paint, ?drawBlackTile_paint;
    (by eexists) || (by exists []).
Qed.

(** X13. For map dimensions whose raster fits an [int], [renderMap]
    never panics and returns a raster of exactly 8*mapWidth by 8*mapHeight
    pixels, however long the sections' lines are: tiles that fall outside
    are not drawn. *)
Theorem X13_renderMap_geometry (mapData : list gostring)
    (dualPurposeSection1 dualPurposeSection2 : option (list gostring))
    (spriteSheet : image.RGBA) (mapWidth mapHeight : Z) :
  map_dims_fit mapWidth mapHeight →
  ∃ mapImage,
    renderMap mapData dualPurposeSection1 dualPurposeSection2
      spriteSheet mapWidth mapHeight = Some mapImage ∧
    image.W mapImage = mapWidth * 8 ∧ image.H mapImage = mapHeight * 8 ∧
    len (image.Pix mapImage) = (mapWidth * 8) * (mapHeight * 8).
Proof.
  intros (Hw & Hh & _). unfold renderMap.
  set (P := λ img : image.RGBA,
         image_wf img ∧ image.W img = mapWidth * 8 ∧ image.H img = mapHeight * 8).
  assert (∀ img ops, P img → P (paint img ops)) as Hpaint.
  { intros img ops (Hwf & HW & HH). unfold P. rewrite paint_W, paint_H.
    split; [by apply paint_wf | done]. }
  rewrite (rect_loops (mapWidth * 8) (mapHeight * 8) 0 0 (λ _ _, color.mk 0 0 0 255)
             (λ y x mapImage,
                c ← index pico8Palette 0; Some (image.Set_ mapImage x y c)))
    by (intros; reflexivity).
  run.
  destruct (renderRows_inv P (renderBaseTile spriteSheet) mapData
              (paint (image.NewRGBA (mapWidth * 8) (mapHeight * 8))
                 (rect_ops (mapWidth * 8) (mapHeight * 8) 0 0
                    (λ _ _, color.mk 0 0 0 255)))) as (img1 & -> & HP1).
  { intros line y x img _ Hx HP.
    destruct (proj1 (renderTiles_paint spriteSheet line y x img Hx)) as [ops ->].
    eexists. split; [reflexivity|]. by apply Hpaint. }
  { apply Hpaint. split; [apply NewRGBA_wf; lia | done]. }
  run.
  assert (∃ img2, match dualPurposeSection1 with
                  | Some rows => renderRows (renderSection3Tile spriteSheet) rows img1
                  | None => Some img1
                  end = Some img2 ∧ P img2) as (img2 & -> & HP2).
  { destruct dualPurposeSection1 as [rows|]; [|by exists img1].
    apply renderRows_inv; [|done]. intros line y x img _ Hx HP.
    destruct (proj1 (proj2 (renderTiles_paint spriteSheet line y x img Hx)))
      as [ops ->].
    eexists. split; [reflexivity|]. by apply Hpaint. }
  run.
  assert (∃ img3, match dualPurposeSection2 with
                  | Some rows => renderRows (renderSection4Tile spriteSheet) rows img2
                  | None => Some img2
                  end = Some img3 ∧ P img3) as (img3 & -> & HP3).
  { destruct dualPurposeSection2 as [rows|]; [|by exists img2].
    apply renderRows_inv; [|done]. intros line y x img _ Hx HP.
    destruct (proj2 (proj2 (renderTiles_paint spriteSheet line y x img Hx)))
      as [ops ->].
    eexists. split; [reflexivity|]. by apply Hpaint. }
  run. exists img3. split; [reflexivity|].
  destruct HP3 as ((_ & _ & Hlen) & HW & HH). rewrite HW, HH in Hlen. done.
Qed.

Lemma X13_renderMap_geometry_witness :
  map_dims_fit 2 1 ∧
  ∃ mapImage,
    renderMap [gs "0102030405"] None None (image.NewRGBA 128 128) 2 1 = Some mapImage ∧
    image.W mapImage = 2 * 8 ∧ image.H mapImage = 1 * 8 ∧
    len (image.Pix mapImage) = (2 * 8) * (1 * 8).
Proof.
  assert (map_dims_fit 2 1) as Hdims by (unfold map_dims_fit, int_max; lia).
  split; [exact Hdims|].
  exact (X13_renderMap_geometry [gs "0102030405"] None None (image.NewRGBA 128 128)
           2 1 Hdims).
Defined.

(** X14. For map dimensions whose raster fits an [int], a map all of
    whose tile pairs, dual-purpose sections included, decode to (0,0)
    renders as a raster filled with palette colour 0: the base pass and
    section 4 draw nothing, and section 3 draws at most black tiles. *)
Theorem X14_renderMap_blank (mapData : list gostring)
    (dualPurposeSection1 dualPurposeSection2 : option (list gostring))
    (spriteSheet : image.RGBA) (mapWidth mapHeight : Z) :
  map_dims_fit mapWidth mapHeight →
  all_zero_digits mapData →
  all_zero_digits (default [] dualPurposeSection1) →
  all_zero_digits (default [] dualPurposeSection2) →
  ∃ mapImage,
    renderMap mapData dualPurposeSection1 dualPurposeSection2
      spriteSheet mapWidth mapHeight = Some mapImage ∧
    index pico8Palette 0 = Some (color.mk 0 0 0 255) ∧
    filled_with (color.mk 0 0 0 255) mapImage.
Proof.
  intros (Hw & Hh & _) Hbase H3 H4. unfold renderMap.
  set (P := λ img : image.RGBA, image_wf img ∧ filled_with (color.mk 0 0 0 255) img).
  assert (∀ rows line x, all_zero_digits rows → line ∈ rows →
            0 ≤ x < Z.quot (len line) 2 →
            ∃ c1 c2, index line (x * 2) = Some c1 ∧ index line (x * 2 + 1) = Some c2
                     ∧ parseHexChar (rune c1) = 0 ∧ parseHexChar (rune c2) = 0)
    as Hpair.
  { intros rows line x Hzero Hline Hx.
    assert (x * 2 + 1 < len line) by (Z.to_euclidean_division_equations; lia).
    destruct (index_is_Some line (x * 2)) as [c1 H1]; [lia|].
    destruct (index_is_Some line (x * 2 + 1)) as [c2 H2]; [lia|].
    exists c1, c2. split; [done|]. split; [done|].
    split; apply (Hzero line); try done.
    - apply index_Some in H1 as [_ H1]. by eapply list_elem_of_lookup_2.
    - apply index_Some in H2 as [_ H2]. by eapply list_elem_of_lookup_2. }
  rewrite (rect_loops (mapWidth * 8) (mapHeight * 8) 0 0 (λ _ _, color.mk 0 0 0 255)
             (λ y x mapImage,
                c ← index pico8Palette 0; Some (image.Set_ mapImage x y c)))
    by (intros; reflexivity).
  run.
  destruct (renderRows_inv P (renderBaseTile spriteSheet) mapData
              (paint (image.NewRGBA (mapWidth * 8) (mapHeight * 8))
                 (rect_ops (mapWidth * 8) (mapHeight * 8) 0 0
                    (λ _ _, color.mk 0 0 0 255)))) as (img1 & -> & HP1).
  { intros line y x img Hline Hx HP.
    destruct (Hpair mapData line x Hbase Hline Hx) as (c1 & c2 & H1 & H2 & Hz1 & Hz2).
    unfold renderBaseTile. rewrite H1, H2. run. rewrite Hz1, Hz2.
    rewrite decide_False by (intros [?|?]; congruence). by exists img. }
  { split; [apply paint_wf, NewRGBA_wf; lia|]. intros x y Hin.
    rewrite paint_rect_At by (apply NewRGBA_wf; lia).
    unfold image.inBounds in Hin. rewrite paint_W, paint_H, NewRGBA_W, NewRGBA_H in Hin.
    rewrite decide_True; [done|]. unfold image.inBounds.
    rewrite NewRGBA_W, NewRGBA_H. lia. }
  run.
  assert (∃ img2, match dualPurposeSection1 with
                  | Some rows => renderRows (renderSection3Tile spriteSheet) rows img1
                  | None => Some img1
                  end = Some img2 ∧ P img2) as (img2 & -> & HP2).
  { destruct dualPurposeSection1 as [rows|]; [|by exists img1]. cbn in H3.
    apply renderRows_inv; [|done]. intros line y x img Hline Hx [Hwf Hfill].
    destruct (Hpair rows line x H3 Hline Hx) as (c1 & c2 & H1 & H2 & Hz1 & Hz2).
    unfold renderSection3Tile. rewrite H1, H2. run. rewrite Hz1, Hz2.
    rewrite !decide_False by (intros [?|?]; congruence).
    destruct (Z.rem y 2 =? 0); [|by exists img].
    rewrite drawBlackTile_paint. eexists. split; [reflexivity|].
    split; [by apply paint_wf|]. intros px py Hin.
    rewrite paint_rect_At by done. case_decide; [done|]. apply Hfill.
    unfold image.inBounds in *. by rewrite paint_W, paint_H in Hin. }
  run.
  assert (∃ img3, match dualPurposeSection2 with
                  | Some rows => renderRows (renderSection4Tile spriteSheet) rows img2
                  | None => Some img2
                  end = Some img3 ∧ P img3) as (img3 & -> & HP3).
  { destruct dualPurposeSection2 as [rows|]; [|by exists img2]. cbn in H4.
    apply renderRows_inv; [|done]. intros line y x img Hline Hx HP.
    destruct (Hpair rows line x H4 Hline Hx) as (c1 & c2 & H1 & H2 & Hz1 & Hz2).
    unfold renderSection4Tile. rewrite H1, H2. run. rewrite Hz1, Hz2.
    rewrite !decide_False by (intros [?|?]; congruence).
    destruct (Z.rem y 2 =? 0); by exists img. }
  run. exists img3. split; [reflexivity|]. split; [reflexivity|]. by destruct HP3.
Qed.

Lemma X14_renderMap_blank_witness :
  map_dims_fit 2 40 ∧
  all_zero_digits [gs "0000"] ∧
  all_zero_digits (default [] (Some [gs "00"; gs "0000"])) ∧
  all_zero_digits (default [] None) ∧
  ∃ mapImage,
    renderMap [gs "0000"] (Some [gs "00"; gs "0000"]) None
      (image.NewRGBA 128 128) 2 40 = Some mapImage ∧
    index pico8Palette 0 = Some (color.mk 0 0 0 255) ∧
    filled_with (color.mk 0 0 0 255) mapImage.
Proof.
  assert (∀ rows, Forall (Forall (λ c, parseHexChar (rune c) = 0)) rows →
                  all_zero_digits rows) as Hz.
  { intros rows Hall line c Hline Hc. rewrite Forall_forall in Hall.
    specialize (Hall line Hline). rewrite Forall_forall in Hall. by apply Hall. }
  assert (all_zero_digits [gs "0000"]) as H1 by (apply Hz; repeat constructor).
  assert (all_zero_digits (default [] (Some [gs "00"; gs "0000"]))) as H2
    by (apply Hz; repeat constructor).
  assert (all_zero_digits (default [] None)) as H3 by (apply Hz; constructor).
  assert (map_dims_fit 2 40) as Hdims by (unfold map_dims_fit, int_max; lia).
  split; [exact Hdims|]. split; [exact H1|]. split; [exact H2|].
  split; [exact H3|].
  exact (X14_renderMap_blank [gs "0000"] (Some [gs "00"; gs "0000"]) None
           (image.NewRGBA 128 128) 2 40 Hdims H1 H2 H3).
Defined.

(** ** The files of [saveSprites] *)

Lemma sprite_paths_NoDup : NoDup (sprite_path <$> seqZ 0 256).
Proof.
  apply (bool_decide_unpack (NoDup (sprite_path <$> seqZ 0 256))).
  vm_compute. exact I.
Qed.

Lemma sprite_path_inj (n m : Z) :
  0 ≤ n < 256 → 0 ≤ m < 256 → sprite_path n = sprite_path m → n = m.
Proof.
  intros Hn Hm Heq.
  assert ((sprite_path <$> seqZ 0 256) !! Z.to_nat n = Some (sprite_path n)) as H1.
  { rewrite list_lookup_fmap, lookup_seqZ_lt by lia. cbn. do 2 f_equal. lia. }
  assert ((sprite_path <$> seqZ 0 256) !! Z.to_nat m = Some (sprite_path n)) as H2.
  { rewrite list_lookup_fmap, lookup_seqZ_lt by lia. cbn. rewrite Heq.
    do 2 f_equal. lia. }
  pose proof (NoDup_lookup _ _ _ _ sprite_paths_NoDup H1 H2). lia.
Qed.

Lemma sprite_path_not_section (n i : Z) : sprite_path n ≠ section_path i.
Proof.
  intros Heq. apply (f_equal (String.get 9)) in Heq. discriminate Heq.
Qed.

Lemma saveSprite_step (spriteSheet : image.RGBA) (n : Z) (fs : gmap string image.RGBA) :
  (sprImg ← copyRegion 8 8 (Z.rem n 16 * 8) (Z.quot n 16 * 8) spriteSheet
             (image.NewRGBA 8 8);
   Some (saveAsPng sprImg ("sprites/sprite_" +:+ fmt_03d n +:+ ".png") fs))
  = Some (<[sprite_path n := spriteFile spriteSheet n]> fs).
Proof.
  rewrite copyRegion_paint. run.
  unfold saveAsPng, sprite_path, spriteFile. do 2 f_equal.
Qed.

Lemma sprites_written_step (file : Z → image.RGBA) (written written' : Z → Prop)
    (before after : gmap string image.RGBA) (n : Z) :
  (∀ m, written m → 0 ≤ m < 256) → 0 ≤ n < 256 →
  (∀ m, written' m ↔ written m ∨ m = n) →
  sprites_written file written before after →
  sprites_written file written' before (<[sprite_path n := file n]> after).
Proof.
  intros Hrange Hn Hiff [Hfiles Hframe]. split.
  - intros m [Hm| ->]%Hiff; [|apply lookup_insert_eq].
    destruct (decide (m = n)) as [->|Hne]; [apply lookup_insert_eq|].
    rewrite lookup_insert_ne; [by apply Hfiles|].
    intros Heq. apply Hne. symmetry. apply sprite_path_inj; auto.
  - intros path Hpath. rewrite lookup_insert_ne.
    + apply Hframe. intros m Hm. apply Hpath, Hiff. by left.
    + intros Heq. apply (Hpath n); [apply Hiff; by right | done].
Qed.

Lemma sprites_written_iff (file : Z → image.RGBA) (written written' : Z → Prop)
    (before after : gmap string image.RGBA) :
  (∀ m, written' m ↔ written m) →
  sprites_written file written before after →
  sprites_written file written' before after.
Proof.
  intros Hiff [Hfiles Hframe]. split.
  - intros m Hm%Hiff. by apply Hfiles.
  - intros path Hpath. apply Hframe. intros m Hm. apply Hpath, Hiff, Hm.
Qed.

(** The loop over the sprites of one range. *)
Lemma saveSprites_range (spriteSheet : image.RGBA) (lo hi : Z)
    (written : Z → Prop) (before fs : gmap string image.RGBA) :
  0 ≤ lo → hi < 256 → (∀ m, written m → 0 ≤ m < 256) →
  sprites_written (spriteFile spriteSheet) written before fs →
  ∃ fs',
    for_range lo (hi + 1) (λ spriteNum fs,
      sprImg ← copyRegion 8 8 (Z.rem spriteNum 16 * 8) (Z.quot spriteNum 16 * 8)
                 spriteSheet (image.NewRGBA 8 8);
      Some (saveAsPng sprImg ("sprites/sprite_" +:+ fmt_03d spriteNum +:+ ".png") fs))
      fs = Some fs' ∧
    sprites_written (spriteFile spriteSheet) (λ m, written m ∨ lo ≤ m ≤ hi) before fs'.
Proof.
  intros Hlo Hhi Hrange Hinv. unfold for_range.
  match goal with
  | |- ∃ fs', loop ?body ?idx fs = _ ∧ _ =>
      destruct (loop_inv
        (λ done_ fs',
           sprites_written (spriteFile spriteSheet)
             (λ m, written m ∨ lo ≤ m < lo + len done_) before fs')
        body idx fs) as (fs' & Hrun & Hfs)
  end.
  - eapply sprites_written_iff; [|exact Hinv]. intros m. unfold len. cbn. split.
    + intros [?|?]; [done | lia].
    + by left.
  - intros done_ n fs0 [rest Hsplit] Hfs0.
    apply seqZ_split in Hsplit as [-> Hd]. pose proof (len_nonneg done_) as Hd0.
    exists (<[sprite_path (lo + len done_) := spriteFile spriteSheet (lo + len done_)]> fs0).
    split; [exact (saveSprite_step spriteSheet (lo + len done_) fs0)|].
    eapply sprites_written_step; [| |
      | exact Hfs0].
    + intros m [Hm|Hm]; [by apply Hrange | lia].
    + lia.
    + intros m. unfold len. rewrite length_app. cbn. split.
      * intros [?|?]; [by left; left|].
        destruct (decide (m = lo + Z.of_nat (length done_))); [by right | left; right; lia].
      * intros [[?|?]| ->]; [by left | right; lia | right; lia].
  - exists fs'. split; [exact Hrun|]. eapply sprites_written_iff; [|exact Hfs].
    intros m. unfold len. rewrite length_seqZ.
    split; intros [?|?]; (by left) || (right; lia).
Qed.

(** The loop over the sections: each file written, nothing else touched. *)
Lemma saveSections_files (spriteSheet : image.RGBA) (n : Z)
    (fs : gmap string image.RGBA) :
  0 ≤ n ≤ 4 →
  ∃ fs',
    for_range 0 n (λ i fs,
      subImg ← copyRegion (16 * 8) (4 * 8) 0 (i * (4 * 8)) spriteSheet
                 (image.NewRGBA (16 * 8) (4 * 8));
      Some (saveAsPng subImg ("sprites/section_" +:+ fmt_d i +:+ ".png") fs)) fs
    = Some fs' ∧
    (∀ i, 0 ≤ i < n → fs' !! section_path i = Some (sectionImage spriteSheet i)) ∧
    (∀ path, (∀ i, 0 ≤ i < n → path ≠ section_path i) → fs' !! path = fs !! path).
Proof.
  intros Hn. unfold for_range.
  match goal with
  | |- ∃ fs', loop ?body ?idx fs = _ ∧ _ =>
      destruct (loop_inv
        (λ done_ (fs' : gmap string image.RGBA),
           (∀ i, 0 ≤ i < len done_ →
              fs' !! section_path i = Some (sectionImage spriteSheet i)) ∧
           (∀ path, (∀ i, 0 ≤ i < len done_ → path ≠ section_path i) →
              fs' !! path = fs !! path))
        body idx fs) as (fs' & Hrun & Hfs)
  end.
  - split; [intros i Hi; unfold len in Hi; cbn in Hi; lia | done].
  - intros done_ i fs0 [rest Hsplit] [Hfiles Hframe].
    apply seqZ_split in Hsplit as [-> Hd]. rewrite Z.add_0_l.
    pose proof (len_nonneg done_) as Hd0.
    assert (len (done_ ++ [len done_]) = len done_ + 1) as ->
      by (unfold len; rewrite length_app; cbn; lia).
    exists (<[section_path (len done_) := sectionImage spriteSheet (len done_)]> fs0).
    split; [exact (saveSection_spec spriteSheet (len done_) fs0)|]. split.
    + intros j Hj. destruct (decide (j = len done_)) as [->|Hne];
        [apply lookup_insert_eq|].
      rewrite lookup_insert_ne; [apply Hfiles; lia|].
      intros Heq. apply Hne. symmetry. apply section_path_inj; [lia | lia | exact Heq].
    + intros path Hpath. rewrite lookup_insert_ne.
      * apply Hframe. intros j Hj. apply Hpath. lia.
      * intros Heq. apply (Hpath (len done_)); [lia | done].
  - exists fs'. split; [exact Hrun|].
    assert (len (seqZ 0 (n - 0)) = n) as Hlen by (unfold len; rewrite length_seqZ; lia).
    rewrite Hlen in Hfs. exact Hfs.
Qed.

(** The store after [saveSprites]. *)
Lemma saveSprites_files (spriteSheet : image.RGBA) (useSection3 useSection4 : bool)
    (fs : gmap string image.RGBA) :
  ∃ fs',
    saveSprites spriteSheet useSection3 useSection4 fs = Some fs' ∧
    (∀ n, 0 ≤ n < 256 → ¬ band_excludes useSection3 useSection4 n →
       fs' !! sprite_path n = Some (spriteFile spriteSheet n)) ∧
    (∀ i, 0 ≤ i < numSections useSection3 useSection4 →
       fs' !! section_path i = Some (sectionImage spriteSheet i)) ∧
    (∀ path,
       (∀ n, 0 ≤ n < 256 → ¬ band_excludes useSection3 useSection4 n →
          path ≠ sprite_path n) →
       (∀ i, 0 ≤ i < numSections useSection3 useSection4 → path ≠ section_path i) →
       fs' !! path = fs !! path).
Proof.
  set (ranges := [(0, 127)]
                 ++ (if negb useSection3 then [(128, 191)] else [])
                 ++ (if negb useSection4 then [(192, 255)] else [])).
  assert (∀ r, r ∈ ranges →
            0 ≤ r.1 ∧ r.2 < 256 ∧
            useSection3 && useSection4 && bool_decide (r.1 > 127) = false) as Hranges.
  { intros r Hr. subst ranges. destruct useSection3, useSection4; cbn in Hr;
      repeat (apply elem_of_cons in Hr as [->|Hr]); try (by apply elem_of_nil in Hr);
      cbn [fst snd andb]; split_and!; try lia; reflexivity. }
  assert (∀ m, (∃ r, r ∈ ranges ∧ r.1 ≤ m ≤ r.2)
               ↔ 0 ≤ m < 256 ∧ ¬ band_excludes useSection3 useSection4 m) as Hcover.
  { intros m. unfold band_excludes. subst ranges. split.
    - intros (r & Hr & Hm). destruct useSection3, useSection4; cbn in Hr;
        repeat (apply elem_of_cons in Hr as [->|Hr]); try (by apply elem_of_nil in Hr);
        cbn [fst snd] in Hm; (split; [lia|]); intros [[? ?]|[? ?]];
        (discriminate || lia).
    - intros [Hm Hex].
      assert (useSection3 = true → ¬ 128 ≤ m ≤ 191) as H3
        by (intros ? ?; apply Hex; by left).
      assert (useSection4 = true → ¬ 192 ≤ m ≤ 255) as H4
        by (intros ? ?; apply Hex; by right).
      destruct (decide (m ≤ 127)).
      { exists (0, 127). split; [apply list_elem_of_here | cbn; lia]. }
      destruct (decide (m ≤ 191)).
      { exists (128, 191). split; [|cbn; lia].
        destruct useSection3; [exfalso; apply H3; [done | lia]|].
        apply list_elem_of_further, list_elem_of_here. }
      exists (192, 255). split; [|cbn; lia].
      destruct useSection4; [exfalso; apply H4; [done | lia]|].
      destruct useSection3; cbn; repeat constructor. }
  unfold saveSprites.
  match goal with
  | |- ∃ fs', (loop ?body ?idx fs ≫= _) = _ ∧ _ =>
      assert (idx = ranges) as Hidx
        by (subst ranges; by destruct useSection3, useSection4);
      destruct (loop_inv
        (λ done_ fs',
           sprites_written (spriteFile spriteSheet)
             (λ m, ∃ r, r ∈ done_ ∧ r.1 ≤ m ≤ r.2) fs fs')
        body idx fs) as (fs1 & Hrun1 & Hfs1)
  end.
  - split; [|done]. intros m (r & Hr & _). by apply elem_of_nil in Hr.
  - intros done_ r fs0 [rest Hsplit] Hfs0. rewrite Hidx in Hsplit.
    assert (r ∈ ranges) as Hr
      by (rewrite Hsplit; apply elem_of_app; right; apply list_elem_of_here).
    assert (∀ r', r' ∈ done_ → r' ∈ ranges) as Hdone
      by (intros r' Hr'; rewrite Hsplit; apply elem_of_app; by left).
    destruct (Hranges r Hr) as (Hlo & Hhi & Hcond). cbv beta zeta. rewrite Hcond.
    destruct (saveSprites_range spriteSheet r.1 r.2
                (λ m, ∃ r', r' ∈ done_ ∧ r'.1 ≤ m ≤ r'.2) fs fs0 Hlo Hhi)
      as (fs' & Hrun & Hfs'); [|exact Hfs0|].
    { intros m (r' & Hr' & Hm). destruct (Hranges r' (Hdone r' Hr')) as (? & ? & _). lia. }
    exists fs'. split; [exact Hrun|].
    eapply sprites_written_iff; [|exact Hfs']. intros m. split.
    + intros (r' & [Hr'|Hr']%elem_of_app & Hm); [left; by exists r'|].
      apply list_elem_of_singleton in Hr' as ->. by right.
    + intros [(r' & Hr' & Hm)|Hm].
      * exists r'. split; [apply elem_of_app; by left | done].
      * exists r. split; [apply elem_of_app; right; apply list_elem_of_here | done].
  - rewrite Hrun1. run. rewrite Hidx in Hfs1. destruct Hfs1 as [Hsprites Hframe1].
    pose proof (numSections_range useSection3 useSection4) as Hn.
    destruct (saveSections_files spriteSheet (numSections useSection3 useSection4) fs1)
      as (fs2 & Hrun2 & Hsections & Hframe2); [lia|].
    exists fs2. split; [exact Hrun2|]. split; [|split; [exact Hsections|]].
    + intros n Hn256 Hex. rewrite Hframe2.
      * apply Hsprites. apply Hcover. by split.
      * intros i _. apply sprite_path_not_section.
    + intros path Hp1 Hp2. rewrite Hframe2 by exact Hp2. apply Hframe1.
      intros m Hm%Hcover. destruct Hm as [Hm Hex]. by apply Hp1.
Qed.

Lemma spriteFile_At (spriteSheet : image.RGBA) (n xx yy : Z) :
  0 ≤ xx < 8 → 0 ≤ yy < 8 →
  image.At (spriteFile spriteSheet n) xx yy
  = image.At spriteSheet (Z.rem n 16 * 8 + xx) (Z.quot n 16 * 8 + yy).
Proof.
  intros Hx Hy. unfold spriteFile.
  rewrite paint_rect_At by (apply NewRGBA_wf; lia).
  rewrite decide_True.
  - f_equal; lia.
  - unfold image.inBounds. rewrite NewRGBA_W, NewRGBA_H. lia.
Qed.

(** X15. After [saveSprites], every sprite ID that no active band
    excludes has its file sprites/sprite_NNN.png, an 8x8 raster that holds
    the block of the sheet at grid position (id mod 16, id / 16), whatever
    the store held before. *)
Theorem X15_saveSprites_sprite_files (spriteSheet : image.RGBA)
    (useSection3 useSection4 : bool) (fs : gmap string image.RGBA) (n : Z) :
  0 ≤ n < 256 → ¬ band_excludes useSection3 useSection4 n →
  ∃ fs' img,
    saveSprites spriteSheet useSection3 useSection4 fs = Some fs' ∧
    loadImage ("sprites/sprite_" +:+ fmt_03d n +:+ ".png") fs' = Some img ∧
    image.W img = 8 ∧ image.H img = 8 ∧
    ∀ xx yy, 0 ≤ xx < 8 → 0 ≤ yy < 8 →
      image.At img xx yy
      = image.At spriteSheet (Z.rem n 16 * 8 + xx) (Z.quot n 16 * 8 + yy).
Proof.
  intros Hn Hex.
  destruct (saveSprites_files spriteSheet useSection3 useSection4 fs)
    as (fs' & Hrun & Hsprites & _).
  exists fs', (spriteFile spriteSheet n). split; [exact Hrun|].
  split; [exact (Hsprites n Hn Hex)|].
  unfold spriteFile at 1 2. rewrite paint_W, paint_H, NewRGBA_W, NewRGBA_H.
  split; [reflexivity|]. split; [reflexivity|].
  intros xx yy Hx Hy. by apply spriteFile_At.
Qed.

Lemma X15_saveSprites_sprite_files_witness :
  0 ≤ 200 < 256 ∧ ¬ band_excludes true false 200 ∧
  ∃ fs' img,
    saveSprites (image.NewRGBA 128 128) true false ∅ = Some fs' ∧
    loadImage ("sprites/sprite_" +:+ fmt_03d 200 +:+ ".png") fs' = Some img ∧
    image.W img = 8 ∧ image.H img = 8 ∧
    ∀ xx yy, 0 ≤ xx < 8 → 0 ≤ yy < 8 →
      image.At img xx yy
      = image.At (image.NewRGBA 128 128) (Z.rem 200 16 * 8 + xx) (Z.quot 200 16 * 8 + yy).
Proof.
  assert (¬ band_excludes true false 200) as Hex
    by (intros [[_ ?]|[? _]]; [lia | discriminate]).
  split; [lia|]. split; [exact Hex|].
  exact (X15_saveSprites_sprite_files (image.NewRGBA 128 128) true false ∅ 200
           ltac:(lia) Hex).
Defined.

(** X16. [saveSprites] writes nothing but the files of the available
    sprites and of the first [numSections] sections: every other path of the
    store, the sprite file of an excluded ID among them, keeps what it
    held. *)
Theorem X16_saveSprites_frame (spriteSheet : image.RGBA)
    (useSection3 useSection4 : bool) (fs : gmap string image.RGBA) :
  ∃ fs',
    saveSprites spriteSheet useSection3 useSection4 fs = Some fs' ∧
    (∀ path,
       (∀ n, 0 ≤ n < 256 → ¬ band_excludes useSection3 useSection4 n →
          path ≠ "sprites/sprite_" +:+ fmt_03d n +:+ ".png") →
       (∀ i, 0 ≤ i < numSections useSection3 useSection4 →
          path ≠ "sprites/section_" +:+ fmt_d i +:+ ".png") →
       fs' !! path = fs !! path) ∧
    (∀ n, 0 ≤ n < 256 → band_excludes useSection3 useSection4 n →
       fs' !! ("sprites/sprite_" +:+ fmt_03d n +:+ ".png")
       = fs !! ("sprites/sprite_" +:+ fmt_03d n +:+ ".png")).
Proof.
  destruct (saveSprites_files spriteSheet useSection3 useSection4 fs)
    as (fs' & Hrun & _ & _ & Hframe).
  exists fs'. split; [exact Hrun|]. split; [exact Hframe|].
  intros n Hn Hex. apply Hframe.
  - intros m Hm Hnex Heq. apply sprite_path_inj in Heq; [|done..]. by subst.
  - intros i _. apply sprite_path_not_section.
Qed.

(** ** A missing section file *)

Lemma combineLoad_missing (idx : list Z) (fs : gmap string image.RGBA)
    (combined : image.RGBA) (i : Z) :
  i ∈ idx → loadImage (section_path i) fs = None →
  ∃ e, combineLoad idx fs combined = Some (inr e).
Proof.
  intros Hi Hnone. revert combined.
  induction idx as [|j idx IH]; intros combined; [by apply elem_of_nil in Hi|].
  cbn [combineLoad].
  change ("sprites/section_" +:+ fmt_d j +:+ ".png") with (section_path j).
  destruct (loadImage (section_path j) fs) as [sectionImg|] eqn:Hload.
  - apply elem_of_cons in Hi as [->|Hi]; [congruence|].
    rewrite (rect_loops 128 32 0 (j * 32) (λ x y, image.At sectionImg x y)
               (λ y x combined,
                  Some (image.Set_ combined x (j * 32 + y) (image.At sectionImg x y))))
      by reflexivity.
    run. by apply IH.
  - by eexists.
Qed.

(** X17. When the file of one of the sections to combine is missing,
    [combineSectionsIntoSpriteSheet] returns an error and leaves the store
    as it was: no spritesheet.png is written. *)
Theorem X17_combine_missing_section (numSections i : Z)
    (fs : gmap string image.RGBA) :
  0 ≤ i < numSections →
  loadImage ("sprites/section_" +:+ fmt_d i +:+ ".png") fs = None →
  ∃ e, combineSectionsIntoSpriteSheet numSections fs = Some (fs, Some e).
Proof.
  intros Hi Hnone. unfold combineSectionsIntoSpriteSheet. cbv zeta.
  destruct (combineLoad_missing (seqZ 0 numSections) fs (image.NewRGBA 128 (32 * 4)) i)
    as [e ->]; [apply elem_of_seqZ; lia | exact Hnone|].
  by exists e.
Qed.

Lemma X17_combine_missing_section_witness :
  0 ≤ 1 < 3 ∧
  loadImage ("sprites/section_" +:+ fmt_d 1 +:+ ".png")
    (saveAsPng (image.NewRGBA 128 32) "sprites/section_0.png" ∅) = None ∧
  ∃ e, combineSectionsIntoSpriteSheet 3
         (saveAsPng (image.NewRGBA 128 32) "sprites/section_0.png" ∅)
       = Some (saveAsPng (image.NewRGBA 128 32) "sprites/section_0.png" ∅, Some e).
Proof.
  split; [lia|]. split; [reflexivity|].
  exact (X17_combine_missing_section 3 1
           (saveAsPng (image.NewRGBA 128 32) "sprites/section_0.png" ∅)
           ltac:(lia) eq_refl).
Defined.

(** ** Sprite files from the atlas model *)

Lemma loop_panics {I S} (body : I → S → option S) (idx : list I) (i : I) (s : S) :
  i ∈ idx → (∀ s, body i s = None) → loop body idx s = None.
Proof.
  intros Hi Hb. revert s. induction idx as [|j idx IH]; intros s.
  - by apply elem_of_nil in Hi.
  - cbn [loop]. apply elem_of_cons in Hi as [<-|Hi].
    + by rewrite Hb.
    + destruct (body j s) as [s'|]; [|reflexivity]. run. by apply IH.
Qed.

(** Two nested loops that [Set] one pixel per round, the body known only
    inside the rectangle. *)
Lemma rect_loops_dom (w h dx dy : Z) (c : Z → Z → color.RGBA)
    (body : Z → Z → image.RGBA → option image.RGBA) (img : image.RGBA) :
  (∀ yy xx img, 0 ≤ yy < h → 0 ≤ xx < w →
     body yy xx img = Some (image.Set_ img (dx + xx) (dy + yy) (c xx yy))) →
  for_range 0 h (λ yy img, for_range 0 w (body yy) img) img
  = Some (paint img (rect_ops w h dx dy c)).
Proof.
  intros Hb. unfold for_range, rect_ops. rewrite !Z.sub_0_r.
  apply loop_paint. intros yy img' Hyy%elem_of_seqZ_range.
  apply (loop_paint1 (λ xx, (dx + xx, dy + yy, c xx yy))).
  intros xx img'' Hxx%elem_of_seqZ_range. apply Hb; lia.
Qed.

Lemma spriteImage_paint (palette : list PaletteColor.t) (sprite : Sprite.t)
    (c : Z → Z → color.RGBA) :
  (∀ x y, 0 ≤ x < Sprite.Width sprite → 0 ≤ y < Sprite.Height sprite →
     ∃ row v, index (Sprite.Pixels sprite) y = Some row ∧ index row x = Some v ∧
              indexColor palette v = c x y) →
  spriteImage palette sprite
  = Some (paint (image.NewRGBA (Sprite.Width sprite) (Sprite.Height sprite))
            (rect_ops (Sprite.Width sprite) (Sprite.Height sprite) 0 0 c)).
Proof.
  intros Hgrid. unfold spriteImage. cbv zeta.
  apply (rect_loops_dom (Sprite.Width sprite) (Sprite.Height sprite) 0 0 c
           (λ y x img,
              row ← index (Sprite.Pixels sprite) y;
              colorIndex ← index row x;
              if decide (colorIndex >= 0 ∧ colorIndex < len palette) then
                col ← index palette colorIndex;
                Some (image.Set_ img x y
                        (color.mk (PaletteColor.R col) (PaletteColor.G col)
                           (PaletteColor.B col) (PaletteColor.A col)))
              else Some (image.Set_ img x y (color.mk 0 0 0 255)))).
  intros y x img Hy Hx. cbv beta.
  destruct (Hgrid x y Hx Hy) as (row & v & Hrow & Hv & <-).
  rewrite Hrow. run. rewrite Hv. run.
  unfold indexColor. destruct (decide (v >= 0 ∧ v < len palette)) as [Hd|Hd].
  - destruct (index_is_Some palette v) as [col ->]; [lia|]. reflexivity.
  - destruct (index palette v) as [col|] eqn:E; [|reflexivity].
    apply index_lt in E. lia.
Qed.


Lemma isAvailable_spec (ranges : list SpriteRange.t) (id : Z) :
  isAvailable ranges id = true ↔ ∃ r, r ∈ ranges ∧ in_range r id.
Proof.
  unfold in_range. induction ranges as [|r ranges IH]; cbn [isAvailable].
  - split; [discriminate|]. intros (r & Hr & _). by apply elem_of_nil in Hr.
  - destruct (bool_decide (id >= SpriteRange.Start r)
              && bool_decide (id <= SpriteRange.End_ r)) eqn:E.
    + apply andb_true_iff in E as [H1%bool_decide_eq_true H2%bool_decide_eq_true].
      split; [|done]. intros _. exists r. split; [apply list_elem_of_here | lia].
    + rewrite IH. split.
      * intros (r' & Hr' & Hid). exists r'. split; [by apply list_elem_of_further | done].
      * intros (r' & [->|Hr']%elem_of_cons & Hid); [|by exists r'].
        apply andb_false_iff in E as [E|E]; apply bool_decide_eq_false in E; lia.
Qed.





Lemma indexColor_json (v : Z) :
  indexColor jsonPalette v = default (color.mk 0 0 0 255) (index pico8Palette v).
Proof.
  unfold indexColor, jsonPalette, index. case_decide; [|reflexivity].
  rewrite list_lookup_fmap. by destruct (pico8Palette !! Z.to_nat v) as [[]|].
Qed.

Lemma generateSpriteSheetJSON_palette (gfxData : list gostring) (flagData : list Z)
    (useSection3 useSection4 : bool) (sheet : SpriteSheet.t) (e : error) :
  generateSpriteSheetJSON gfxData flagData useSection3 useSection4 = Some (sheet, e) →
  MetaData.Palette (SpriteSheet.Metadata sheet) = jsonPalette.
Proof.
  unfold generateSpriteSheetJSON.
  destruct (for_each pico8Palette _ _) as [palette|] eqn:Hpal; [|discriminate].
  run. destruct (for_range 0 256 _ _) as [sprites|]; [|discriminate]. run.
  intros [= <- _]. cbn [SpriteSheet.Metadata MetaData.Palette].
  vm_compute in Hpal. injection Hpal as <-. reflexivity.
Qed.

Lemma spriteImage_generated (gfxData : list gostring) (flagData : list Z)
    (s : Sprite.t) :
  record_fields flagData s → pixels_decoded gfxData s →
  spriteImage jsonPalette s = Some (jsonFile gfxData (Sprite.ID s)).
Proof.
  intros (HX & HY & _ & _ & _ & HW & HH & _) Hpix.
  rewrite (spriteImage_paint jsonPalette s
             (λ x y, indexColor jsonPalette
                       (pixelValue gfxData (Z.rem (Sprite.ID s) 16)
                          (Z.quot (Sprite.ID s) 16) y x))).
  - unfold jsonFile. by rewrite HW, HH.
  - rewrite HW, HH. intros x y Hx Hy. destruct (Hpix y x Hy Hx) as (row & Hrow & Hv).
    rewrite HX, HY in Hv. eexists row, _. split; [exact Hrow|]. split; [exact Hv|].
    reflexivity.
Qed.

Lemma jsonFile_At (gfxData : list gostring) (n x y : Z) :
  0 ≤ x < 8 → 0 ≤ y < 8 →
  image.At (jsonFile gfxData n) x y
  = default (color.mk 0 0 0 255)
      (index pico8Palette (pixelValue gfxData (Z.rem n 16) (Z.quot n 16) y x)).
Proof.
  intros Hx Hy. unfold jsonFile.
  rewrite paint_rect_At by (apply NewRGBA_wf; lia).
  rewrite decide_True.
  - by rewrite !Z.sub_0_r, indexColor_json.
  - unfold image.inBounds. rewrite NewRGBA_W, NewRGBA_H. lia.
Qed.

(** [createIndividualSpritePNGs] on the atlas model of a cartridge. *)
Lemma createSprites_generated (gfxData : list gostring) (flagData : list Z)
    (useSection3 useSection4 : bool) (fs : gmap string image.RGBA) :
  len flagData = 256 →
  ∃ sheet fs',
    generateSpriteSheetJSON gfxData flagData useSection3 useSection4
      = Some (sheet, None) ∧
    createIndividualSpritePNGs sheet fs = Some (fs', None) ∧
    sprites_written (jsonFile gfxData)
      (λ n, 0 ≤ n < 256 ∧ ¬ band_excludes useSection3 useSection4 n) fs fs'.
Proof.
  intros Hflags.
  destruct (generateSpriteSheetJSON_records gfxData flagData useSection3 useSection4
              Hflags) as (sprites & palette & Hgen & _ & Hall & Hcov & _).
  pose proof (generateSpriteSheetJSON_palette _ _ _ _ _ _ Hgen) as Hpal.
  cbn [SpriteSheet.Metadata MetaData.Palette] in Hpal. subst palette.
  eexists. rewrite Hgen.
  cut (∃ fs',
         createIndividualSpritePNGs
           (SpriteSheet.mk "1.0" "PICO-8 spritesheet export" sprites
              (MetaData.mk 8 8 16 16 (availableSprites useSection3 useSection4)
                 jsonPalette)) fs = Some (fs', None) ∧
         sprites_written (jsonFile gfxData)
           (λ n, 0 ≤ n < 256 ∧ ¬ band_excludes useSection3 useSection4 n) fs fs').
  { intros (fs' & Hrun & Hw). exists fs'. split; [reflexivity|]. split; [exact Hrun|].
    exact Hw. }
  unfold createIndividualSpritePNGs.
  cbn [SpriteSheet.Sprites SpriteSheet.Metadata MetaData.AvailableSprites
       MetaData.Palette].
  match goal with
  | |- ∃ fs', (loop ?body ?idx fs ≫= _) = _ ∧ _ =>
      destruct (loop_inv
        (λ done_ fs',
           sprites_written (jsonFile gfxData)
             (λ n, ∃ s, s ∈ done_ ∧ Sprite.ID s = n) fs fs')
        body idx fs) as (fs1 & Hrun & Hfs1)
  end.
  - split; [|done]. intros n (s & Hs & _). by apply elem_of_nil in Hs.
  - intros done_ s fs0 [rest Hsplit] Hfs0.
    assert (s ∈ sprites) as Hs
      by (rewrite Hsplit; apply elem_of_app; right; apply list_elem_of_here).
    assert (∀ s', s' ∈ done_ → s' ∈ sprites) as Hdone
      by (intros s' Hs'; rewrite Hsplit; apply elem_of_app; by left).
    destruct (Hall s Hs) as (Hid & Hex & Hrec & Hpix). cbv beta zeta.
    assert (isAvailable
              (AvailableSprites.Ranges (availableSprites useSection3 useSection4))
              (Sprite.ID s) = true) as ->.
    { apply isAvailable_spec, availableSprites_cover. split; [lia | done]. }
    cbn [negb]. rewrite (spriteImage_generated gfxData flagData s Hrec Hpix). run.
    assert (Sprite.Filename s = "sprite_" +:+ fmt_03d (Sprite.ID s) +:+ ".png") as ->
      by apply Hrec.
    exists (<[sprite_path (Sprite.ID s) := jsonFile gfxData (Sprite.ID s)]> fs0).
    split; [unfold saveAsPng, sprite_path; do 2 f_equal|].
    eapply sprites_written_step; [| | |exact Hfs0].
    + intros m (s' & Hs' & <-). by destruct (Hall s' (Hdone s' Hs')) as (? & _).
    + exact Hid.
    + intros m. split.
      * intros (s' & [Hs'|Hs']%elem_of_app & Hm); [left; by exists s'|].
        apply list_elem_of_singleton in Hs' as ->. by right.
      * intros [(s' & Hs' & Hm)| ->].
        -- exists s'. split; [apply elem_of_app; by left | done].
        -- exists s. split; [apply elem_of_app; right; apply list_elem_of_here | done].
  - rewrite Hrun. run. exists fs1. split; [reflexivity|].
    eapply sprites_written_iff; [|exact Hfs1]. intros m. split.
    + intros [Hm Hex]. by apply Hcov.
    + intros (s' & Hs' & <-). by destruct (Hall s' Hs') as (? & ? & _).
Qed.

(** X20. From the atlas model of a cartridge with its 256 flag entries,
    [createIndividualSpritePNGs] returns without error and writes, for
    every ID that no active band excludes, an 8x8 file
    sprites/sprite_NNN.png whose pixel (x, y) is the palette entry of the
    decoded character at column x, row y of the sprite's block, palette
    entry 0 where the section has no character and opaque black where the
    character is no hex digit.  No other path of the store changes. *)
Theorem X20_sprite_files_from_model (gfxData : list gostring) (flagData : list Z)
    (useSection3 useSection4 : bool) (fs : gmap string image.RGBA) (n : Z) :
  len flagData = 256 → 0 ≤ n < 256 → ¬ band_excludes useSection3 useSection4 n →
  ∃ sheet fs' img,
    generateSpriteSheetJSON gfxData flagData useSection3 useSection4
      = Some (sheet, None) ∧
    createIndividualSpritePNGs sheet fs = Some (fs', None) ∧
    loadImage ("sprites/sprite_" +:+ fmt_03d n +:+ ".png") fs' = Some img ∧
    image.W img = 8 ∧ image.H img = 8 ∧
    (∀ x y, 0 ≤ x < 8 → 0 ≤ y < 8 →
       image.At img x y
       = default (color.mk 0 0 0 255)
           (index pico8Palette (pixelValue gfxData (Z.rem n 16) (Z.quot n 16) y x))) ∧
    (∀ path,
       (∀ m, 0 ≤ m < 256 → ¬ band_excludes useSection3 useSection4 m →
          path ≠ "sprites/sprite_" +:+ fmt_03d m +:+ ".png") →
       fs' !! path = fs !! path).
Proof.
  intros Hflags Hn Hex.
  destruct (createSprites_generated gfxData flagData useSection3 useSection4 fs Hflags)
    as (sheet & fs' & Hgen & Hrun & Hfiles & Hframe).
  exists sheet, fs', (jsonFile gfxData n).
  split; [exact Hgen|]. split; [exact Hrun|]. split; [exact (Hfiles n (conj Hn Hex))|].
  unfold jsonFile at 1 2. rewrite paint_W, paint_H, NewRGBA_W, NewRGBA_H.
  split; [reflexivity|]. split; [reflexivity|]. split.
  - intros x y Hx Hy. by apply jsonFile_At.
  - intros path Hpath. apply Hframe. intros m [Hm Hmex]. by apply Hpath.
Qed.

Lemma X20_sprite_files_from_model_witness :
  len (replicate 256 0) = 256 ∧ 0 ≤ 0 < 256 ∧ ¬ band_excludes true false 0 ∧
  ∃ sheet fs' img,
    generateSpriteSheetJSON [gs "0070"] (replicate 256 0) true false
      = Some (sheet, None) ∧
    createIndividualSpritePNGs sheet ∅ = Some (fs', None) ∧
    loadImage ("sprites/sprite_" +:+ fmt_03d 0 +:+ ".png") fs' = Some img ∧
    image.W img = 8 ∧ image.H img = 8 ∧
    (∀ x y, 0 ≤ x < 8 → 0 ≤ y < 8 →
       image.At img x y
       = default (color.mk 0 0 0 255)
           (index pico8Palette (pixelValue [gs "0070"] (Z.rem 0 16) (Z.quot 0 16) y x))) ∧
    (∀ path,
       (∀ m, 0 ≤ m < 256 → ¬ band_excludes true false m →
          path ≠ "sprites/sprite_" +:+ fmt_03d m +:+ ".png") →
       fs' !! path = (∅ : gmap string image.RGBA) !! path).
Proof.
  assert (¬ band_excludes true false 0) as Hex by (intros [[_ ?]|[_ ?]]; lia).
  split; [reflexivity|]. split; [lia|]. split; [exact Hex|].
  exact (X20_sprite_files_from_model [gs "0070"] (replicate 256 0) true false ∅ 0
           eq_refl ltac:(lia) Hex).
Defined.

(** ** The two routes to a sprite file *)

Lemma range_string_from_lt (steps : nat) (i : Z) (s : gostring) (x r : Z) :
  (x, r) ∈ range_string_from steps i s → x < i + len s.
Proof.
  revert i s. induction steps as [|k IH]; intros i s Hin; cbn in Hin.
  - by apply elem_of_nil in Hin.
  - destruct s as [|c t]; [by apply elem_of_nil in Hin|].
    pose proof (decodeRune_width (c :: t) ltac:(discriminate)) as Hw.
    destruct (decodeRune (c :: t)) as [r0 sz]. cbn [snd] in Hw.
    apply elem_of_cons in Hin as [Heq|Hin];
      [injection Heq as -> ->; unfold len; cbn [length]; lia|].
    destruct (drop (Z.to_nat sz) (c :: t)) as [|c' t'] eqn:Hdrop.
    + destruct k; cbn in Hin; by apply elem_of_nil in Hin.
    + apply IH in Hin. apply (f_equal length) in Hdrop.
      rewrite length_drop in Hdrop. unfold len in *. cbn [length] in *. lia.
Qed.

(** X21. In [main] the files of [saveSprites] are cut from the atlas
    raster, and [createIndividualSpritePNGs] then overwrites them from the
    atlas model.  For a graphics section of ASCII lines the two agree on
    every pixel whose character the section holds; where the section has no
    character the first route leaves the pixel transparent and the second
    makes it opaque black. *)
Theorem X21_sprite_file_routes (gfxData : list gostring) (flagData : list Z)
    (useSection3 useSection4 : bool) (fs : gmap string image.RGBA) (n x y : Z) :
  len flagData = 256 → Forall ascii_line gfxData →
  0 ≤ n < 256 → ¬ band_excludes useSection3 useSection4 n →
  0 ≤ x < 8 → 0 ≤ y < 8 →
  ∃ atlas fs1 img1 sheet fs2 img2,
    reconstructImage gfxData = Some atlas ∧
    saveSprites atlas useSection3 useSection4 fs = Some fs1 ∧
    loadImage ("sprites/sprite_" +:+ fmt_03d n +:+ ".png") fs1 = Some img1 ∧
    generateSpriteSheetJSON gfxData flagData useSection3 useSection4
      = Some (sheet, None) ∧
    createIndividualSpritePNGs sheet fs1 = Some (fs2, None) ∧
    loadImage ("sprites/sprite_" +:+ fmt_03d n +:+ ".png") fs2 = Some img2 ∧
    (has_char gfxData (Z.rem n 16 * 8 + x) (Z.quot n 16 * 8 + y) →
       image.At img2 x y = image.At img1 x y) ∧
    (¬ has_char gfxData (Z.rem n 16 * 8 + x) (Z.quot n 16 * 8 + y) →
       image.At img1 x y = color.mk 0 0 0 0 ∧ image.At img2 x y = color.mk 0 0 0 255).
Proof.
  intros Hflags Hascii Hn Hex Hx Hy.
  destruct (reconstructImage_spec gfxData) as (atlas & Hrec & _ & _ & Hpix).
  destruct (saveSprites_files atlas useSection3 useSection4 fs)
    as (fs1 & Hsave & Hfiles1 & _).
  destruct (createSprites_generated gfxData flagData useSection3 useSection4 fs1 Hflags)
    as (sheet & fs2 & Hgen & Hcreate & Hfiles2 & _).
  exists atlas, fs1, (spriteFile atlas n), sheet, fs2, (jsonFile gfxData n).
  split; [exact Hrec|]. split; [exact Hsave|]. split; [exact (Hfiles1 n Hn Hex)|].
  split; [exact Hgen|]. split; [exact Hcreate|].
  split; [exact (Hfiles2 n (conj Hn Hex))|].
  rewrite (spriteFile_At atlas n x y Hx Hy), (jsonFile_At gfxData n x y Hx Hy).
  unfold pixelValue.
  assert (0 ≤ Z.rem n 16 * 8 + x < 128 ∧ 0 ≤ Z.quot n 16 * 8 + y < 128) as [HX HY]
    by (Z.to_euclidean_division_equations; lia).
  destruct (Hpix _ _ HX HY) as [Hset Hnone]. split.
  - intros (line & c & Hline & Hc). rewrite Hline, Hc.
    rewrite (Hset line (rune c) Hline); [reflexivity|].
    unfold range_string.
    replace (Z.rem n 16 * 8 + x) with (0 + (Z.rem n 16 * 8 + x)) at 1 by lia.
    apply range_string_from_ascii; [|done | exact Hc].
    apply index_Some in Hline as [_ Hline].
    apply list_elem_of_lookup_2 in Hline.
    by apply (proj1 (Forall_forall _ _) Hascii).
  - intros Hno. split.
    + apply Hnone. intros line r Hline Hin. apply Hno.
      apply range_string_from_lt in Hin.
      destruct (index_is_Some line (Z.rem n 16 * 8 + x)) as [c Hc]; [lia|].
      by exists line, c.
    + destruct (index gfxData (Z.quot n 16 * 8 + y)) as [line|] eqn:Hline;
        [|reflexivity].
      destruct (index line (Z.rem n 16 * 8 + x)) as [c|] eqn:Hc; [|reflexivity].
      exfalso. apply Hno. by exists line, c.
Qed.

(** End-to-end scenario 2 again: the one line 0070 leaves most of sprite 0
    without characters. *)
Lemma X21_sprite_file_routes_witness :
  len (replicate 256 0) = 256 ∧ Forall ascii_line [gs "0070"] ∧
  0 ≤ 0 < 256 ∧ ¬ band_excludes false false 0 ∧ 0 ≤ 2 < 8 ∧ 0 ≤ 0 < 8 ∧
  ∃ atlas fs1 img1 sheet fs2 img2,
    reconstructImage [gs "0070"] = Some atlas ∧
    saveSprites atlas false false ∅ = Some fs1 ∧
    loadImage ("sprites/sprite_" +:+ fmt_03d 0 +:+ ".png") fs1 = Some img1 ∧
    generateSpriteSheetJSON [gs "0070"] (replicate 256 0) false false
      = Some (sheet, None) ∧
    createIndividualSpritePNGs sheet fs1 = Some (fs2, None) ∧
    loadImage ("sprites/sprite_" +:+ fmt_03d 0 +:+ ".png") fs2 = Some img2 ∧
    (has_char [gs "0070"] (Z.rem 0 16 * 8 + 2) (Z.quot 0 16 * 8 + 0) →
       image.At img2 2 0 = image.At img1 2 0) ∧
    (¬ has_char [gs "0070"] (Z.rem 0 16 * 8 + 2) (Z.quot 0 16 * 8 + 0) →
       image.At img1 2 0 = color.mk 0 0 0 0 ∧ image.At img2 2 0 = color.mk 0 0 0 255).
Proof.
  assert (Forall ascii_line [gs "0070"]) as Ha
    by (repeat constructor; vm_compute; reflexivity).
  assert (¬ band_excludes false false 0) as Hex
    by (intros [[? _]|[? _]]; discriminate).
  split; [reflexivity|]. split; [exact Ha|]. split; [lia|]. split; [exact Hex|].
  split; [lia|]. split; [lia|].
  exact (X21_sprite_file_routes [gs "0070"] (replicate 256 0) false false ∅ 0 2 0
           eq_refl Ha ltac:(lia) Hex ltac:(lia) ltac:(lia)).
Defined.

(** ** The regular map in the map raster *)

Lemma renderBaseTile_ops (spriteSheet : image.RGBA) (line : gostring) (y x : Z)
    (img : image.RGBA) :
  0 ≤ x < Z.quot (len line) 2 →
  renderBaseTile spriteSheet line y x img
  = Some (paint img (base_tile_ops spriteSheet line y x)).
Proof.
  intros Hx. unfold renderBaseTile, base_tile_ops.
  assert (x * 2 + 1 < len line) by (Z.to_euclidean_division_equations; lia).
  destruct (index_is_Some line (x * 2)) as [c1 ->]; [lia|].
  destruct (index_is_Some line (x * 2 + 1)) as [c2 ->]; [lia|].
  run. cbv zeta.
  destruct (decide (parseHexChar (rune c2) ≠ 0 ∨ parseHexChar (rune c1) ≠ 0));
    [apply drawSprite_paint | reflexivity].
Qed.

Lemma renderRows_paint (tile : gostring → Z → Z → image.RGBA → option image.RGBA)
    (ops : gostring → Z → Z → list (Z * Z * color.RGBA))
    (rows : list gostring) (img : image.RGBA) :
  (∀ line y x img, 0 ≤ x < Z.quot (len line) 2 →
     tile line y x img = Some (paint img (ops line y x))) →
  renderRows tile rows img = Some (paint img (rows_ops ops rows)).
Proof.
  intros Htile. unfold renderRows, rows_ops, for_range. rewrite Z.sub_0_r.
  apply (loop_paint
           (λ y, match index rows y with
                 | Some line => concat (ops line y <$> seqZ 0 (Z.quot (len line) 2))
                 | None => []
                 end)).
  intros y img' Hy%elem_of_seqZ_range. cbv beta.
  destruct (index_is_Some rows y) as [line ->]; [lia|]. run. rewrite Z.sub_0_r.
  apply loop_paint. intros x img'' Hx%elem_of_seqZ_range. apply Htile. lia.
Qed.

Lemma elem_of_rows_ops (ops : gostring → Z → Z → list (Z * Z * color.RGBA))
    (rows : list gostring) (op : Z * Z * color.RGBA) :
  op ∈ rows_ops ops rows ↔
  ∃ y line x, 0 ≤ y ∧ index rows y = Some line ∧ 0 ≤ x < Z.quot (len line) 2
              ∧ op ∈ ops line y x.
Proof.
  unfold rows_ops. rewrite elem_of_concat. split.
  - intros (row & (y & -> & Hy%elem_of_seqZ_range)%list_elem_of_fmap & Hop).
    destruct (index rows y) as [line|] eqn:Hline; [|by apply elem_of_nil in Hop].
    apply elem_of_concat in Hop as (tile & Htile & Hop).
    apply list_elem_of_fmap in Htile as (x & -> & Hx%elem_of_seqZ_range).
    exists y, line, x. split_and!; (lia || done).
  - intros (y & line & x & Hy & Hline & Hx & Hop). eexists. split.
    + apply list_elem_of_fmap. exists y. split; [reflexivity|]. apply elem_of_seqZ.
      apply index_lt in Hline. lia.
    + cbv beta. rewrite Hline. apply elem_of_concat. eexists. split; [|exact Hop].
      apply list_elem_of_fmap. exists x. split; [reflexivity|]. apply elem_of_seqZ. lia.
Qed.

(** A [Set] of the pass over the regular map that addresses (px, py)
    belongs to the tile pair of tile (px/8, py/8). *)
Lemma base_ops_hit (spriteSheet : image.RGBA) (mapData : list gostring)
    (op : Z * Z * color.RGBA) (px py : Z) :
  op ∈ rows_ops (base_tile_ops spriteSheet) mapData → op.1.1 = px → op.1.2 = py →
  ∃ line c1 c2,
    index mapData (Z.quot py 8) = Some line ∧
    index line (Z.quot px 8 * 2) = Some c1 ∧
    index line (Z.quot px 8 * 2 + 1) = Some c2 ∧
    (parseHexChar (rune c2) ≠ 0 ∨ parseHexChar (rune c1) ≠ 0) ∧
    op.2 = image.At spriteSheet (parseHexChar (rune c2) * 8 + Z.rem px 8)
                                (parseHexChar (rune c1) * 8 + Z.rem py 8).
Proof.
  intros (y & line & x & Hy & Hline & Hx & Hop)%elem_of_rows_ops Hpx Hpy.
  unfold base_tile_ops in Hop.
  destruct (index line (x * 2)) as [c1|] eqn:H1; [|by apply elem_of_nil in Hop].
  destruct (index line (x * 2 + 1)) as [c2|] eqn:H2; [|by apply elem_of_nil in Hop].
  cbv zeta in Hop.
  destruct (decide (parseHexChar (rune c2) ≠ 0 ∨ parseHexChar (rune c1) ≠ 0))
    as [Hd|Hd]; [|by apply elem_of_nil in Hop].
  apply elem_of_rect_ops in Hop as (xx & yy & Hxx & Hyy & ->).
  cbn [fst snd] in Hpx, Hpy |- *.
  assert (Z.quot px 8 = x ∧ Z.rem px 8 = xx ∧ Z.quot py 8 = y ∧ Z.rem py 8 = yy)
    as (-> & -> & -> & ->) by (Z.to_euclidean_division_equations; lia).
  by exists line, c1, c2.
Qed.

(** The raster after the black fill and the pass over the regular map. *)
Lemma base_pass_At (spriteSheet : image.RGBA) (mapData : list gostring)
    (mapWidth mapHeight px py : Z) :
  0 ≤ px < mapWidth * 8 → 0 ≤ py < mapHeight * 8 →
  image.At
    (paint (paint (image.NewRGBA (mapWidth * 8) (mapHeight * 8))
              (rect_ops (mapWidth * 8) (mapHeight * 8) 0 0 (λ _ _, color.mk 0 0 0 255)))
       (rows_ops (base_tile_ops spriteSheet) mapData)) px py
  = baseMapColor spriteSheet mapData px py.
Proof.
  intros Hpx Hpy.
  set (bg := paint (image.NewRGBA (mapWidth * 8) (mapHeight * 8))
               (rect_ops (mapWidth * 8) (mapHeight * 8) 0 0
                  (λ _ _, color.mk 0 0 0 255))).
  assert (image_wf bg) as Hwf by (apply paint_wf, NewRGBA_wf; lia).
  assert (image.inBounds bg px py) as Hin.
  { unfold image.inBounds, bg. rewrite paint_W, paint_H, NewRGBA_W, NewRGBA_H. lia. }
  assert (image.At bg px py = color.mk 0 0 0 255) as Hbg.
  { unfold bg. rewrite paint_rect_At by (apply NewRGBA_wf; lia).
    rewrite decide_True; [reflexivity|]. unfold image.inBounds.
    rewrite NewRGBA_W, NewRGBA_H. lia. }
  assert ((∀ op, op ∈ rows_ops (base_tile_ops spriteSheet) mapData →
             op.1.1 = px → op.1.2 = py → False) →
          image.At (paint bg (rows_ops (base_tile_ops spriteSheet) mapData)) px py
          = color.mk 0 0 0 255) as Hmiss.
  { intros Hno. rewrite paint_At_other; [exact Hbg | exact Hwf|].
    intros op Hop [H1 H2]. exact (Hno op Hop H1 H2). }
  unfold baseMapColor.
  destruct (index mapData (Z.quot py 8)) as [line|] eqn:Hline.
  2: { apply Hmiss. intros op Hop H1 H2.
       destruct (base_ops_hit _ _ _ _ _ Hop H1 H2) as (? & ? & ? & ? & _). congruence. }
  destruct (index line (Z.quot px 8 * 2)) as [c1|] eqn:Hc1.
  2: { apply Hmiss. intros op Hop H1 H2.
       destruct (base_ops_hit _ _ _ _ _ Hop H1 H2) as (? & ? & ? & ? & ? & _).
       congruence. }
  destruct (index line (Z.quot px 8 * 2 + 1)) as [c2|] eqn:Hc2.
  2: { apply Hmiss. intros op Hop H1 H2.
       destruct (base_ops_hit _ _ _ _ _ Hop H1 H2) as (? & ? & ? & ? & ? & ? & _).
       congruence. }
  cbv zeta.
  destruct (decide (parseHexChar (rune c2) ≠ 0 ∨ parseHexChar (rune c1) ≠ 0))
    as [Hd|Hd].
  2: { apply Hmiss. intros op Hop H1 H2.
       destruct (base_ops_hit _ _ _ _ _ Hop H1 H2)
         as (line' & c1' & c2' & Hl' & H1' & H2' & Hd' & _).
       apply Hd. congruence. }
  apply paint_At_hit; [exact Hwf | exact Hin | |].
  - intros op Hop H1 H2.
    destruct (base_ops_hit _ _ _ _ _ Hop H1 H2)
      as (line' & c1' & c2' & Hl' & H1' & H2' & _ & ->). congruence.
  - exists (px, py,
            image.At spriteSheet (parseHexChar (rune c2) * 8 + Z.rem px 8)
                                 (parseHexChar (rune c1) * 8 + Z.rem py 8)).
    split; [|done]. apply elem_of_rows_ops.
    exists (Z.quot py 8), line, (Z.quot px 8).
    split; [Z.to_euclidean_division_equations; lia|]. split; [exact Hline|].
    pose proof (index_lt _ _ _ Hc2) as Hlt.
    split; [Z.to_euclidean_division_equations; lia|].
    unfold base_tile_ops. rewrite Hc1, Hc2. cbv zeta. rewrite decide_True by exact Hd.
    apply elem_of_rect_ops. exists (Z.rem px 8), (Z.rem py 8).
    split; [Z.to_euclidean_division_equations; lia|].
    split; [Z.to_euclidean_division_equations; lia|].
    do 2 f_equal; Z.to_euclidean_division_equations; lia.
Qed.

Lemma renderRows_inv_rows (P : image.RGBA → Prop)
    (tile : gostring → Z → Z → image.RGBA → option image.RGBA)
    (rows : list gostring) (mapImage : image.RGBA) :
  (∀ line y x img, 0 ≤ y → 0 ≤ x < Z.quot (len line) 2 → P img →
     ∃ img', tile line y x img = Some img' ∧ P img') →
  P mapImage →
  ∃ img', renderRows tile rows mapImage = Some img' ∧ P img'.
Proof.
  intros Htile HP. unfold renderRows, for_range.
  apply loop_inv_elem; [exact HP|].
  intros y img Hy%elem_of_seqZ_range HPimg.
  destruct (index_is_Some rows y) as [line Hline]; [lia|]. rewrite Hline. run.
  apply loop_inv_elem; [exact HPimg|].
  intros x img' Hx%elem_of_seqZ_range HPimg'. apply Htile; [lia | lia | done].
Qed.

(** The tiles of the dual-purpose passes lie in tile rows 32 and below. *)
Lemma dualTiles_below (spriteSheet : image.RGBA) (line : gostring) (y x : Z)
    (img : image.RGBA) :
  0 ≤ y → 0 ≤ x < Z.quot (len line) 2 →
  (∃ ops, renderSection3Tile spriteSheet line y x img = Some (paint img ops)
          ∧ ∀ op, op ∈ ops → 32 * 8 ≤ op.1.2) ∧
  (∃ ops, renderSection4Tile spriteSheet line y x img = Some (paint img ops)
          ∧ ∀ op, op ∈ ops → 32 * 8 ≤ op.1.2).
Proof.
  intros Hy Hx. unfold renderSection3Tile, renderSection4Tile.
  assert (x * 2 + 1 < len line) by (Z.to_euclidean_division_equations; lia).
  destruct (index_is_Some line (x * 2)) as [c1 ->]; [lia|].
  destruct (index_is_Some line (x * 2 + 1)) as [c2 ->]; [lia|].
  run. cbv zeta.
  assert (∀ dx dy (c : Z → Z → color.RGBA) op,
            32 ≤ dy → op ∈ rect_ops 8 8 dx (dy * 8) c → 32 * 8 ≤ op.1.2) as Hrect.
  { intros dx dy c op Hdy (xx & yy & _ & Hyy & ->)%elem_of_rect_ops. cbn. lia. }
  assert (∀ op : Z * Z * color.RGBA, op ∈ [] → 32 * 8 ≤ op.1.2) as Hnil
    by (intros op Hop; by apply elem_of_nil in Hop).
  destruct (Z.eqb_spec (Z.rem y 2) 0) as [Heven|Hodd];
    destruct (decide (parseHexChar (rune c1) ≠ 0 ∨ parseHexChar (rune c2) ≠ 0));
    rewrite ?drawSprite_paint, ?drawBlackTile_paint;
    (split; [first [ eexists; split; [reflexivity|]; intros op Hop;
                     apply Hrect in Hop; [exact Hop|];
                     Z.to_euclidean_division_equations; lia
                   | exists []; split; [reflexivity | exact Hnil] ] ..]).
Qed.

(** The first 32 tile rows of the raster are those of the pass over the
    regular map. *)
Lemma renderMap_base_tiles (mapData : list gostring)
    (dualPurposeSection1 dualPurposeSection2 : option (list gostring))
    (spriteSheet : image.RGBA) (mapWidth mapHeight : Z) :
  0 ≤ mapWidth → 0 ≤ mapHeight →
  ∃ mapImage,
    renderMap mapData dualPurposeSection1 dualPurposeSection2
      spriteSheet mapWidth mapHeight = Some mapImage ∧
    ∀ px py, 0 ≤ px < mapWidth * 8 → 0 ≤ py < mapHeight * 8 →
      py < 32 * 8 ∨ (dualPurposeSection1 = None ∧ dualPurposeSection2 = None) →
      image.At mapImage px py = baseMapColor spriteSheet mapData px py.
Proof.
  intros Hw Hh. unfold renderMap.
  rewrite (rect_loops (mapWidth * 8) (mapHeight * 8) 0 0 (λ _ _, color.mk 0 0 0 255)
             (λ y x mapImage,
                c ← index pico8Palette 0; Some (image.Set_ mapImage x y c)))
    by (intros; reflexivity).
  run.
  rewrite (renderRows_paint (renderBaseTile spriteSheet) (base_tile_ops spriteSheet)
             mapData)
    by (intros; by apply renderBaseTile_ops).
  run.
  pose proof (base_pass_At spriteSheet mapData mapWidth mapHeight) as Hbase.
  set (img1 := paint (paint (image.NewRGBA (mapWidth * 8) (mapHeight * 8))
                        (rect_ops (mapWidth * 8) (mapHeight * 8) 0 0
                           (λ _ _, color.mk 0 0 0 255)))
                 (rows_ops (base_tile_ops spriteSheet) mapData)) in *.
  assert (image_wf img1) as Hwf1 by (apply paint_wf, paint_wf, NewRGBA_wf; lia).
  set (P := λ img : image.RGBA,
         image_wf img ∧
         ∀ px py, py < 32 * 8 → image.At img px py = image.At img1 px py).
  assert (∀ img ops, (∀ op : Z * Z * color.RGBA, op ∈ ops → 32 * 8 ≤ op.1.2) →
            P img → P (paint img ops)) as Hpaint.
  { intros img ops Hops [Hwf Hsame]. split; [by apply paint_wf|].
    intros px py Hpy. rewrite paint_At_other; [by apply Hsame | exact Hwf|].
    intros op Hop [_ Hy]. apply Hops in Hop. lia. }
  assert (P img1) as HP1 by (split; [exact Hwf1 | done]).
  assert (∃ img2, match dualPurposeSection1 with
                  | Some rows => renderRows (renderSection3Tile spriteSheet) rows img1
                  | None => Some img1
                  end = Some img2 ∧ P img2 ∧
                  (dualPurposeSection1 = None → img2 = img1))
    as (img2 & -> & HP2 & Heq2).
  { destruct dualPurposeSection1 as [rows|]; [|by exists img1].
    destruct (renderRows_inv_rows P (renderSection3Tile spriteSheet) rows img1)
      as (img2 & Hrun & HP2); [|exact HP1|by exists img2].
    intros line y x img Hy Hx HP.
    destruct (proj1 (dualTiles_below spriteSheet line y x img Hy Hx))
      as (ops & -> & Hops).
    eexists. split; [reflexivity|]. by apply Hpaint. }
  run.
  assert (∃ img3, match dualPurposeSection2 with
                  | Some rows => renderRows (renderSection4Tile spriteSheet) rows img2
                  | None => Some img2
                  end = Some img3 ∧ P img3 ∧
                  (dualPurposeSection2 = None → img3 = img2))
    as (img3 & -> & HP3 & Heq3).
  { destruct dualPurposeSection2 as [rows|]; [|by exists img2].
    destruct (renderRows_inv_rows P (renderSection4Tile spriteSheet) rows img2)
      as (img3 & Hrun & HP3); [|exact HP2|by exists img3].
    intros line y x img Hy Hx HP.
    destruct (proj2 (dualTiles_below spriteSheet line y x img Hy Hx))
      as (ops & -> & Hops).
    eexists. split; [reflexivity|]. by apply Hpaint. }
  run. exists img3. split; [reflexivity|]. intros px py Hpx Hpy [Hrow|[Hn1 Hn2]].
  - rewrite (proj2 HP3 px py Hrow). by apply Hbase.
  - rewrite (Heq3 Hn2), (Heq2 Hn1). by apply Hbase.
Qed.

(** X22. For map dimensions whose raster fits an [int] and whatever the
    dual-purpose sections hold, the first 32 tile rows of the raster of
    [renderMap] show the regular map: the 8x8 block of tile
    (x, y) is the atlas block whose row is the first digit and whose column
    is the second digit of the tile pair, the pair (0,0) and a missing pair
    leave palette colour 0, and a pair with a character that is no hex digit
    copies from outside the atlas, which gives the zero colour.  With both
    dual-purpose sections absent this holds for every pixel of the
    raster. *)
Theorem X22_renderMap_base_tiles (mapData : list gostring)
    (dualPurposeSection1 dualPurposeSection2 : option (list gostring))
    (spriteSheet : image.RGBA) (mapWidth mapHeight : Z) :
  map_dims_fit mapWidth mapHeight →
  ∃ mapImage,
    renderMap mapData dualPurposeSection1 dualPurposeSection2
      spriteSheet mapWidth mapHeight = Some mapImage ∧
    ∀ px py, 0 ≤ px < mapWidth * 8 → 0 ≤ py < mapHeight * 8 →
      py < 32 * 8 ∨ (dualPurposeSection1 = None ∧ dualPurposeSection2 = None) →
      image.At mapImage px py = baseMapColor spriteSheet mapData px py.
Proof.
  intros (Hw & Hh & _).
  exact (renderMap_base_tiles mapData dualPurposeSection1 dualPurposeSection2
           spriteSheet mapWidth mapHeight Hw Hh).
Qed.

(** The tile pair 12 at map position (0,0): the block in row 1, column 2
    of the atlas. *)
Lemma X22_renderMap_base_tiles_witness :
  map_dims_fit 128 48 ∧
  ∃ mapImage,
    renderMap [gs "12"] (Some [gs "0000"]) None (image.NewRGBA 128 128) 128 48
      = Some mapImage ∧
    ∀ px py, 0 ≤ px < 128 * 8 → 0 ≤ py < 48 * 8 →
      py < 32 * 8 ∨ (Some [gs "0000"] = None ∧ (None : option (list gostring)) = None) →
      image.At mapImage px py
      = baseMapColor (image.NewRGBA 128 128) [gs "12"] px py.
Proof.
  assert (map_dims_fit 128 48) as Hdims by (unfold map_dims_fit, int_max; lia).
  split; [exact Hdims|].
  exact (X22_renderMap_base_tiles [gs "12"] (Some [gs "0000"]) None
           (image.NewRGBA 128 128) 128 48 Hdims).
Defined.

(** X23. The map raster of [main] and the map model agree on the regular
    map: where a tile pair of the first 32 lines consists of two hex digits,
    [generateMapJSON] emits a cell at its position and the 8x8 block of
    that position in the raster is the atlas block of the cell's sprite ID,
    column ID mod 16 and row ID / 16, or palette colour 0 when the ID is 0,
    with or without dual-purpose bands. *)
Theorem X23_map_raster_matches_model (mapData gfxData : list gostring)
    (useSection3 useSection4 : bool) (y x : Z) (line : gostring) (c1 c2 : ascii)
    (xx yy : Z) :
  0 ≤ y < 32 → index mapData y = Some line →
  0 ≤ x < 128 → index line (x * 2) = Some c1 → index line (x * 2 + 1) = Some c2 →
  is_hex_rune (rune c1) → is_hex_rune (rune c2) →
  0 ≤ xx < 8 → 0 ≤ yy < 8 →
  ∃ sheet cell atlas mapImage,
    generateMapJSON mapData gfxData useSection3 useSection4 = Some (sheet, None) ∧
    cell ∈ MapSheet.Cells sheet ∧ MapCell.X cell = x ∧ MapCell.Y cell = y ∧
    reconstructImage gfxData = Some atlas ∧
    renderCartMap mapData gfxData useSection3 useSection4 = Some mapImage ∧
    image.At mapImage (x * 8 + xx) (y * 8 + yy)
    = if decide (MapCell.Sprite cell = 0) then color.mk 0 0 0 255
      else image.At atlas (Z.rem (MapCell.Sprite cell) 16 * 8 + xx)
                          (Z.quot (MapCell.Sprite cell) 16 * 8 + yy).
Proof.
  intros Hy Hline Hx H1 H2 Hhex1 Hhex2 Hxx Hyy.
  assert (0 ≤ parseHexChar (rune c1) ≤ 15) as Hr1
    by (destruct (parseHexChar_range (rune c1)) as [[_ ?]|[? _]]; done).
  assert (0 ≤ parseHexChar (rune c2) ≤ 15) as Hr2
    by (destruct (parseHexChar_range (rune c2)) as [[_ ?]|[? _]]; done).
  assert (x < Z.quot (len line) 2) as Hq.
  { apply index_lt in H2. Z.to_euclidean_division_equations; lia. }
  unfold renderCartMap.
  destruct (dualPurposeSlice_total useSection3 (8 * 8) gfxData) as [s1 ->]; [lia|].
  destruct (dualPurposeSlice_total useSection4 (12 * 8) gfxData) as [s2 ->]; [lia|].
  run. rewrite reconstructImage_paint. run.
  assert (32 ≤ mapHeight useSection3 useSection4) as Hh
    by (destruct useSection3, useSection4; cbn; lia).
  destruct (renderMap_base_tiles mapData s1 s2
              (paint (image.NewRGBA 128 128) (reconstruct_ops gfxData)) 128
              (mapHeight useSection3 useSection4)) as (mapImage & Hrun & Hpix);
    [lia | lia|].
  eexists _, (baseCell line y x), _, mapImage.
  split; [apply generateMapJSON_spec|]. cbn [MapSheet.Cells].
  split; [apply elem_of_app; left; apply elem_of_baseCells; by exists y, line, x|].
  split; [reflexivity|]. split; [reflexivity|]. split; [reflexivity|].
  split; [exact Hrun|].
  rewrite Hpix by lia. unfold baseMapColor, baseCell. cbn [MapCell.Sprite].
  rewrite (byteAt_index _ _ _ H1), (byteAt_index _ _ _ H2).
  assert (Z.quot (x * 8 + xx) 8 = x ∧ Z.rem (x * 8 + xx) 8 = xx
          ∧ Z.quot (y * 8 + yy) 8 = y ∧ Z.rem (y * 8 + yy) 8 = yy)
    as (-> & -> & -> & ->) by (Z.to_euclidean_division_equations; lia).
  rewrite Hline, H1, H2. cbv zeta.
  assert (Z.rem (parseHexChar (rune c1) * 16 + parseHexChar (rune c2)) 16
          = parseHexChar (rune c2)
          ∧ Z.quot (parseHexChar (rune c1) * 16 + parseHexChar (rune c2)) 16
            = parseHexChar (rune c1)) as [-> ->]
    by (Z.to_euclidean_division_equations; lia).
  destruct (decide (parseHexChar (rune c2) ≠ 0 ∨ parseHexChar (rune c1) ≠ 0));
    destruct (decide (parseHexChar (rune c1) * 16 + parseHexChar (rune c2) = 0));
    (reflexivity || lia).
Qed.

(** End-to-end scenario 4: the tile pair 12 at map position (0,0) is the
    cell of sprite 18, drawn from column 2, row 1 of the atlas. *)
Lemma X23_map_raster_matches_model_witness :
  0 ≤ 0 < 32 ∧ index [gs "12"] 0 = Some (gs "12") ∧ 0 ≤ 0 < 128 ∧
  index (gs "12") (0 * 2) = Some "1"%char ∧
  index (gs "12") (0 * 2 + 1) = Some "2"%char ∧
  is_hex_rune (rune "1") ∧ is_hex_rune (rune "2") ∧ 0 ≤ 3 < 8 ∧ 0 ≤ 4 < 8 ∧
  ∃ sheet cell atlas mapImage,
    generateMapJSON [gs "12"] [gs "0070"] true false = Some (sheet, None) ∧
    cell ∈ MapSheet.Cells sheet ∧ MapCell.X cell = 0 ∧ MapCell.Y cell = 0 ∧
    reconstructImage [gs "0070"] = Some atlas ∧
    renderCartMap [gs "12"] [gs "0070"] true false = Some mapImage ∧
    image.At mapImage (0 * 8 + 3) (0 * 8 + 4)
    = if decide (MapCell.Sprite cell = 0) then color.mk 0 0 0 255
      else image.At atlas (Z.rem (MapCell.Sprite cell) 16 * 8 + 3)
                          (Z.quot (MapCell.Sprite cell) 16 * 8 + 4).
Proof.
  assert (is_hex_rune (rune "1")) as Hh1 by (left; split; apply Z.leb_le; reflexivity).
  assert (is_hex_rune (rune "2")) as Hh2 by (left; split; apply Z.leb_le; reflexivity).
  split; [lia|]. split; [reflexivity|]. split; [lia|]. split; [reflexivity|].
  split; [reflexivity|]. split; [exact Hh1|]. split; [exact Hh2|].
  split; [lia|]. split; [lia|].
  exact (X23_map_raster_matches_model [gs "12"] [gs "0070"] true false 0 0 (gs "12")
           "1" "2" 3 4 ltac:(lia) eq_refl ltac:(lia) eq_refl eq_refl Hh1 Hh2
           ltac:(lia) ltac:(lia)).
Defined.

(** ** Flag data shorter than the sprite table *)

(** X24. [generateSpriteSheetJSON] indexes the flag data by sprite ID
    without a bounds check: flag data that does not reach an ID that no
    active band excludes makes it panic.  The 256 entries that
    [parseFlagSection] always returns are what keeps [main] safe. *)
Theorem X24_short_flag_data_panics (gfxData : list gostring) (flagData : list Z)
    (useSection3 useSection4 : bool) (id : Z) :
  0 ≤ id < 256 → ¬ band_excludes useSection3 useSection4 id → len flagData ≤ id →
  generateSpriteSheetJSON gfxData flagData useSection3 useSection4 = None.
Proof.
  intros Hid Hex Hshort. unfold generateSpriteSheetJSON.
  destruct (for_each pico8Palette _ _) as [palette|]; [|reflexivity]. run.
  unfold for_range.
  rewrite (loop_panics _ _ id []); [reflexivity | apply elem_of_seqZ; lia|].
  intros sprites. unfold spriteEntry.
  destruct ((bool_decide (id >= 128) && bool_decide (id < 192) && useSection3)
            || (bool_decide (id >= 192) && useSection4)) eqn:E.
  { exfalso. apply Hex. unfold band_excludes.
    apply orb_true_iff in E as [E|E].
    - apply andb_true_iff in E as [E ->]. apply andb_true_iff in E as [E1 E2].
      apply bool_decide_eq_true in E1, E2. left. split; [done | lia].
    - apply andb_true_iff in E as [E1 ->]. apply bool_decide_eq_true in E1.
      right. split; [done | lia]. }
  destruct (spritePixels_spec gfxData (Z.rem id 16) (Z.quot id 16))
    as (pixels & -> & _); [Z.to_euclidean_division_equations; lia ..|].
  run. destruct (index flagData id) as [b|] eqn:Hb; [|reflexivity].
  apply index_lt in Hb. lia.
Qed.

Lemma X24_short_flag_data_panics_witness :
  0 ≤ 200 < 256 ∧ ¬ band_excludes true false 200 ∧ len (replicate 200 0) ≤ 200 ∧
  generateSpriteSheetJSON [gs "0070"] (replicate 200 0) true false = None.
Proof.
  assert (¬ band_excludes true false 200) as Hex
    by (intros [[_ ?]|[? _]]; [lia | discriminate]).
  assert (len (replicate 200 0) ≤ 200) as Hlen
    by (unfold len; rewrite length_replicate; lia).
  split; [lia|]. split; [exact Hex|]. split; [exact Hlen|].
  exact (X24_short_flag_data_panics [gs "0070"] (replicate 200 0) true false 200
           ltac:(lia) Hex Hlen).
Defined.

(** ** The dual-purpose bands in the map raster *)

Lemma renderDualTile_ops (spriteSheet : image.RGBA) (line : gostring) (y x : Z)
    (img : image.RGBA) :
  0 ≤ x < Z.quot (len line) 2 →
  renderSection3Tile spriteSheet line y x img
  = Some (paint img (dual_tile_ops spriteSheet 32 true line y x)) ∧
  renderSection4Tile spriteSheet line y x img
  = Some (paint img (dual_tile_ops spriteSheet 48 false line y x)).
Proof.
  intros Hx. unfold renderSection3Tile, renderSection4Tile, dual_tile_ops.
  assert (x * 2 + 1 < len line) by (Z.to_euclidean_division_equations; lia).
  destruct (index_is_Some line (x * 2)) as [c1 ->]; [lia|].
  destruct (index_is_Some line (x * 2 + 1)) as [c2 ->]; [lia|].
  run. cbv zeta.
  destruct (Z.rem y 2 =? 0);
    destruct (decide (parseHexChar (rune c1) ≠ 0 ∨ parseHexChar (rune c2) ≠ 0));
    rewrite ?drawSprite_paint, ?drawBlackTile_paint; split; reflexivity.
Qed.

(** Where a [Set] of a dual-purpose pass lands and what it writes. *)
Lemma dual_ops_hit (spriteSheet : image.RGBA) (baseRow : Z) (blackOnEven : bool)
    (rows : list gostring) (op : Z * Z * color.RGBA) :
  Forall (λ l, len l ≤ 128) rows →
  op ∈ rows_ops (dual_tile_ops spriteSheet baseRow blackOnEven) rows →
  ∃ y line x c1 c2 xx yy,
    0 ≤ y ∧ index rows y = Some line ∧ 0 ≤ x < 64 ∧
    index line (x * 2) = Some c1 ∧ index line (x * 2 + 1) = Some c2 ∧
    0 ≤ xx < 8 ∧ 0 ≤ yy < 8 ∧
    op.1.1 = bandTileX y x * 8 + xx ∧ op.1.2 = bandTileY baseRow y * 8 + yy ∧
    ((parseHexChar (rune c1) ≠ 0 ∨ parseHexChar (rune c2) ≠ 0) →
     op.2 = image.At spriteSheet (parseHexChar (rune c1) * 8 + xx)
                                 (parseHexChar (rune c2) * 8 + yy)) ∧
    op ∈ dual_tile_ops spriteSheet baseRow blackOnEven line y x.
Proof.
  intros Hlen (y & line & x & Hy & Hline & Hx & Hop)%elem_of_rows_ops.
  pose proof Hop as Hmem.
  assert (len line ≤ 128) as Hl.
  { rewrite Forall_forall in Hlen. apply Hlen.
    apply index_Some in Hline as [_ Hline]. by eapply list_elem_of_lookup_2. }
  assert (x < 64) by (Z.to_euclidean_division_equations; lia).
  unfold dual_tile_ops in Hop.
  destruct (index line (x * 2)) as [c1|] eqn:H1; [|by apply elem_of_nil in Hop].
  destruct (index line (x * 2 + 1)) as [c2|] eqn:H2; [|by apply elem_of_nil in Hop].
  cbv zeta in Hop.
  assert (bandTileX y x = if Z.rem y 2 =? 0 then x else 64 + x) as HX
    by (unfold bandTileX; by rewrite rem2_even).
  unfold bandTileY.
  destruct (Z.rem y 2 =? 0) eqn:E; [apply Z.eqb_eq in E | apply Z.eqb_neq in E];
    destruct (decide (parseHexChar (rune c1) ≠ 0 ∨ parseHexChar (rune c2) ≠ 0))
      as [Hd|Hd];
    try (destruct blackOnEven); try (by apply elem_of_nil in Hop);
    apply elem_of_rect_ops in Hop as (xx & yy & Hxx & Hyy & ->);
    exists y, line, x, c1, c2, xx, yy; cbn [fst snd]; rewrite HX;
    (split; [lia|]); (split; [done|]); (split; [lia|]); (split; [done|]);
    (split; [done|]); (split; [lia|]); (split; [lia|]); (split; [done|]);
    (split; [|split; [done|]]);
    first [exact Hmem | reflexivity | Z.to_euclidean_division_equations; lia].
Qed.

(** A dual-purpose pass leaves, at the tile of a pair that does not decode
    to (0,0), the atlas block that the pair names. *)
Lemma dual_pass_At (spriteSheet : image.RGBA) (baseRow : Z) (blackOnEven : bool)
    (rows : list gostring) (img : image.RGBA) (y x : Z) (line : gostring)
    (c1 c2 : ascii) (xx yy : Z) :
  image_wf img → Forall (λ l, len l ≤ 128) rows →
  index rows y = Some line →
  0 ≤ x → index line (x * 2) = Some c1 → index line (x * 2 + 1) = Some c2 →
  parseHexChar (rune c1) ≠ 0 ∨ parseHexChar (rune c2) ≠ 0 →
  0 ≤ xx < 8 → 0 ≤ yy < 8 →
  image.inBounds img (bandTileX y x * 8 + xx) (bandTileY baseRow y * 8 + yy) →
  image.At (paint img (rows_ops (dual_tile_ops spriteSheet baseRow blackOnEven) rows))
    (bandTileX y x * 8 + xx) (bandTileY baseRow y * 8 + yy)
  = image.At spriteSheet (parseHexChar (rune c1) * 8 + xx)
                         (parseHexChar (rune c2) * 8 + yy).
Proof.
  intros Hwf Hlen Hline Hx H1 H2 Hd Hxx Hyy Hin.
  pose proof (index_lt _ _ _ Hline) as Hy.
  assert (len line ≤ 128) as Hl.
  { rewrite Forall_forall in Hlen. apply Hlen.
    apply index_Some in Hline as [_ Hl]. by eapply list_elem_of_lookup_2. }
  pose proof (index_lt _ _ _ H2) as Hx2.
  assert (x < Z.quot (len line) 2 ∧ x < 64) as [Hq Hx64]
    by (Z.to_euclidean_division_equations; lia).
  apply paint_At_hit; [exact Hwf | exact Hin | |].
  - intros op Hop Hpx Hpy.
    destruct (dual_ops_hit _ _ _ _ _ Hlen Hop)
      as (y' & line' & x' & c1' & c2' & xx' & yy' & Hy' & Hline' & Hx' & H1' & H2'
          & Hxx' & Hyy' & Hpx' & Hpy' & Hcol & _).
    rewrite Hpx' in Hpx. rewrite Hpy' in Hpy. unfold bandTileX, bandTileY in Hpx, Hpy.
    assert (y' = y ∧ x' = x ∧ xx' = xx ∧ yy' = yy) as (-> & -> & -> & ->).
    { rewrite <- !rem2_even in Hpx.
      destruct (Z.eqb_spec (Z.rem y' 2) 0), (Z.eqb_spec (Z.rem y 2) 0);
        Z.to_euclidean_division_equations; lia. }
    assert (line' = line) as -> by congruence.
    assert (c1' = c1) as -> by congruence. assert (c2' = c2) as -> by congruence.
    by apply Hcol.
  - exists (bandTileX y x * 8 + xx, bandTileY baseRow y * 8 + yy,
            image.At spriteSheet (parseHexChar (rune c1) * 8 + xx)
                                 (parseHexChar (rune c2) * 8 + yy)).
    split; [|done]. apply elem_of_rows_ops. exists y, line, x.
    split; [lia|]. split; [exact Hline|]. split; [lia|].
    unfold dual_tile_ops, bandTileX, bandTileY. rewrite H1, H2. cbv zeta.
    rewrite <- rem2_even.
    destruct (Z.eqb_spec (Z.rem y 2) 0) as [Heven|Hodd];
      rewrite decide_True by exact Hd; apply elem_of_rect_ops; exists xx, yy;
      (split; [lia|]); (split; [lia|]); [reflexivity|].
    do 2 f_equal. f_equal. Z.to_euclidean_division_equations; lia.
Qed.

(** The tiles of section 4 lie in tile rows 48 and below. *)
Lemma section4_below (spriteSheet : image.RGBA) (line : gostring) (y x : Z)
    (op : Z * Z * color.RGBA) :
  0 ≤ y → op ∈ dual_tile_ops spriteSheet 48 false line y x → 48 * 8 ≤ op.1.2.
Proof.
  intros Hy Hop. unfold dual_tile_ops in Hop.
  destruct (index line (x * 2)) as [c1|]; [|by apply elem_of_nil in Hop].
  destruct (index line (x * 2 + 1)) as [c2|]; [|by apply elem_of_nil in Hop].
  cbv zeta in Hop.
  destruct (Z.eqb_spec (Z.rem y 2) 0);
    destruct (decide (parseHexChar (rune c1) ≠ 0 ∨ parseHexChar (rune c2) ≠ 0));
    try (by apply elem_of_nil in Hop);
    apply elem_of_rect_ops in Hop as (xx & yy & Hxx & Hyy & ->); cbn [fst snd];
    Z.to_euclidean_division_equations; lia.
Qed.

(** The raster of [renderMap] as a run of [Set] calls. *)
Lemma renderMap_paint (mapData : list gostring)
    (dualPurposeSection1 dualPurposeSection2 : option (list gostring))
    (spriteSheet : image.RGBA) (mapWidth mapHeight : Z) :
  renderMap mapData dualPurposeSection1 dualPurposeSection2
    spriteSheet mapWidth mapHeight
  = Some
      (paint
         (paint
            (paint
               (paint (image.NewRGBA (mapWidth * 8) (mapHeight * 8))
                  (rect_ops (mapWidth * 8) (mapHeight * 8) 0 0
                     (λ _ _, color.mk 0 0 0 255)))
               (rows_ops (base_tile_ops spriteSheet) mapData))
            (rows_ops (dual_tile_ops spriteSheet 32 true)
               (default [] dualPurposeSection1)))
         (rows_ops (dual_tile_ops spriteSheet 48 false)
            (default [] dualPurposeSection2))).
Proof.
  unfold renderMap.
  rewrite (rect_loops (mapWidth * 8) (mapHeight * 8) 0 0 (λ _ _, color.mk 0 0 0 255)
             (λ y x mapImage,
                c ← index pico8Palette 0; Some (image.Set_ mapImage x y c)))
    by (intros; reflexivity).
  run.
  rewrite (renderRows_paint (renderBaseTile spriteSheet) (base_tile_ops spriteSheet)
             mapData)
    by (intros; by apply renderBaseTile_ops).
  run.
  destruct dualPurposeSection1 as [rows1|]; cbn [default].
  - rewrite (renderRows_paint (renderSection3Tile spriteSheet)
               (dual_tile_ops spriteSheet 32 true) rows1)
      by (intros line y x img Hx; exact (proj1 (renderDualTile_ops _ line y x img Hx))).
    run. destruct dualPurposeSection2 as [rows2|]; cbn [default]; [|reflexivity].
    rewrite (renderRows_paint (renderSection4Tile spriteSheet)
               (dual_tile_ops spriteSheet 48 false) rows2)
      by (intros line y x img Hx; exact (proj2 (renderDualTile_ops _ line y x img Hx))).
    reflexivity.
  - run. destruct dualPurposeSection2 as [rows2|]; cbn [default]; [|reflexivity].
    rewrite (renderRows_paint (renderSection4Tile spriteSheet)
               (dual_tile_ops spriteSheet 48 false) rows2)
      by (intros line y x img Hx; exact (proj2 (renderDualTile_ops _ line y x img Hx))).
    reflexivity.
Qed.

(** X25. In the raster of [renderMap], for map dimensions whose raster
    fits an [int], a tile pair of dual-purpose
    section 3 that does not decode to (0,0) shows the atlas block whose
    column is the first digit and whose row is the second digit (the
    reverse of the regular map), at tile column x for an even band-row y and
    64 + x for an odd one, tile row 32 + y/2.  This holds for lines of at
    most 128 characters and the first 32 band-rows, over whatever the
    regular map drew there and whatever section 4 holds. *)
Theorem X25_renderMap_band3_tiles (mapData rows : list gostring)
    (dualPurposeSection2 : option (list gostring))
    (spriteSheet : image.RGBA) (mapWidth mapHeight : Z)
    (y x : Z) (line : gostring) (c1 c2 : ascii) (xx yy : Z) :
  map_dims_fit mapWidth mapHeight →
  Forall (λ l, len l ≤ 128) rows →
  0 ≤ y < 32 → index rows y = Some line →
  0 ≤ x → index line (x * 2) = Some c1 → index line (x * 2 + 1) = Some c2 →
  parseHexChar (rune c1) ≠ 0 ∨ parseHexChar (rune c2) ≠ 0 →
  0 ≤ xx < 8 → 0 ≤ yy < 8 →
  bandTileX y x < mapWidth → bandTileY 32 y < mapHeight →
  ∃ mapImage,
    renderMap mapData (Some rows) dualPurposeSection2 spriteSheet mapWidth mapHeight
      = Some mapImage ∧
    image.At mapImage (bandTileX y x * 8 + xx) (bandTileY 32 y * 8 + yy)
    = image.At spriteSheet (parseHexChar (rune c1) * 8 + xx)
                           (parseHexChar (rune c2) * 8 + yy).
Proof.
  intros _ Hlen Hy Hline Hx H1 H2 Hd Hxx Hyy HX HY.
  rewrite renderMap_paint. eexists. split; [reflexivity|]. cbn [default].
  assert (0 ≤ bandTileX y x ∧ 32 ≤ bandTileY 32 y < 48) as [HX0 HY0].
  { unfold bandTileX, bandTileY. destruct (Z.even y);
      Z.to_euclidean_division_equations; lia. }
  set (img1 := paint (paint (image.NewRGBA (mapWidth * 8) (mapHeight * 8)) _) _).
  assert (image_wf img1) as Hwf1 by (apply paint_wf, paint_wf, NewRGBA_wf; lia).
  rewrite paint_At_other.
  - apply (dual_pass_At spriteSheet 32 true rows img1 y x line c1 c2 xx yy); try done.
    unfold image.inBounds, img1. rewrite !paint_W, !paint_H, NewRGBA_W, NewRGBA_H. lia.
  - by apply paint_wf.
  - intros op (y' & line' & x' & Hy' & _ & _ & Hop)%elem_of_rows_ops [_ Hpy].
    apply section4_below in Hop; [|exact Hy']. lia.
Qed.

Lemma X25_renderMap_band3_tiles_witness :
  map_dims_fit 128 48 ∧
  Forall (λ l, len l ≤ 128) [gs "0000"; gs "2100"] ∧
  0 ≤ 1 < 32 ∧ index [gs "0000"; gs "2100"] 1 = Some (gs "2100") ∧
  0 ≤ 0 ∧ index (gs "2100") (0 * 2) = Some "2"%char ∧
  index (gs "2100") (0 * 2 + 1) = Some "1"%char ∧
  (parseHexChar (rune "2") ≠ 0 ∨ parseHexChar (rune "1") ≠ 0) ∧
  0 ≤ 3 < 8 ∧ 0 ≤ 4 < 8 ∧ bandTileX 1 0 < 128 ∧ bandTileY 32 1 < 48 ∧
  ∃ mapImage,
    renderMap [] (Some [gs "0000"; gs "2100"]) None (image.NewRGBA 128 128) 128 48
      = Some mapImage ∧
    image.At mapImage (bandTileX 1 0 * 8 + 3) (bandTileY 32 1 * 8 + 4)
    = image.At (image.NewRGBA 128 128) (parseHexChar (rune "2") * 8 + 3)
                                       (parseHexChar (rune "1") * 8 + 4).
Proof.
  assert (Forall (λ l, len l ≤ 128) [gs "0000"; gs "2100"]) as Hlen
    by (repeat constructor; vm_compute; discriminate).
  assert (parseHexChar (rune "2") ≠ 0 ∨ parseHexChar (rune "1") ≠ 0) as Hd
    by (left; vm_compute; discriminate).
  assert (map_dims_fit 128 48) as Hdims by (unfold map_dims_fit, int_max; lia).
  split; [exact Hdims|].
  split; [exact Hlen|]. split; [lia|]. split; [reflexivity|]. split; [lia|].
  split; [reflexivity|]. split; [reflexivity|]. split; [exact Hd|].
  split; [lia|]. split; [lia|]. split; [vm_compute; reflexivity|].
  split; [vm_compute; reflexivity|].
  exact (X25_renderMap_band3_tiles [] [gs "0000"; gs "2100"] None
           (image.NewRGBA 128 128) 128 48 1 0 (gs "2100") "2" "1" 3 4
           Hdims Hlen ltac:(lia) eq_refl ltac:(lia) eq_refl eq_refl Hd ltac:(lia) ltac:(lia)
           eq_refl eq_refl).
Defined.

(** X26. The same for dual-purpose section 4, which is drawn last: for
    map dimensions whose raster fits an [int], a tile pair that does not decode to (0,0) shows the atlas block whose
    column is the first digit and whose row is the second, at tile column x
    or 64 + x and tile row 48 + y/2, over whatever the earlier passes drew
    there. *)
Theorem X26_renderMap_band4_tiles (mapData rows : list gostring)
    (dualPurposeSection1 : option (list gostring))
    (spriteSheet : image.RGBA) (mapWidth mapHeight : Z)
    (y x : Z) (line : gostring) (c1 c2 : ascii) (xx yy : Z) :
  map_dims_fit mapWidth mapHeight →
  Forall (λ l, len l ≤ 128) rows →
  index rows y = Some line →
  0 ≤ x → index line (x * 2) = Some c1 → index line (x * 2 + 1) = Some c2 →
  parseHexChar (rune c1) ≠ 0 ∨ parseHexChar (rune c2) ≠ 0 →
  0 ≤ xx < 8 → 0 ≤ yy < 8 →
  bandTileX y x < mapWidth → bandTileY 48 y < mapHeight →
  ∃ mapImage,
    renderMap mapData dualPurposeSection1 (Some rows) spriteSheet mapWidth mapHeight
      = Some mapImage ∧
    image.At mapImage (bandTileX y x * 8 + xx) (bandTileY 48 y * 8 + yy)
    = image.At spriteSheet (parseHexChar (rune c1) * 8 + xx)
                           (parseHexChar (rune c2) * 8 + yy).
Proof.
  intros _ Hlen Hline Hx H1 H2 Hd Hxx Hyy HX HY.
  rewrite renderMap_paint. eexists. split; [reflexivity|]. cbn [default].
  pose proof (index_lt _ _ _ Hline) as Hy.
  assert (0 ≤ bandTileX y x ∧ 48 ≤ bandTileY 48 y) as [HX0 HY0].
  { unfold bandTileX, bandTileY. destruct (Z.even y);
      Z.to_euclidean_division_equations; lia. }
  apply (dual_pass_At spriteSheet 48 false rows _ y x line c1 c2 xx yy); try done.
  - apply paint_wf, paint_wf, paint_wf, NewRGBA_wf; lia.
  - unfold image.inBounds. rewrite !paint_W, !paint_H, NewRGBA_W, NewRGBA_H. lia.
Qed.

Lemma X26_renderMap_band4_tiles_witness :
  map_dims_fit 128 64 ∧
  Forall (λ l, len l ≤ 128) [gs "3500"] ∧
  index [gs "3500"] 0 = Some (gs "3500") ∧
  0 ≤ 0 ∧ index (gs "3500") (0 * 2) = Some "3"%char ∧
  index (gs "3500") (0 * 2 + 1) = Some "5"%char ∧
  (parseHexChar (rune "3") ≠ 0 ∨ parseHexChar (rune "5") ≠ 0) ∧
  0 ≤ 7 < 8 ∧ 0 ≤ 0 < 8 ∧ bandTileX 0 0 < 128 ∧ bandTileY 48 0 < 64 ∧
  ∃ mapImage,
    renderMap [] None (Some [gs "3500"]) (image.NewRGBA 128 128) 128 64
      = Some mapImage ∧
    image.At mapImage (bandTileX 0 0 * 8 + 7) (bandTileY 48 0 * 8 + 0)
    = image.At (image.NewRGBA 128 128) (parseHexChar (rune "3") * 8 + 7)
                                       (parseHexChar (rune "5") * 8 + 0).
Proof.
  assert (Forall (λ l, len l ≤ 128) [gs "3500"]) as Hlen
    by (repeat constructor; vm_compute; discriminate).
  assert (parseHexChar (rune "3") ≠ 0 ∨ parseHexChar (rune "5") ≠ 0) as Hd
    by (left; vm_compute; discriminate).
  assert (map_dims_fit 128 64) as Hdims by (unfold map_dims_fit, int_max; lia).
  split; [exact Hdims|].
  split; [exact Hlen|]. split; [reflexivity|]. split; [lia|].
  split; [reflexivity|]. split; [reflexivity|]. split; [exact Hd|].
  split; [lia|]. split; [lia|]. split; [vm_compute; reflexivity|].
  split; [vm_compute; reflexivity|].
  exact (X26_renderMap_band4_tiles [] [gs "3500"] None
           (image.NewRGBA 128 128) 128 64 0 0 (gs "3500") "3" "5" 7 0
           Hdims Hlen eq_refl ltac:(lia) eq_refl eq_refl Hd ltac:(lia) ltac:(lia)
           eq_refl eq_refl).
Defined.

(** ** Claim on the map raster *)

Lemma rows_ops_nil (ops : gostring → Z → Z → list (Z * Z * color.RGBA)) :
  rows_ops ops [] = [].
Proof. reflexivity. Qed.

(** Two tiles of one dual-purpose pass that share a pixel are the same
    tile, for lines of at most 64 tiles. *)
Lemma band_tile_unique (baseRow y y' x x' xx xx' yy yy' : Z) :
  0 ≤ y → 0 ≤ y' → 0 ≤ x < 64 → 0 ≤ x' < 64 →
  0 ≤ xx < 8 → 0 ≤ xx' < 8 → 0 ≤ yy < 8 → 0 ≤ yy' < 8 →
  bandTileX y' x' * 8 + xx' = bandTileX y x * 8 + xx →
  bandTileY baseRow y' * 8 + yy' = bandTileY baseRow y * 8 + yy →
  y' = y ∧ x' = x ∧ xx' = xx ∧ yy' = yy.
Proof.
  unfold bandTileX, bandTileY. rewrite <- !rem2_even. intros.
  destruct (Z.eqb_spec (Z.rem y' 2) 0), (Z.eqb_spec (Z.rem y 2) 0);
    Z.to_euclidean_division_equations; lia.
Qed.

(** The only [Set] calls of a tile whose pair decodes to (0,0) are those of
    the black tile of an even row of section 3. *)
Lemma dual_tile_ops_blank (spriteSheet : image.RGBA) (baseRow : Z) (blackOnEven : bool)
    (line : gostring) (y x : Z) (c1 c2 : ascii) (op : Z * Z * color.RGBA) :
  index line (x * 2) = Some c1 → index line (x * 2 + 1) = Some c2 →
  parseHexChar (rune c1) = 0 → parseHexChar (rune c2) = 0 →
  op ∈ dual_tile_ops spriteSheet baseRow blackOnEven line y x →
  Z.even y = true ∧ blackOnEven = true ∧ op.2 = color.mk 0 0 0 255.
Proof.
  intros H1 H2 Hz1 Hz2. unfold dual_tile_ops. rewrite H1, H2. cbv zeta.
  rewrite rem2_even.
  destruct (decide (parseHexChar (rune c1) ≠ 0 ∨ parseHexChar (rune c2) ≠ 0))
    as [[?|?]|_]; [done | done|].
  destruct (Z.even y), blackOnEven; intros Hop; try (by apply elem_of_nil in Hop).
  apply elem_of_rect_ops in Hop as (xx & yy & _ & _ & ->). done.
Qed.

(** What a dual-purpose pass leaves at the tile of a pair that decodes to
    (0,0): palette colour 0 on an even row of section 3, the raster as it
    was otherwise. *)
Lemma dual_pass_blank_At (spriteSheet : image.RGBA) (baseRow : Z) (blackOnEven : bool)
    (rows : list gostring) (img : image.RGBA) (y x : Z) (line : gostring)
    (c1 c2 : ascii) (xx yy : Z) :
  image_wf img → Forall (λ l, len l ≤ 128) rows →
  index rows y = Some line →
  0 ≤ x → index line (x * 2) = Some c1 → index line (x * 2 + 1) = Some c2 →
  parseHexChar (rune c1) = 0 → parseHexChar (rune c2) = 0 →
  0 ≤ xx < 8 → 0 ≤ yy < 8 →
  (Z.even y && blackOnEven = true →
   image.inBounds img (bandTileX y x * 8 + xx) (bandTileY baseRow y * 8 + yy)) →
  image.At (paint img (rows_ops (dual_tile_ops spriteSheet baseRow blackOnEven) rows))
    (bandTileX y x * 8 + xx) (bandTileY baseRow y * 8 + yy)
  = if Z.even y && blackOnEven then color.mk 0 0 0 255
    else image.At img (bandTileX y x * 8 + xx) (bandTileY baseRow y * 8 + yy).
Proof.
  intros Hwf Hlen Hline Hx H1 H2 Hz1 Hz2 Hxx Hyy Hin.
  pose proof (index_lt _ _ _ Hline) as Hy.
  assert (len line ≤ 128) as Hl.
  { rewrite Forall_forall in Hlen. apply Hlen.
    apply index_Some in Hline as [_ Hl]. by eapply list_elem_of_lookup_2. }
  pose proof (index_lt _ _ _ H2) as Hx2.
  assert (x < Z.quot (len line) 2 ∧ x < 64) as [Hq Hx64]
    by (Z.to_euclidean_division_equations; lia).
  assert (∀ op, op ∈ rows_ops (dual_tile_ops spriteSheet baseRow blackOnEven) rows →
            op.1.1 = bandTileX y x * 8 + xx → op.1.2 = bandTileY baseRow y * 8 + yy →
            Z.even y = true ∧ blackOnEven = true ∧ op.2 = color.mk 0 0 0 255) as Hhit.
  { intros op Hop Hpx Hpy.
    destruct (dual_ops_hit _ _ _ _ _ Hlen Hop)
      as (y' & line' & x' & c1' & c2' & xx' & yy' & Hy' & Hline' & Hx' & H1' & H2'
          & Hxx' & Hyy' & Hpx' & Hpy' & _ & Hmem).
    rewrite Hpx' in Hpx. rewrite Hpy' in Hpy.
    destruct (band_tile_unique baseRow y y' x x' xx xx' yy yy')
      as (-> & -> & -> & ->); try (done || lia).
    assert (line' = line) as -> by congruence.
    exact (dual_tile_ops_blank spriteSheet baseRow blackOnEven line y x c1 c2 op
             H1 H2 Hz1 Hz2 Hmem). }
  destruct (Z.even y && blackOnEven) eqn:Eb.
  - apply andb_true_iff in Eb as [Heven ->].
    apply paint_At_hit; [exact Hwf | by apply Hin | |].
    + intros op Hop Hpx Hpy. by destruct (Hhit op Hop Hpx Hpy) as (_ & _ & ?).
    + exists (bandTileX y x * 8 + xx, bandTileY baseRow y * 8 + yy, color.mk 0 0 0 255).
      split; [|done]. apply elem_of_rows_ops. exists y, line, x.
      split; [lia|]. split; [exact Hline|]. split; [lia|].
      unfold dual_tile_ops, bandTileX, bandTileY. rewrite H1, H2. cbv zeta.
      rewrite rem2_even, Heven.
      rewrite decide_False by (intros [?|?]; done).
      apply elem_of_rect_ops. exists xx, yy. done.
  - apply paint_At_other; [exact Hwf|]. intros op Hop [Hpx Hpy].
    destruct (Hhit op Hop Hpx Hpy) as (Heven & Hb & _).
    rewrite Heven, Hb in Eb. discriminate Eb.
Qed.

(** C6. In the raster of [renderMap], for map dimensions whose raster
    fits an [int] and section lines of at most 128 characters, a tile pair
    of band-row [y] that decodes to (0,0) is treated as follows.  As a pair
    of section 3 on an even row, its tile (x, 32 + y/2) is an explicit blank
    tile: every pixel of the block is palette colour 0, whatever the regular
    map drew there.  As a pair of section 3 on an odd row, its tile
    (64 + x, 32 + y/2) is skipped: the block shows what the raster rendered
    without section 3 shows, the pixels of the regular map.  As a pair of
    section 4, on any row, its tile in tile row 48 + y/2 is skipped: the
    block shows what the raster rendered without section 4 shows, which
    with section 3 absent too are the pixels of the regular map. *)
Theorem C6_blank_tile_asymmetry (mapData rows : list gostring)
    (other : option (list gostring)) (spriteSheet : image.RGBA)
    (mapWidth mapHeight : Z) (y x : Z) (line : gostring) (c1 c2 : ascii)
    (xx yy : Z) :
  map_dims_fit mapWidth mapHeight →
  Forall (λ l, len l ≤ 128) rows →
  0 ≤ y < 32 → index rows y = Some line →
  0 ≤ x → index line (x * 2) = Some c1 → index line (x * 2 + 1) = Some c2 →
  parseHexChar (rune c1) = 0 → parseHexChar (rune c2) = 0 →
  0 ≤ xx < 8 → 0 ≤ yy < 8 →
  bandTileX y x < mapWidth → bandTileY 32 y < mapHeight →
  index pico8Palette 0 = Some (color.mk 0 0 0 255) ∧
  (∃ background drawn,
     renderMap mapData None other spriteSheet mapWidth mapHeight = Some background ∧
     renderMap mapData (Some rows) other spriteSheet mapWidth mapHeight = Some drawn ∧
     image.At background (bandTileX y x * 8 + xx) (bandTileY 32 y * 8 + yy)
     = baseMapColor spriteSheet mapData
         (bandTileX y x * 8 + xx) (bandTileY 32 y * 8 + yy) ∧
     image.At drawn (bandTileX y x * 8 + xx) (bandTileY 32 y * 8 + yy)
     = if Z.even y then color.mk 0 0 0 255
       else image.At background (bandTileX y x * 8 + xx) (bandTileY 32 y * 8 + yy)) ∧
  (∃ background drawn,
     renderMap mapData other None spriteSheet mapWidth mapHeight = Some background ∧
     renderMap mapData other (Some rows) spriteSheet mapWidth mapHeight = Some drawn ∧
     image.At drawn (bandTileX y x * 8 + xx) (bandTileY 48 y * 8 + yy)
     = image.At background (bandTileX y x * 8 + xx) (bandTileY 48 y * 8 + yy) ∧
     (other = None → bandTileY 48 y < mapHeight →
      image.At background (bandTileX y x * 8 + xx) (bandTileY 48 y * 8 + yy)
      = baseMapColor spriteSheet mapData
          (bandTileX y x * 8 + xx) (bandTileY 48 y * 8 + yy))).
Proof.
  intros (Hw & Hh & _) Hlen Hy Hline Hx H1 H2 Hz1 Hz2 Hxx Hyy HX HY.
  assert (0 ≤ bandTileX y x ∧ 32 ≤ bandTileY 32 y < 48 ∧ 48 ≤ bandTileY 48 y)
    as (HX0 & HY0 & HY4).
  { unfold bandTileX, bandTileY. destruct (Z.even y);
      Z.to_euclidean_division_equations; lia. }
  split; [reflexivity|]. split.
  - rewrite !renderMap_paint. eexists _, _. split; [reflexivity|].
    split; [reflexivity|].
    change (default [] (Some rows)) with rows.
    change (default [] (@None (list gostring))) with (@nil gostring).
    rewrite rows_ops_nil.
    set (img1 := paint (paint (image.NewRGBA (mapWidth * 8) (mapHeight * 8)) _) _).
    assert (image_wf img1) as Hwf1 by (apply paint_wf, paint_wf, NewRGBA_wf; lia).
    change (paint img1 []) with img1.
    set (ops3 := rows_ops (dual_tile_ops spriteSheet 32 true) rows).
    set (ops4 := rows_ops (dual_tile_ops spriteSheet 48 false) (default [] other)).
    assert (∀ op, op ∈ ops4 →
              ¬ (op.1.1 = bandTileX y x * 8 + xx ∧ op.1.2 = bandTileY 32 y * 8 + yy))
      as Hbelow.
    { intros op (y' & line' & x' & Hy' & _ & _ & Hop)%elem_of_rows_ops [_ Hpy].
      apply section4_below in Hop; [|exact Hy']. lia. }
    rewrite (paint_At_other (paint img1 ops3) ops4 _ _ (paint_wf _ _ Hwf1) Hbelow).
    rewrite (paint_At_other img1 ops4 _ _ Hwf1 Hbelow).
    split.
    { exact (base_pass_At spriteSheet mapData mapWidth mapHeight
               (bandTileX y x * 8 + xx) (bandTileY 32 y * 8 + yy)
               ltac:(lia) ltac:(lia)). }
    unfold ops3.
    rewrite (dual_pass_blank_At spriteSheet 32 true rows img1 y x line c1 c2 xx yy);
      try done.
    + by rewrite andb_true_r.
    + intros _. unfold image.inBounds, img1.
      rewrite !paint_W, !paint_H, NewRGBA_W, NewRGBA_H. lia.
  - rewrite !renderMap_paint. eexists _, _. split; [reflexivity|].
    split; [reflexivity|].
    change (default [] (Some rows)) with rows.
    change (default [] (@None (list gostring))) with (@nil gostring).
    rewrite rows_ops_nil. split.
    + set (img2 := paint (paint (paint (image.NewRGBA (mapWidth * 8) (mapHeight * 8)) _) _) _).
      change (paint img2 []) with img2.
      rewrite (dual_pass_blank_At spriteSheet 48 false rows img2 y x line c1 c2 xx yy);
        try done.
      * by rewrite andb_false_r.
      * apply paint_wf, paint_wf, paint_wf, NewRGBA_wf; lia.
      * rewrite andb_false_r. discriminate.
    + intros -> HY'.
      exact (base_pass_At spriteSheet mapData mapWidth mapHeight
               (bandTileX y x * 8 + xx) (bandTileY 48 y * 8 + yy)
               ltac:(lia) ltac:(lia)).
Qed.

(** Row 0 of a band with the pair 00 at tile 1, over a regular map whose
    line 32 put a sprite on that tile. *)
Lemma C6_blank_tile_asymmetry_witness :
  map_dims_fit 128 64 ∧
  Forall (λ l, len l ≤ 128) [gs "1200"] ∧
  0 ≤ 0 < 32 ∧ index [gs "1200"] 0 = Some (gs "1200") ∧
  0 ≤ 1 ∧ index (gs "1200") (1 * 2) = Some "0"%char ∧
  index (gs "1200") (1 * 2 + 1) = Some "0"%char ∧
  parseHexChar (rune "0") = 0 ∧ parseHexChar (rune "0") = 0 ∧
  0 ≤ 3 < 8 ∧ 0 ≤ 4 < 8 ∧ bandTileX 0 1 < 128 ∧ bandTileY 32 0 < 64 ∧
  index pico8Palette 0 = Some (color.mk 0 0 0 255) ∧
  (∃ background drawn,
     renderMap (replicate 32 [] ++ [gs "0011"]) None None (image.NewRGBA 128 128)
       128 64 = Some background ∧
     renderMap (replicate 32 [] ++ [gs "0011"]) (Some [gs "1200"]) None
       (image.NewRGBA 128 128) 128 64 = Some drawn ∧
     image.At background (bandTileX 0 1 * 8 + 3) (bandTileY 32 0 * 8 + 4)
     = baseMapColor (image.NewRGBA 128 128) (replicate 32 [] ++ [gs "0011"])
         (bandTileX 0 1 * 8 + 3) (bandTileY 32 0 * 8 + 4) ∧
     image.At drawn (bandTileX 0 1 * 8 + 3) (bandTileY 32 0 * 8 + 4)
     = if Z.even 0 then color.mk 0 0 0 255
       else image.At background (bandTileX 0 1 * 8 + 3) (bandTileY 32 0 * 8 + 4)) ∧
  (∃ background drawn,
     renderMap (replicate 32 [] ++ [gs "0011"]) None None (image.NewRGBA 128 128)
       128 64 = Some background ∧
     renderMap (replicate 32 [] ++ [gs "0011"]) None (Some [gs "1200"])
       (image.NewRGBA 128 128) 128 64 = Some drawn ∧
     image.At drawn (bandTileX 0 1 * 8 + 3) (bandTileY 48 0 * 8 + 4)
     = image.At background (bandTileX 0 1 * 8 + 3) (bandTileY 48 0 * 8 + 4) ∧
     ((None : option (list gostring)) = None → bandTileY 48 0 < 64 →
      image.At background (bandTileX 0 1 * 8 + 3) (bandTileY 48 0 * 8 + 4)
      = baseMapColor (image.NewRGBA 128 128) (replicate 32 [] ++ [gs "0011"])
          (bandTileX 0 1 * 8 + 3) (bandTileY 48 0 * 8 + 4))).
Proof.
  assert (map_dims_fit 128 64) as Hdims by (unfold map_dims_fit, int_max; lia).
  assert (Forall (λ l, len l ≤ 128) [gs "1200"]) as Hlen
    by (repeat constructor; vm_compute; discriminate).
  split; [exact Hdims|]. split; [exact Hlen|]. split; [lia|]. split; [reflexivity|].
  split; [lia|]. split; [reflexivity|]. split; [reflexivity|]. split; [reflexivity|].
  split; [reflexivity|]. split; [lia|]. split; [lia|].
  split; [vm_compute; reflexivity|]. split; [vm_compute; reflexivity|].
  exact (C6_blank_tile_asymmetry (replicate 32 [] ++ [gs "0011"]) [gs "1200"] None
           (image.NewRGBA 128 128) 128 64 0 1 (gs "1200") "0" "0" 3 4
           Hdims Hlen ltac:(lia) eq_refl ltac:(lia) eq_refl eq_refl eq_refl eq_refl
           ltac:(lia) ltac:(lia) eq_refl eq_refl).
Defined.
